(** * Venom-Bot bulk messaging: a shallow embedding of the dispatch core

    The development embeds, function by function, the parts of the repository
    that drive a campaign:

    - [Config]          config.ts (settings, [getRandomDelay],
                        [shouldTakeBatchBreak], [getRandomTemplate]);
    - [Validators]      src/validators.ts ([cleanPhoneNumber],
                        [formatPhoneNumber]);
    - [Tracker]         src/progressTracker.ts (class ProgressTracker);
    - [CsvParser]       src/csvParser.ts (the row loop of [parseCSV]);
    - [Engine]          index.ts ([sendMessageWithRetry],
                        [sendMessagesToCustomers]);
    - [GoPort]          the Go port shipped with the repository
                        ([getNextTemplateInPermutation]);
    - [CustomerChecks]  src/validators.ts ([validatePhoneNumber],
                        [selectBestPhoneNumber], [validateCustomerData],
                        [validateCSVStructure], [shouldSkipCustomer]);
    - [CsvFile]         src/csvParser.ts ([parseCSV], [parseCSVLine],
                        [saveFailedCustomers], [getCSVStats]);
    - [Intake]          index.ts ([processCustomers]);
    - [MessageHandler]  src/messageHandler.ts ([renderMessageTemplate],
                        [validateMessage]);
    - [GoIntake]        the Go port ([processCustomers] and the functions
                        it calls).

    JavaScript numbers are modelled as [Z] (every counter of the program is
    an integer far below 2^53), strings as [string] (their UTF-8 bytes, on
    which the digit tests of the program agree with those on UTF-16 units),
    [Set<string>] as [gset string] and the file system as finite maps.
    Logging and console output are left out. *)

From Stdlib Require Import ZArith Lia Ascii.
From stdpp Require Import base decidable option list strings pretty gmap.

Local Open Scope Z_scope.

(** ** JavaScript helpers *)

Module Js.

(** [a % b] on integers: the sign follows the dividend, and a zero divisor
    yields NaN, written [None]. *)
Definition rem (a b : Z) : option Z :=
  if b =? 0 then None else Some (Z.rem a b).

(** [x % b === 0]; NaN is not equal to anything. *)
Definition rem_is_zero (a b : Z) : bool :=
  match rem a b with
  | Some r => r =? 0
  | None => false
  end.

(** A value of [Math.random()]: the fraction [num / den] of the unit
    interval. Rounding of the floating-point product is not modelled. *)
Record Draw := { num : Z; den : Z }.

Definition unit_interval (d : Draw) : Prop := 0 <= num d < den d.

(** [Math.floor(Math.random() * n)] for an integer [n]. *)
Definition floor_scaled (d : Draw) (n : Z) : Z := (num d * n) / den d.

(** [s.startsWith(p)] *)
Definition startsWith (s p : string) : bool := String.prefix p s.

(** [s.substring(1)] *)
Definition substring1 (s : string) : string :=
  match s with
  | EmptyString => EmptyString
  | String _ rest => rest
  end.

(** The character class [\d]. *)
Definition is_digit (c : ascii) : bool :=
  let n := nat_of_ascii c in (48 <=? n)%nat && (n <=? 57)%nat.

(** [s.replace(/\D/g, '')] *)
Fixpoint strip_non_digits (s : string) : string :=
  match s with
  | EmptyString => EmptyString
  | String c rest =>
      if is_digit c then String c (strip_non_digits rest)
      else strip_non_digits rest
  end.

Fixpoint all_digits (s : string) : bool :=
  match s with
  | EmptyString => true
  | String c rest => is_digit c && all_digits rest
  end.

End Js.

(** ** config.ts *)

Module Config.

Record DelayRange := { min : Z; max : Z }.

Record Timing := {
  delayBetweenMessages : DelayRange;
  batchSize : Z;
  delayBetweenBatches : Z;
  initialWarmupDelay : Z;
  retryDelay : Z
}.

Record ErrorHandling := {
  maxRetries : Z;
  continueOnError : bool;
  saveFailedCustomers : bool
}.

Record Validation := {
  countryCode : string;
  phoneNumberLength : Z;
  skipInvalidNumbers : bool;
  preferMobileOverPhone : bool
}.

Record RateLimiting := {
  enabled : bool;
  maxMessagesPerDay : Z;
  maxMessagesPerHour : Z
}.

Record t := {
  timing : Timing;
  errorHandling : ErrorHandling;
  validation : Validation;
  rateLimiting : RateLimiting
}.

(** The exported constant [config]. *)
Definition config : t := {|
  timing := {|
    delayBetweenMessages := {| min := 5000; max := 12000 |};
    batchSize := 20;
    delayBetweenBatches := 120000;
    initialWarmupDelay := 15000;
    retryDelay := 30000
  |};
  errorHandling := {|
    maxRetries := 3;
    continueOnError := true;
    saveFailedCustomers := true
  |};
  validation := {|
    countryCode := "20";
    phoneNumberLength := 12;
    skipInvalidNumbers := true;
    preferMobileOverPhone := true
  |};
  rateLimiting := {|
    enabled := true;
    maxMessagesPerDay := 500;
    maxMessagesPerHour := 100
  |}
|}.

(** [getRandomDelay(isWarmup)], with the value drawn by [Math.random()]
    made explicit. *)
Definition getRandomDelay (cfg : t) (isWarmup : bool) (r : Js.Draw) : Z :=
  if isWarmup then initialWarmupDelay (timing cfg)
  else
    let lo := min (delayBetweenMessages (timing cfg)) in
    let hi := max (delayBetweenMessages (timing cfg)) in
    Js.floor_scaled r (hi - lo + 1) + lo.

(** [shouldTakeBatchBreak(messageCount)] *)
Definition shouldTakeBatchBreak (cfg : t) (messageCount : Z) : bool :=
  (0 <? messageCount) && Js.rem_is_zero messageCount (batchSize (timing cfg)).

(** [getRandomTemplate()]: a uniformly drawn element of [messageTemplates],
    or of the one-element list holding the default template when that list
    is empty. *)
Definition getRandomTemplate {T} (messageTemplates : list T)
    (defaultTemplate : T) (r : Js.Draw) : option T :=
  let templates :=
    if (0 <? Z.of_nat (length messageTemplates))
    then messageTemplates else [defaultTemplate] in
  templates !! Z.to_nat (Js.floor_scaled r (Z.of_nat (length templates))).

(** The configuration with another [rateLimiting] block. *)
Definition with_rateLimiting (cfg : t) (limits : RateLimiting) : t := {|
  timing := timing cfg;
  errorHandling := errorHandling cfg;
  validation := validation cfg;
  rateLimiting := limits
|}.

End Config.

(** ** src/validators.ts *)

Module Validators.

(** [cleanPhoneNumber(phone)] *)
Definition cleanPhoneNumber (phone : string) : string :=
  Js.strip_non_digits phone.

(** [formatPhoneNumber(phone)] *)
Definition formatPhoneNumber (cfg : Config.t) (phone : string) : string :=
  let cc := Config.countryCode (Config.validation cfg) in
  let cleaned := cleanPhoneNumber phone in
  if Js.startsWith cleaned "0" then cc +:+ Js.substring1 cleaned
  else if negb (Js.startsWith cleaned cc) then cc +:+ cleaned
  else cleaned.

(** A country code made of digits that does not begin with a zero. *)
Definition plain_country_code (cc : string) : bool :=
  Js.all_digits cc &&
  match cc with
  | EmptyString => false
  | String c _ => negb (Ascii.eqb c "0")
  end.

End Validators.

(** ** src/types.ts *)

Module Types.

(** A [Date], as milliseconds since the epoch. *)
Definition Date := Z.

Record Customer := {
  Code : string;
  CustomerName : string;
  Phone : string;
  Mobile : string
}.

Record ProcessedCustomer := {
  base : Customer;
  selectedPhone : string;
  formattedPhone : string;
  isValid : bool;
  validationError : option string
}.

Record MessageResult := {
  customer : ProcessedCustomer;
  success : bool;
  timestamp : Date;
  error : option string;
  retryCount : Z
}.

Record ProgressState := {
  totalCustomers : Z;
  processedCustomers : Z;
  successfulSends : Z;
  failedSends : Z;
  skippedCustomers : Z;
  startTime : Date;
  lastProcessedIndex : Z;
  currentBatch : Z
}.

End Types.

(** ** The file system seen by [fs.*Sync]

    Directories are a set of paths and regular files a map from path to
    content. Each primitive either succeeds or throws ([None]). *)

Module Fs.

Record t := { dirs : gset string; files : gmap string string }.

(** Part of a path before its last slash, if it has one. *)
Fixpoint before_last_slash (p : string) : option string :=
  match p with
  | EmptyString => None
  | String c rest =>
      match before_last_slash rest with
      | Some d => Some (String c d)
      | None => if Ascii.eqb c "/" then Some EmptyString else None
      end
  end.

(** [path.dirname(p)] for a path without trailing slashes. *)
Definition dirname (p : string) : string :=
  match before_last_slash p with
  | None => "."
  | Some EmptyString => "/"
  | Some d => d
  end.

(** [fs.existsSync(p)] *)
Definition existsSync (p : string) (fs : t) : bool :=
  bool_decide (p ∈ dirs fs) || bool_decide (is_Some (files fs !! p)).

(** The system-level effects the program causes. [writeFileSync] opens its
    target with flag 'w', which creates or truncates it, and then writes
    the data into the open file: two effects, [Truncate] then [Append].
    [MkdirRecursive] stands for [mkdirSync(dir, { recursive: true })]; the
    directories above [dir] that it creates on the way are not tracked. *)
Inductive Op :=
| MkdirRecursive (dir : string)
| Truncate (path : string)
| Append (path : string) (data : string)
| Rename (src dst : string)
| Unlink (path : string).

Definition exec (op : Op) (fs : t) : option t :=
  match op with
  | MkdirRecursive dir =>
      match files fs !! dir with
      | Some _ => None
      | None => Some {| dirs := {[dir]} ∪ dirs fs; files := files fs |}
      end
  | Truncate path =>
      if bool_decide (dirname path ∈ dirs fs) && negb (bool_decide (path ∈ dirs fs))
      then Some {| dirs := dirs fs; files := <[path := EmptyString]> (files fs) |}
      else None
  | Append path data =>
      match files fs !! path with
      | Some old => Some {| dirs := dirs fs; files := <[path := old +:+ data]> (files fs) |}
      | None => None
      end
  | Rename src dst =>
      match files fs !! src with
      | Some content =>
          Some {| dirs := dirs fs; files := <[dst := content]> (delete src (files fs)) |}
      | None => None
      end
  | Unlink path =>
      match files fs !! path with
      | Some _ => Some {| dirs := dirs fs; files := delete path (files fs) |}
      | None => None
      end
  end.

(** [fs.writeFileSync(path, data)] *)
Definition writeFileSync (path data : string) : list Op :=
  [Truncate path; Append path data].

(** The states the file system goes through while a block of effects runs
    inside [try { ... } catch]: the first effect that throws ends the
    block. A concurrent reader can be scheduled at any of them. *)
Fixpoint states (ops : list Op) (fs : t) : list t :=
  match ops with
  | [] => []
  | op :: rest =>
      match exec op fs with
      | Some fs' => fs' :: states rest fs'
      | None => []
      end
  end.

(** The state in which the block leaves the file system. *)
Definition run (ops : list Op) (fs : t) : t := List.last (states ops fs) fs.

(** [fs.readFileSync(path, 'utf-8')] *)
Definition readFileSync (path : string) (fs : t) : option string :=
  files fs !! path.

End Fs.

(** ** src/progressTracker.ts *)

Module Tracker.

Import Types.

Record t := {
  state : ProgressState;
  messageResults : list MessageResult;
  delays : list Z;
  progressFile : string
}.

(** [new ProgressTracker()], constructed at time [now]. *)
Definition create (now : Date) : t := {|
  state := {|
    totalCustomers := 0;
    processedCustomers := 0;
    successfulSends := 0;
    failedSends := 0;
    skippedCustomers := 0;
    startTime := now;
    lastProcessedIndex := -1;
    currentBatch := 0
  |};
  messageResults := [];
  delays := [];
  progressFile := "./data/progress.json"
|}.

Definition with_state (tr : t) (s : ProgressState) : t := {|
  state := s;
  messageResults := messageResults tr;
  delays := delays tr;
  progressFile := progressFile tr
|}.

Section Methods.

(** [Date.prototype.toISOString], which the standard library provides. *)
Context (toISOString : Date -> string).

Definition quote : string := String (ascii_of_nat 34) EmptyString.
Definition newline : string := String (ascii_of_nat 10) EmptyString.

Definition member (key value : string) : string :=
  "  " +:+ quote +:+ key +:+ quote +:+ ": " +:+ value.

(** [JSON.stringify(this.state, null, 2)] *)
Definition stringify (s : ProgressState) : string :=
  "{" +:+ newline
  +:+ member "totalCustomers" (pretty (totalCustomers s)) +:+ "," +:+ newline
  +:+ member "processedCustomers" (pretty (processedCustomers s)) +:+ "," +:+ newline
  +:+ member "successfulSends" (pretty (successfulSends s)) +:+ "," +:+ newline
  +:+ member "failedSends" (pretty (failedSends s)) +:+ "," +:+ newline
  +:+ member "skippedCustomers" (pretty (skippedCustomers s)) +:+ "," +:+ newline
  +:+ member "startTime" (quote +:+ toISOString (startTime s) +:+ quote) +:+ "," +:+ newline
  +:+ member "lastProcessedIndex" (pretty (lastProcessedIndex s)) +:+ "," +:+ newline
  +:+ member "currentBatch" (pretty (currentBatch s)) +:+ newline
  +:+ "}".

(** The effects of [saveProgress()], in order. *)
Definition saveProgress_ops (tr : t) (fs : Fs.t) : list Fs.Op :=
  let dir := Fs.dirname (progressFile tr) in
  (if Fs.existsSync dir fs then [] else [Fs.MkdirRecursive dir])
  ++ Fs.writeFileSync (progressFile tr) (stringify (state tr)).

(** [saveProgress()]: an exception is caught and logged. *)
Definition saveProgress (tr : t) (fs : Fs.t) : Fs.t :=
  Fs.run (saveProgress_ops tr fs) fs.

(** [initialize(totalCustomers)], called at time [now]. *)
Definition initialize (total : Z) (now : Date) (tr : t) (fs : Fs.t) : t * Fs.t :=
  let s := state tr in
  let tr' := with_state tr {|
    totalCustomers := total;
    processedCustomers := processedCustomers s;
    successfulSends := successfulSends s;
    failedSends := failedSends s;
    skippedCustomers := skippedCustomers s;
    startTime := now;
    lastProcessedIndex := lastProcessedIndex s;
    currentBatch := currentBatch s
  |} in
  (tr', saveProgress tr' fs).

(** [loadProgress()] returns the text it would parse, or [None] (null);
    it leaves the tracker as it is. *)
Definition loadProgress (tr : t) (fs : Fs.t) : option string :=
  if Fs.existsSync (progressFile tr) fs
  then Fs.readFileSync (progressFile tr) fs
  else None.

(** [recordResult(result, delay)] *)
Definition recordResult (result : MessageResult) (delay : Z)
    (tr : t) (fs : Fs.t) : t * Fs.t :=
  let s := state tr in
  let processed := processedCustomers s + 1 in
  let tr' := {|
    state := {|
      totalCustomers := totalCustomers s;
      processedCustomers := processed;
      successfulSends :=
        if success result then successfulSends s + 1 else successfulSends s;
      failedSends :=
        if success result then failedSends s else failedSends s + 1;
      skippedCustomers := skippedCustomers s;
      startTime := startTime s;
      lastProcessedIndex := processed - 1;
      currentBatch := currentBatch s
    |};
    messageResults := messageResults tr ++ [result];
    delays := delays tr ++ [delay];
    progressFile := progressFile tr
  |} in
  (tr', if Js.rem_is_zero processed 10 then saveProgress tr' fs else fs).

(** [recordSkipped()] *)
Definition recordSkipped (tr : t) : t :=
  let s := state tr in
  with_state tr {|
    totalCustomers := totalCustomers s;
    processedCustomers := processedCustomers s + 1;
    successfulSends := successfulSends s;
    failedSends := failedSends s;
    skippedCustomers := skippedCustomers s + 1;
    startTime := startTime s;
    lastProcessedIndex := lastProcessedIndex s;
    currentBatch := currentBatch s
  |}.

(** [incrementBatch()] *)
Definition incrementBatch (tr : t) : t :=
  let s := state tr in
  with_state tr {|
    totalCustomers := totalCustomers s;
    processedCustomers := processedCustomers s;
    successfulSends := successfulSends s;
    failedSends := failedSends s;
    skippedCustomers := skippedCustomers s;
    startTime := startTime s;
    lastProcessedIndex := lastProcessedIndex s;
    currentBatch := currentBatch s + 1
  |}.

(** [getState()]: a copy of the state. *)
Definition getState (tr : t) : ProgressState := state tr.

(** [getFailedCustomers()] *)
Definition getFailedCustomers (tr : t) : list ProcessedCustomer :=
  customer <$> filter (fun r => success r = false) (messageResults tr).

(** [clearProgress()] *)
Definition clearProgress (tr : t) (fs : Fs.t) : Fs.t :=
  if Fs.existsSync (progressFile tr) fs
  then Fs.run [Fs.Unlink (progressFile tr)] fs
  else fs.

(** The methods of the class, as the operations a client can invoke.
    The getters ([getState], [getSuccessRate], [getAverageDelay],
    [calculateETA], [generateReport], [getFailedCustomers],
    [displayStats]) only read. *)
Inductive Method :=
| Initialize (total : Z) (now : Date)
| LoadProgress
| SaveProgress
| RecordResult (result : MessageResult) (delay : Z)
| RecordSkipped
| IncrementBatch
| GetState
| GetSuccessRate
| GetAverageDelay
| CalculateETA
| GenerateReport
| GetFailedCustomers
| DisplayStats
| ClearProgress.

Definition call (m : Method) (w : t * Fs.t) : t * Fs.t :=
  let '(tr, fs) := w in
  match m with
  | Initialize total now => initialize total now tr fs
  | SaveProgress => (tr, saveProgress tr fs)
  | RecordResult result delay => recordResult result delay tr fs
  | RecordSkipped => (recordSkipped tr, fs)
  | IncrementBatch => (incrementBatch tr, fs)
  | ClearProgress => (tr, clearProgress tr fs)
  | LoadProgress | GetState | GetSuccessRate | GetAverageDelay
  | CalculateETA | GenerateReport | GetFailedCustomers | DisplayStats => (tr, fs)
  end.

(** The states of the singleton [progressTracker]: the freshly
    constructed one, and whatever a method call makes of a reachable
    state. *)
Inductive reachable : t * Fs.t -> Prop :=
| reachable_create now fs : reachable (create now, fs)
| reachable_call m w : reachable w -> reachable (call m w).

(** The invariant of the four counters. *)
Definition counters_balanced (s : ProgressState) : Prop :=
  processedCustomers s = successfulSends s + failedSends s + skippedCustomers s.

(** The progress file can be written: its path is not a directory, and the
    directory it lies in exists or can be created. *)
Definition writable (tr : t) (fs : Fs.t) : Prop :=
  (progressFile tr ∉ Fs.dirs fs) /\
  Fs.dirname (progressFile tr) <> progressFile tr /\
  ((Fs.dirname (progressFile tr) ∈ Fs.dirs fs) \/
   Fs.files fs !! Fs.dirname (progressFile tr) = None).

(** A save is atomic when a reader scheduled at any point of it finds in
    the progress file either what was there before or the new snapshot. *)
Definition save_is_atomic (tr : t) (fs : Fs.t) : Prop :=
  forall fs', fs' ∈ Fs.states (saveProgress_ops tr fs) fs ->
    Fs.readFileSync (progressFile tr) fs' = Fs.readFileSync (progressFile tr) fs \/
    Fs.readFileSync (progressFile tr) fs' = Some (stringify (state tr)).

(** A save goes through a temporary file when it writes to a path other
    than the progress file and renames that path onto it. *)
Definition renames_onto (path : string) (op : Fs.Op) : bool :=
  match op with
  | Fs.Rename _ dst => bool_decide (dst = path)
  | _ => false
  end.

(** The four counters, in the order processed, successful, failed, skipped. *)
Definition counters (tr : t) : Z * Z * Z * Z :=
  (processedCustomers (state tr), successfulSends (state tr),
   failedSends (state tr), skippedCustomers (state tr)).

(** The two methods that record an outcome. *)
Definition records_outcome (m : Method) : bool :=
  match m with
  | RecordResult _ _ | RecordSkipped => true
  | _ => false
  end.

End Methods.

End Tracker.

(** ** src/csvParser.ts *)

Module CsvParser.

(** [customer[header] = value] on an object created as [{}]. An assignment
    to [__proto__] goes to the setter inherited from [Object.prototype],
    which ignores a string: it creates no property of the object. *)
Definition setField (header value : string) (obj : gmap string string)
  : gmap string string :=
  if bool_decide (header = "__proto__") then obj else <[header := value]> obj.

(** The object a data row becomes: [customer[header] = values[index]],
    with the empty string for a missing value. *)
Definition rowObject (headers values : list string) : gmap string string :=
  foldl (fun obj hv => setField hv.2 (default EmptyString (values !! hv.1)) obj)
        ∅ (imap pair headers).

(** [customer.Code]. [validateCSVStructure] has checked that the header
    has this column before the rows are read. *)
Definition codeOf (customer : gmap string string) : string :=
  default EmptyString (customer !! "Code").

(** The loop of [parseCSV] over the data rows, each already split by
    [parseCSVLine]. It returns [customers] and the set [duplicates]. *)
Fixpoint rowLoop (headers : list string) (rows : list (list string))
    (seenCodes duplicates : gset string) (customers : list (gmap string string))
  : list (gmap string string) * gset string :=
  match rows with
  | [] => (customers, duplicates)
  | values :: rest =>
      if (length values <? length headers)%nat
      then rowLoop headers rest seenCodes duplicates customers
      else
        let customer := rowObject headers values in
        if bool_decide (codeOf customer ∈ seenCodes)
        then rowLoop headers rest seenCodes ({[codeOf customer]} ∪ duplicates) customers
        else rowLoop headers rest ({[codeOf customer]} ∪ seenCodes) duplicates
                     (customers ++ [customer])
  end.

(** The customers [parseCSV] returns for a header and data rows. *)
Definition parseRows (headers : list string) (rows : list (list string))
  : list (gmap string string) :=
  (rowLoop headers rows ∅ ∅ []).1.

End CsvParser.

(** ** index.ts *)

Module Engine.

Import Types.

(** What the WhatsApp client does during one pass of the retry loop. *)
Inductive Reply :=
| CheckRejects (message : string)
| NotRegistered
| SendRejects (message : string)
| Delivered.

(** What the engine does to the outside world, in order. *)
Inductive Event :=
| CheckNumberStatus (whatsappNumber : string)
| SendText (whatsappNumber : string)
| Sleep (ms : Z).

(** [formatWhatsAppNumber(phone)] of src/messageHandler.ts *)
Definition formatWhatsAppNumber (phone : string) : string := phone +:+ "@c.us".

(** [await delay(ms)] on a simulated clock: the timer never fires early. *)
Definition delay (ms : Z) (now : Z) : list Event * Z :=
  ([Sleep ms], now + Z.max 0 ms).

Record RunState := {
  tracker : Tracker.t;
  fs : Fs.t;
  now : Z;
  trace : list Event
}.

Section Dispatch.

Context (cfg : Config.t).

(** The [for] loop of [sendMessageWithRetry], with [remaining] passes left
    and [attempt] the loop variable; the function returns the result, the
    events it caused and the time at which it returns. *)
Fixpoint retryLoop (client : nat -> Reply) (customer : ProcessedCustomer)
    (remaining attempt : nat) (lastError : string) (now : Z)
  : MessageResult * list Event * Z :=
  let whatsappNumber := formatWhatsAppNumber (formattedPhone customer) in
  match remaining with
  | O =>
      ({| customer := customer; success := false; timestamp := now;
          error := Some lastError;
          retryCount := Config.maxRetries (Config.errorHandling cfg) |}, [], now)
  | S remaining' =>
      match client attempt with
      | NotRegistered =>
          ({| customer := customer; success := false; timestamp := now;
              error := Some "Phone number not registered on WhatsApp";
              retryCount := Z.of_nat attempt |},
           [CheckNumberStatus whatsappNumber], now)
      | Delivered =>
          ({| customer := customer; success := true; timestamp := now;
              error := None; retryCount := Z.of_nat attempt |},
           [CheckNumberStatus whatsappNumber; SendText whatsappNumber], now)
      | CheckRejects message =>
          let '(pause, now') :=
            if Z.of_nat attempt <? Config.maxRetries (Config.errorHandling cfg)
            then delay (Config.retryDelay (Config.timing cfg)) now else ([], now) in
          let '(result, later, finish) :=
            retryLoop client customer remaining' (S attempt) message now' in
          (result, CheckNumberStatus whatsappNumber :: pause ++ later, finish)
      | SendRejects message =>
          let '(pause, now') :=
            if Z.of_nat attempt <? Config.maxRetries (Config.errorHandling cfg)
            then delay (Config.retryDelay (Config.timing cfg)) now else ([], now) in
          let '(result, later, finish) :=
            retryLoop client customer remaining' (S attempt) message now' in
          (result,
           CheckNumberStatus whatsappNumber :: SendText whatsappNumber :: pause ++ later,
           finish)
      end
  end.

(** [sendMessageWithRetry(client, customer, isWarmup)], called at [now]. *)
Definition sendMessageWithRetry (client : nat -> Reply)
    (customer : ProcessedCustomer) (isWarmup : bool) (now : Z)
  : MessageResult * list Event * Z :=
  retryLoop client customer
    (Z.to_nat (Config.maxRetries (Config.errorHandling cfg) + 1)) 0 EmptyString now.

(** The surroundings of a run: the standard library's date printer, the
    client's behaviour for recipient [i] at each attempt, the value
    [Math.random()] yields for the delay of recipient [i], and whether the
    shutdown flag is up when the loop reaches index [i]. *)
Context (toISOString : Date -> string)
        (client : nat -> ProcessedCustomer -> nat -> Reply)
        (random : nat -> Js.Draw)
        (isShuttingDown : nat -> bool).

(** The body of the loop of [sendMessagesToCustomers] at index [i]. *)
Definition iteration (i : nat) (customer : ProcessedCustomer) (st : RunState) : RunState :=
  let isWarmup := Z.of_nat i <? 5 in
  let '(result, calls, returned) :=
    sendMessageWithRetry (client i customer) customer isWarmup (now st) in
  let delayMs := Config.getRandomDelay cfg isWarmup (random i) in
  let '(tr, fs') :=
    Tracker.recordResult toISOString result delayMs (tracker st) (fs st) in
  if Config.shouldTakeBatchBreak cfg (Z.of_nat i + 1) then
    let '(pause, resumed) :=
      delay (Config.delayBetweenBatches (Config.timing cfg)) returned in
    {| tracker := Tracker.incrementBatch tr; fs := fs'; now := resumed;
       trace := trace st ++ calls ++ pause |}
  else
    let '(pause, resumed) := delay delayMs returned in
    {| tracker := tr; fs := fs'; now := resumed;
       trace := trace st ++ calls ++ pause |}.

(** The loop of [sendMessagesToCustomers] from index [i] on. The array holds
    a customer at every index, so the guard [if (!customer) continue] never
    fires. *)
Fixpoint sendLoop (i : nat) (customers : list ProcessedCustomer) (st : RunState)
  : RunState :=
  match customers with
  | [] => st
  | customer :: rest =>
      if isShuttingDown i then st
      else sendLoop (S i) rest (iteration i customer st)
  end.

(** [sendMessagesToCustomers(client, customers)] *)
Definition sendMessagesToCustomers (customers : list ProcessedCustomer)
    (st : RunState) : RunState :=
  sendLoop 0 customers st.

End Dispatch.

(** A reply after which the loop goes on to its next pass. *)
Definition transient (r : Reply) : bool :=
  match r with
  | CheckRejects _ | SendRejects _ => true
  | NotRegistered | Delivered => false
  end.

(** The sleeps at the head of a trace, up to the next attempt. *)
Fixpoint sleeps_before_check (evs : list Event) : list Z :=
  match evs with
  | [] => []
  | CheckNumberStatus _ :: _ => []
  | Sleep ms :: rest => ms :: sleeps_before_check rest
  | SendText _ :: rest => sleeps_before_check rest
  end.

(** For each attempt of a trace, in order, the sleeps that follow it before
    the next attempt begins. *)
Fixpoint pauses_after_attempts (evs : list Event) : list (list Z) :=
  match evs with
  | [] => []
  | CheckNumberStatus _ :: rest =>
      sleeps_before_check rest :: pauses_after_attempts rest
  | _ :: rest => pauses_after_attempts rest
  end.

(** Counting the calls of a trace. *)
Definition is_check (e : Event) : bool :=
  match e with CheckNumberStatus _ => true | _ => false end.

Definition is_send (e : Event) : bool :=
  match e with SendText _ => true | _ => false end.

Definition sleeps (evs : list Event) : list Z :=
  omap (fun e => match e with Sleep ms => Some ms | _ => None end) evs.

(** One attempt is one pass of the retry loop; each pass begins with its
    call of [checkNumberStatus]. *)
Definition attempts_made (evs : list Event) : nat :=
  length (filter is_check evs).

Definition sends_made (evs : list Event) : nat :=
  length (filter is_send evs).

End Engine.

(** ** The Go port: template rotation *)

Module GoPort.

Section Rotator.

Context {T : Type}.

(** The package variable [messageTemplates]. *)
Context (messageTemplates : list T).

(** The package variables [selectedTemplates] and [templatePermutationIdx]. *)
Record Rotation := {
  selectedTemplates : list T;
  templatePermutationIdx : nat
}.

(** The slice a call rotates over: [selectedTemplates], replaced by
    [messageTemplates] when it is empty. *)
Definition effective (st : Rotation) : list T :=
  if (length (selectedTemplates st) =? 0)%nat
  then messageTemplates else selectedTemplates st.

(** [getNextTemplateInPermutation()]; indexing outside the slice panics
    ([None]). *)
Definition getNextTemplateInPermutation (st : Rotation) : option (T * Rotation) :=
  let selected := effective st in
  match selected !! templatePermutationIdx st with
  | None => None
  | Some template =>
      Some (template,
            {| selectedTemplates := selected;
               templatePermutationIdx :=
                 ((templatePermutationIdx st + 1) mod length selected)%nat |})
  end.

(** [n] calls in a row, with the templates they return. *)
Fixpoint calls (n : nat) (st : Rotation) : option (list T * Rotation) :=
  match n with
  | O => Some ([], st)
  | S n' =>
      match getNextTemplateInPermutation st with
      | None => None
      | Some (template, st') =>
          match calls n' st' with
          | None => None
          | Some (later, st'') => Some (template :: later, st'')
          end
      end
  end.

End Rotator.

(** The positions of a list of [N] templates that calls number [0] to
    [M - 1] serve when the index stands at [a] before the first of them. *)
Definition schedule (N a M : nat) : list nat :=
  (fun k => ((a + k) mod N)%nat) <$> seq 0 M.

(** How many of these calls serve position [j]. *)
Definition served (N a M j : nat) : nat :=
  length (filter (fun p => p = j) (schedule N a M)).

End GoPort.

(** ** Sample data for the examples *)

Module Sample.

Import Types.

(** A date printer for the examples, none of which depends on its output. *)
Definition printDate (d : Date) : string := pretty d.

(** An empty disk with the working directory. *)
Definition disk : Fs.t := {| Fs.dirs := {["."]}; Fs.files := ∅ |}.

(** The recipient with code [n] and the mobile number 20 10 0000 0000 + n. *)
Definition recipient (n : nat) : ProcessedCustomer := {|
  base := {| Code := pretty n; CustomerName := "Customer " +:+ pretty n;
             Phone := EmptyString;
             Mobile := pretty (201000000000 + Z.of_nat n) |};
  selectedPhone := pretty (201000000000 + Z.of_nat n);
  formattedPhone := pretty (201000000000 + Z.of_nat n);
  isValid := true;
  validationError := None
|}.


(** The state in which [main] enters [sendMessagesToCustomers] for [total]
    recipients: tracker constructed and initialized at the epoch. *)
Definition start (total : Z) : Engine.RunState :=
  let '(tr, fs) :=
    Tracker.initialize printDate total 0 (Tracker.create 0) disk in
  {| Engine.tracker := tr; Engine.fs := fs; Engine.now := 0; Engine.trace := [] |}.

(** The run of one recipient after one delivered message: the tracker has
    recorded it, the disk still holds the snapshot written by [initialize]. *)
Definition afterOne : Engine.RunState :=
  Engine.iteration Config.config printDate
    (fun _ _ _ => Engine.Delivered)
    (fun _ => {| Js.num := 0; Js.den := 2 ^ 53 |}) 0 (recipient 0) (start 1).

(** [Math.random()] always yielding 0, and always yielding its largest
    value. *)
Definition lowest (i : nat) : Js.Draw := {| Js.num := 0; Js.den := 2 ^ 53 |}.
Definition highest (i : nat) : Js.Draw := {| Js.num := 2 ^ 53 - 1; Js.den := 2 ^ 53 |}.

(** A client for which every number is registered and every send succeeds,
    one for which no number is registered, and one whose calls always
    reject. *)
Definition delivering (i : nat) (c : ProcessedCustomer) (attempt : nat) : Engine.Reply :=
  Engine.Delivered.
Definition unregistered (i : nat) (c : ProcessedCustomer) (attempt : nat) : Engine.Reply :=
  Engine.NotRegistered.
Definition offline (i : nat) (c : ProcessedCustomer) (attempt : nat) : Engine.Reply :=
  Engine.SendRejects "Connection lost".

(** The shutdown flag staying down. *)
Definition running (i : nat) : bool := false.

End Sample.

(** ** What a trace shows *)

Module Trace.

Import Engine.

(** The numbers a trace contacts, in order. *)
Definition contacted (evs : list Event) : list string :=
  omap (fun e =>
          match e with
          | CheckNumberStatus n | SendText n => Some n
          | Sleep _ => None
          end) evs.

(** Whether every [sendText] of a trace comes directly after a
    [checkNumberStatus] of the same number; [previous] is the event before
    the trace, if any. *)
Fixpoint sends_follow_checks (previous : option Event) (evs : list Event) : bool :=
  match evs with
  | [] => true
  | e :: rest =>
      match e with
      | SendText n =>
          match previous with
          | Some (CheckNumberStatus m) => bool_decide (n = m)
          | _ => false
          end
      | _ => true
      end && sends_follow_checks (Some e) rest
  end.

End Trace.

(** ** What the disk holds during a run *)

Module Checkpoint.

Import Types.

Section Checkpoint.

Context (toISOString : Date -> string).

(** The progress file holds a full snapshot, taken when the number of
    processed customers was last a multiple of ten, and can be written. *)
Definition upToDate (tr : Tracker.t) (fs : Fs.t) : Prop :=
  Tracker.writable tr fs /\
  0 <= processedCustomers (Tracker.state tr) /\
  exists s : ProgressState,
    Fs.readFileSync (Tracker.progressFile tr) fs
      = Some (Tracker.stringify toISOString s) /\
    processedCustomers s = 10 * (processedCustomers (Tracker.state tr) / 10).

End Checkpoint.

End Checkpoint.

(** ** More JavaScript helpers *)

Module JsText.

(** The double quote character. *)
Definition dquote : ascii := ascii_of_nat 34.

(** The line feed character. *)
Definition linefeed : ascii := ascii_of_nat 10.

(** [s.includes(p)] *)
Fixpoint includes (s p : string) : bool :=
  String.prefix p s ||
  match s with
  | EmptyString => false
  | String _ rest => includes rest p
  end.

(** [l.join(sep)] *)
Fixpoint join (sep : string) (l : list string) : string :=
  match l with
  | [] => EmptyString
  | [s] => s
  | s :: rest => s +:+ sep +:+ join sep rest
  end.

(** [s.split('\n')], with the line being read carried along. *)
Fixpoint splitLines (line s : string) : list string :=
  match s with
  | EmptyString => [line]
  | String c rest =>
      if Ascii.eqb c linefeed then line :: splitLines EmptyString rest
      else splitLines (line +:+ String c EmptyString) rest
  end.

(** Whether a character occurs in a string. *)
Fixpoint occurs (c : ascii) (s : string) : bool :=
  match s with
  | EmptyString => false
  | String d rest => Ascii.eqb c d || occurs c rest
  end.

End JsText.

(** ** src/validators.ts, the other functions

    [String.prototype.trim] and [toUpperCase] belong to the standard
    library and are taken as they come. Lengths are counted in bytes,
    which is the JavaScript length for the strings of digits and ASCII
    characters they are taken of here. *)

Module CustomerChecks.

Record ValidationResult := {
  isValid : bool;
  error : option string;
  formattedValue : option string
}.

Definition rejected (message : string) : ValidationResult :=
  {| isValid := false; error := Some message; formattedValue := None |}.

Section CustomerChecks.

Context (trim : string -> string) (toUpperCase : string -> string).
Context (cfg : Config.t).

(** [!s || s.trim() === ''] *)
Definition blank (s : string) : bool :=
  bool_decide (s = EmptyString) || bool_decide (trim s = EmptyString).

Definition invalidPatterns : list string := ["*****"; "***"; "65354"; "10000000"].

(** [validatePhoneNumber(phone)] *)
Definition validatePhoneNumber (phone : string) : ValidationResult :=
  if blank phone then rejected "Phone number is empty"
  else if bool_decide (trim phone ∈ invalidPatterns)
  then rejected "Invalid phone number pattern"
  else
    let cleaned := Validators.cleanPhoneNumber phone in
    if (String.length cleaned =? 0)%nat
    then rejected "Phone number contains no digits"
    else
      let formatted := Validators.formatPhoneNumber cfg cleaned in
      let expectedLength := Config.phoneNumberLength (Config.validation cfg) in
      if negb (Z.of_nat (String.length formatted) =? expectedLength)
      then rejected ("Phone number length is "
                     +:+ pretty (Z.of_nat (String.length formatted))
                     +:+ ", expected " +:+ pretty expectedLength)
      else if negb (Js.startsWith formatted
                      (Config.countryCode (Config.validation cfg)))
      then rejected ("Phone number must start with "
                     +:+ Config.countryCode (Config.validation cfg))
      else {| isValid := true; error := None; formattedValue := Some formatted |}.

(** [selectBestPhoneNumber(customer)] *)
Definition selectBestPhoneNumber (customer : Types.Customer) : string :=
  if Config.preferMobileOverPhone (Config.validation cfg) then
    if negb (blank (Types.Mobile customer)) then Types.Mobile customer
    else Types.Phone customer
  else if negb (blank (Types.Phone customer)) then Types.Phone customer
  else Types.Mobile customer.

(** [validateCustomerData(customer)] *)
Definition validateCustomerData (customer : Types.Customer) : ValidationResult :=
  if blank (Types.CustomerName customer) then rejected "Customer name is required"
  else if blank (Types.Code customer) then rejected "Customer code is required"
  else
    let hasPhone := negb (blank (Types.Phone customer)) in
    let hasMobile := negb (blank (Types.Mobile customer)) in
    if negb hasPhone && negb hasMobile then rejected "No phone number provided"
    else {| isValid := true; error := None; formattedValue := None |}.

Definition requiredHeaders : list string := ["Code"; "CustomerName"; "Phone"; "Mobile"].

(** [validateCSVStructure(headers)] *)
Definition validateCSVStructure (headers : list string) : ValidationResult :=
  let missingHeaders := filter (fun h => h ∉ headers) requiredHeaders in
  if (0 <? length missingHeaders)%nat
  then rejected ("Missing required columns: " +:+ JsText.join ", " missingHeaders)
  else {| isValid := true; error := None; formattedValue := None |}.

(** [shouldSkipCustomer(customer)]: the flag [skip] and the reason. *)
Definition shouldSkipCustomer (customer : Types.Customer) : bool * option string :=
  if JsText.includes (toUpperCase (Types.CustomerName customer)) "SPECIAL ORDER"
  then (true, Some "Special order entry")
  else if bool_decide (Types.Code customer = "0")
          || bool_decide (Types.Code customer = "00")
  then (true, Some "Test entry")
  else (false, None).

End CustomerChecks.

End CustomerChecks.

(** ** src/csvParser.ts, the other functions *)

Module CsvFile.

Section CsvFile.

Context (trim : string -> string).

(** The loop of [parseCSVLine] over the characters still to read. *)
Fixpoint scan (line : string) (values : list string) (currentValue : string)
    (insideQuotes : bool) : list string :=
  match line with
  | EmptyString => values ++ [trim currentValue]
  | String char rest =>
      if Ascii.eqb char JsText.dquote then
        match insideQuotes, rest with
        | true, String nextChar rest' =>
            if Ascii.eqb nextChar JsText.dquote
            then scan rest' values
                      (currentValue +:+ String JsText.dquote EmptyString) true
            else scan rest values currentValue (negb insideQuotes)
        | _, _ => scan rest values currentValue (negb insideQuotes)
        end
      else if Ascii.eqb char "," && negb insideQuotes
      then scan rest (values ++ [trim currentValue]) EmptyString insideQuotes
      else scan rest values (currentValue +:+ String char EmptyString) insideQuotes
  end.

(** [parseCSVLine(line)] *)
Definition parseCSVLine (line : string) : list string :=
  scan line [] EmptyString false.

(** What a thrown exception carries: an error of the file system, or an
    [Error] with its message. *)
Inductive Failure :=
| SystemError
| Error (message : string).

(** [parseCSV(filePath)]: the failure it throws, or the customers. *)
Definition parseCSV (filePath : string) (fs : Fs.t)
  : Failure + list (gmap string string) :=
  match Fs.readFileSync filePath fs with
  | None => inl SystemError
  | Some fileContent =>
      let lines :=
        filter (fun line => trim line <> EmptyString)
               (JsText.splitLines EmptyString fileContent) in
      match lines with
      | [] => inl (Error "CSV file is empty")
      | headerLine :: rows =>
          if bool_decide (headerLine = EmptyString)
          then inl (Error "CSV header is missing")
          else
            let headers := parseCSVLine headerLine in
            let validation := CustomerChecks.validateCSVStructure headers in
            if negb (CustomerChecks.isValid validation)
            then inl (Error (default EmptyString (CustomerChecks.error validation)))
            else inr (CsvParser.parseRows headers (parseCSVLine <$> rows))
      end
  end.

(** The line [saveFailedCustomers] writes for a customer. *)
Definition failedRow (c : Types.Customer) : string :=
  Types.Code c +:+ "," +:+ String JsText.dquote EmptyString
  +:+ Types.CustomerName c +:+ String JsText.dquote EmptyString
  +:+ "," +:+ Types.Phone c +:+ "," +:+ Types.Mobile c.

(** The text [saveFailedCustomers] writes. *)
Definition failedContent (customers : list Types.Customer) : string :=
  "Code,CustomerName,Phone,Mobile" +:+ String JsText.linefeed EmptyString
  +:+ JsText.join (String JsText.linefeed EmptyString) (failedRow <$> customers).

(** [saveFailedCustomers(customers, filePath)]: what the call does to the
    disk, the lines of the log apart. An exception is caught and logged. *)
Definition saveFailedCustomers (customers : list Types.Customer)
    (filePath : string) (fs : Fs.t) : Fs.t :=
  Fs.run (Fs.writeFileSync filePath (failedContent customers)) fs.

(** A customer whose fields [saveFailedCustomers] can write on one line
    without quoting: no double quote and no line feed in any field, and no
    comma outside the name, which is the one field it puts in quotes. *)
Definition plain (c : Types.Customer) : bool :=
  forallb (fun field => negb (JsText.occurs JsText.dquote field)
                        && negb (JsText.occurs JsText.linefeed field))
          [Types.Code c; Types.CustomerName c; Types.Phone c; Types.Mobile c]
  && forallb (fun field => negb (JsText.occurs "," field))
             [Types.Code c; Types.Phone c; Types.Mobile c].

Record Stats := {
  total : Z;
  withPhone : Z;
  withMobile : Z;
  withBoth : Z;
  withNeither : Z
}.

(** The body of the [forEach] of [getCSVStats]. *)
Definition count (stats : Stats) (customer : Types.Customer) : Stats :=
  let hasPhone := negb (CustomerChecks.blank trim (Types.Phone customer)) in
  let hasMobile := negb (CustomerChecks.blank trim (Types.Mobile customer)) in
  if hasPhone && hasMobile then
    {| total := total stats; withPhone := withPhone stats;
       withMobile := withMobile stats; withBoth := withBoth stats + 1;
       withNeither := withNeither stats |}
  else if hasPhone then
    {| total := total stats; withPhone := withPhone stats + 1;
       withMobile := withMobile stats; withBoth := withBoth stats;
       withNeither := withNeither stats |}
  else if hasMobile then
    {| total := total stats; withPhone := withPhone stats;
       withMobile := withMobile stats + 1; withBoth := withBoth stats;
       withNeither := withNeither stats |}
  else
    {| total := total stats; withPhone := withPhone stats;
       withMobile := withMobile stats; withBoth := withBoth stats;
       withNeither := withNeither stats + 1 |}.

(** [getCSVStats(customers)] *)
Definition getCSVStats (customers : list Types.Customer) : Stats :=
  foldl count
        {| total := Z.of_nat (length customers); withPhone := 0;
           withMobile := 0; withBoth := 0; withNeither := 0 |}
        customers.

End CsvFile.

End CsvFile.

(** ** index.ts: [processCustomers] *)

Module Intake.

Section Intake.

Context (trim : string -> string) (toUpperCase : string -> string).

(** [sanitizeCustomerName] of src/validators.ts rewrites the name with
    regular expressions; what follows holds whatever it returns. *)
Context (sanitizeCustomerName : string -> string).
Context (cfg : Config.t).

(** The body of the loop: the processed customer to push, or [None] where
    the loop goes on to the next customer. *)
Definition processCustomer (customer : Types.Customer)
  : option Types.ProcessedCustomer :=
  if (CustomerChecks.shouldSkipCustomer toUpperCase customer).1 then None
  else if negb (CustomerChecks.isValid
                  (CustomerChecks.validateCustomerData trim customer))
  then None
  else
    let selectedPhone := CustomerChecks.selectBestPhoneNumber trim cfg customer in
    let phoneValidation := CustomerChecks.validatePhoneNumber trim cfg selectedPhone in
    let processedCustomer := {|
      Types.base := {|
        Types.Code := Types.Code customer;
        Types.CustomerName := sanitizeCustomerName (Types.CustomerName customer);
        Types.Phone := Types.Phone customer;
        Types.Mobile := Types.Mobile customer
      |};
      Types.selectedPhone := selectedPhone;
      Types.formattedPhone :=
        default EmptyString (CustomerChecks.formattedValue phoneValidation);
      Types.isValid := CustomerChecks.isValid phoneValidation;
      Types.validationError := CustomerChecks.error phoneValidation
    |} in
    if negb (Types.isValid processedCustomer)
       && Config.skipInvalidNumbers (Config.validation cfg)
    then None
    else Some processedCustomer.

(** [processCustomers(customers)] *)
Definition processCustomers (customers : list Types.Customer)
  : list Types.ProcessedCustomer :=
  omap processCustomer customers.

End Intake.

End Intake.

(** ** src/messageHandler.ts

    The message is a JavaScript string: a sequence of UTF-16 code units,
    here numbers. [replace] with a global pattern and [trim] belong to the
    standard library and are taken as they come; [maxLength],
    [messageTemplates] and [defaultTemplate] are the values of the
    configuration. *)

Module MessageHandler.

Definition Text := list Z.

(** The string '...'. *)
Definition ellipsis : Text := [46; 46; 46].

(** [s.substring(0, n)] *)
Definition substring0 (s : Text) (n : Z) : Text := take (Z.to_nat n) s.

Section MessageHandler.

Context (replaceAll : string -> string -> Text -> Text) (trim : Text -> Text).
Context (maxLength : Z) (messageTemplates : list Text) (defaultTemplate : Text).

(** [renderMessageTemplate(customer, template)], with the value drawn by
    [Math.random()] when no template is passed; [None] where indexing the
    templates yields undefined and the call of [replace] on it throws. *)
Definition renderMessageTemplate (customer : Types.ProcessedCustomer)
    (template : option Text) (r : Js.Draw) : option Text :=
  let messageTemplate :=
    match template with
    | Some (unit :: units) => Some (unit :: units)
    | Some [] | None =>
        Config.getRandomTemplate messageTemplates defaultTemplate r
    end in
  match messageTemplate with
  | None => None
  | Some messageTemplate =>
      let message :=
        trim
          (replaceAll "{Mobile}" (Types.Mobile (Types.base customer))
             (replaceAll "{Phone}" (Types.Phone (Types.base customer))
                (replaceAll "{Code}" (Types.Code (Types.base customer))
                   (replaceAll "{CustomerName}"
                      (Types.CustomerName (Types.base customer))
                      messageTemplate)))) in
      if maxLength <? Z.of_nat (length message)
      then Some (substring0 message (maxLength - 3) ++ ellipsis)
      else Some message
  end.

(** [validateMessage(message)]: the flag [valid] and the error. *)
Definition validateMessage (message : Text) : bool * option string :=
  if bool_decide (message = []) || bool_decide (trim message = [])
  then (false, Some "Message is empty")
  else if maxLength <? Z.of_nat (length message)
  then (false,
        Some ("Message exceeds maximum length ("
              +:+ pretty (Z.of_nat (length message)) +:+ "/"
              +:+ pretty maxLength +:+ ")"))
  else (true, None).

End MessageHandler.

End MessageHandler.

(** ** The Go port: validation and intake *)

Module GoIntake.

(** The fields of [Config] that the functions below read. *)
Record Config := {
  CountryCode : string;
  PhoneLength : Z;
  SkipInvalid : bool;
  PreferMobile : bool;
  SkipDuplicates : bool
}.

Record Customer := {
  Code : string;
  CustomerName : string;
  Phone : string;
  Mobile : string;
  HasWhatsApp : string
}.

Record ProcessedCustomer := {
  base : Customer;
  SelectedPhone : string;
  FormattedPhone : string;
  IsValid : bool;
  ValidationError : string
}.

(** The counters of [ProgressTracker]. *)
Record ProgressTracker := {
  Total : Z;
  Processed : Z;
  Successful : Z;
  Failed : Z;
  Skipped : Z;
  Duplicates : Z
}.

Definition skip (progress : ProgressTracker) : ProgressTracker := {|
  Total := Total progress; Processed := Processed progress;
  Successful := Successful progress; Failed := Failed progress;
  Skipped := Skipped progress + 1; Duplicates := Duplicates progress
|}.

Definition skipDuplicate (progress : ProgressTracker) : ProgressTracker := {|
  Total := Total progress; Processed := Processed progress;
  Successful := Successful progress; Failed := Failed progress;
  Skipped := Skipped progress + 1; Duplicates := Duplicates progress + 1
|}.

Section GoIntake.

(** [strings.ToUpper] of the standard library. *)
Context (ToUpper : string -> string).
Context (config : Config).

(** [strings.TrimPrefix(s, "0")] *)
Definition trimZero (s : string) : string :=
  if String.prefix "0" s then Js.substring1 s else s.

(** [cleanPhoneNumber(phone)] *)
Definition cleanPhoneNumber (phone : string) : string := Js.strip_non_digits phone.

(** [formatPhoneNumber(phone)] *)
Definition formatPhoneNumber (phone : string) : string :=
  let phone := trimZero phone in
  if negb (String.prefix (CountryCode config) phone)
  then CountryCode config +:+ phone
  else phone.

Definition invalidPatterns : list string := ["*****"; "***"; "65354"; "10000000"].

(** [validateAndFormatPhone(phone)] *)
Definition validateAndFormatPhone (phone : string) : string * bool * string :=
  if bool_decide (phone = EmptyString)
  then (EmptyString, false, "Phone number is empty")
  else if bool_decide (phone ∈ invalidPatterns)
  then (EmptyString, false, "Invalid phone number pattern")
  else
    let cleaned := cleanPhoneNumber phone in
    if (String.length cleaned =? 0)%nat
    then (EmptyString, false, "No digits in phone number")
    else
      let formatted := formatPhoneNumber cleaned in
      if negb (Z.of_nat (String.length formatted) =? PhoneLength config)
      then (EmptyString, false,
            "Invalid length: " +:+ pretty (Z.of_nat (String.length formatted))
            +:+ ", expected " +:+ pretty (PhoneLength config))
      else if negb (String.prefix (CountryCode config) formatted)
      then (EmptyString, false, "Must start with " +:+ CountryCode config)
      else (formatted, true, EmptyString).

(** [shouldSkipCustomer(customer)] *)
Definition shouldSkipCustomer (customer : Customer) : bool :=
  JsText.includes (ToUpper (CustomerName customer)) "SPECIAL ORDER"
  || bool_decide (Code customer = "0").

(** [validateCustomerData(customer)] *)
Definition validateCustomerData (customer : Customer) : bool :=
  if bool_decide (CustomerName customer = EmptyString)
     || bool_decide (Code customer = EmptyString)
  then false
  else if bool_decide (Phone customer = EmptyString)
          && bool_decide (Mobile customer = EmptyString)
  then false
  else true.

(** [selectBestPhone(customer)] *)
Definition selectBestPhone (customer : Customer) : string :=
  if PreferMobile config && negb (bool_decide (Mobile customer = EmptyString))
  then Mobile customer
  else if negb (bool_decide (Phone customer = EmptyString))
  then Phone customer
  else Mobile customer.

(** The loop of [processCustomers], with the package variable [progress],
    the set of keys of [seenPhones] and the slice [processed]. *)
Fixpoint processLoop (customers : list Customer) (progress : ProgressTracker)
    (seenPhones : gset string) (processed : list ProcessedCustomer)
  : ProgressTracker * list ProcessedCustomer :=
  match customers with
  | [] => (progress, processed)
  | customer :: rest =>
      if bool_decide (HasWhatsApp customer = "no")
      then processLoop rest (skip progress) seenPhones processed
      else if shouldSkipCustomer customer
      then processLoop rest (skip progress) seenPhones processed
      else if negb (validateCustomerData customer)
      then processLoop rest (skip progress) seenPhones processed
      else
        let selectedPhone := selectBestPhone customer in
        let '(formattedPhone, isValid, validationError) :=
          validateAndFormatPhone selectedPhone in
        let pc := {|
          base := customer;
          SelectedPhone := selectedPhone;
          FormattedPhone := formattedPhone;
          IsValid := isValid;
          ValidationError := validationError
        |} in
        if negb isValid && SkipInvalid config
        then processLoop rest (skip progress) seenPhones processed
        else if SkipDuplicates config then
          if bool_decide (formattedPhone ∈ seenPhones)
          then processLoop rest (skipDuplicate progress) seenPhones processed
          else processLoop rest progress ({[formattedPhone]} ∪ seenPhones)
                           (processed ++ [pc])
        else processLoop rest progress seenPhones (processed ++ [pc])
  end.

(** [processCustomers(customers)] *)
Definition processCustomers (customers : list Customer)
    (progress : ProgressTracker) : ProgressTracker * list ProcessedCustomer :=
  processLoop customers progress ∅ [].



(** What holds of a customer that the loop appended to [processed]. *)
Definition kept (pc : ProcessedCustomer) : Prop :=
  SelectedPhone pc = selectBestPhone (base pc) /\
  HasWhatsApp (base pc) <> "no" /\
  shouldSkipCustomer (base pc) = false /\
  validateCustomerData (base pc) = true /\
  (FormattedPhone pc, IsValid pc, ValidationError pc)
    = validateAndFormatPhone (SelectedPhone pc) /\
  (SkipInvalid config = true -> IsValid pc = true).

End GoIntake.

End GoIntake.

(** ** Sample inputs for the intake *)

Module Examples.

(** [trim] on text whose blank characters are ASCII: tab, line feed,
    vertical tab, form feed, carriage return and space. *)
Fixpoint trimStart (s : string) : string :=
  match s with
  | EmptyString => EmptyString
  | String c rest => if Ascii.is_space c then trimStart rest else s
  end.

Definition trim (s : string) : string :=
  String.rev (trimStart (String.rev (trimStart s))).

(** [toUpperCase] on ASCII text. *)
Definition upper (c : ascii) : ascii :=
  let n := nat_of_ascii c in
  if (97 <=? n)%nat && (n <=? 122)%nat then ascii_of_nat (n - 32) else c.

Fixpoint toUpperCase (s : string) : string :=
  match s with
  | EmptyString => EmptyString
  | String c rest => String (upper c) (toUpperCase rest)
  end.

(** Customer number [n] of a list, with a mobile number written the local
    way, and the same person entered a second time under another code. *)
Definition customer (n : nat) : Types.Customer := {|
  Types.Code := pretty n;
  Types.CustomerName := "Customer " +:+ pretty n;
  Types.Phone := EmptyString;
  Types.Mobile := "010 0000 " +:+ pretty (1000 + Z.of_nat n)
|}.

Definition special : Types.Customer := {|
  Types.Code := "900";
  Types.CustomerName := "special order desk";
  Types.Phone := "0100000000";
  Types.Mobile := EmptyString
|}.

(** A template without placeholders, as UTF-16 code units, and [replace]
    and [trim] on such a text. *)
Definition greeting : MessageHandler.Text := [72; 101; 108; 108; 111].

Definition replaceNone (pattern replacement : string)
    (text : MessageHandler.Text) : MessageHandler.Text := text.

Definition trimNone (text : MessageHandler.Text) : MessageHandler.Text := text.



(** The settings of the Go port that correspond to the shipped
    configuration. *)
Definition goConfig : GoIntake.Config := {|
  GoIntake.CountryCode := "20";
  GoIntake.PhoneLength := 12;
  GoIntake.SkipInvalid := true;
  GoIntake.PreferMobile := true;
  GoIntake.SkipDuplicates := true
|}.

End Examples.

(** * Properties *)

Section ValidatorFacts.

Import Js Validators.

Lemma strip_non_digits_all_digits s : all_digits (strip_non_digits s) = true.
Proof.
    induction s as [|c s IH]; simpl; [done|].
    destruct (is_digit c) eqn:E; simpl; [rewrite E|]; done.
Qed.

Lemma strip_non_digits_fixed s :
    all_digits s = true -> strip_non_digits s = s.
Proof.
    induction s as [|c s IH]; simpl; [done|].
    intros [Hc Hs]%andb_prop. rewrite Hc, IH; done.
Qed.

Lemma all_digits_app s1 s2 :
    all_digits (s1 +:+ s2) = all_digits s1 && all_digits s2.
Proof.
    induction s1 as [|c s1 IH]; simpl; [done|].
    rewrite IH, andb_assoc; done.
Qed.

Lemma all_digits_substring1 s :
    all_digits s = true -> all_digits (substring1 s) = true.
Proof. destruct s; simpl; [done|]. intros [_ ?]%andb_prop; done. Qed.

Lemma prefix_app p s : String.prefix p (p +:+ s) = true.
Proof.
    induction p as [|c p IH]; simpl; [by destruct s|].
    destruct (ascii_dec c c); [done|congruence].
Qed.

End ValidatorFacts.

Section FormatPhoneNumber.

Import Js Validators.

Context (cfg : Config.t).

Let cc := Config.countryCode (Config.validation cfg).

Lemma prefix_first c p s :
  String.prefix (String c p) s = true -> exists s', s = String c s'.
Proof.
  destruct s as [|b s]; simpl; [done|].
  destruct (ascii_dec c b) as [->|]; [eauto|done].
Qed.

Lemma plain_country_code_first :
  plain_country_code cc = true ->
  all_digits cc = true /\ exists c rest, cc = String c rest /\ c <> "0"%char.
Proof.
  unfold plain_country_code. intros [Hd Hc]%andb_prop. split; [done|].
  destruct cc as [|c rest]; [done|]. exists c, rest. split; [done|].
  intros ->. done.
Qed.

Lemma formatPhoneNumber_startsWith s :
  startsWith (formatPhoneNumber cfg s) cc = true.
Proof.
  unfold formatPhoneNumber, startsWith. fold cc.
  destruct (String.prefix "0" (cleanPhoneNumber s)); [apply prefix_app|].
  destruct (String.prefix cc (cleanPhoneNumber s)) eqn:E; simpl;
    [done|apply prefix_app].
Qed.

Lemma formatPhoneNumber_digits s :
  all_digits cc = true -> all_digits (formatPhoneNumber cfg s) = true.
Proof.
  intros Hcc. unfold formatPhoneNumber, cleanPhoneNumber. fold cc.
  pose proof (strip_non_digits_all_digits s) as Hs.
  repeat case_match; rewrite ?all_digits_app, ?Hcc; simpl;
    auto using all_digits_substring1.
Qed.

Lemma formatPhoneNumber_fixed r :
  plain_country_code cc = true ->
  all_digits r = true -> startsWith r cc = true ->
  formatPhoneNumber cfg r = r.
Proof.
  intros [_ (c & rest & Hcc & Hc)]%plain_country_code_first Hr Hp.
  unfold formatPhoneNumber, cleanPhoneNumber, startsWith in *. fold cc in Hp |- *.
  rewrite (strip_non_digits_fixed r Hr), Hp. simpl.
  rewrite Hcc in Hp. apply prefix_first in Hp as [r' ->].
  change (String.prefix "0" (String c r'))
    with (if ascii_dec "0" c then String.prefix EmptyString r' else false).
  destruct (ascii_dec "0" c) as [<-|]; [congruence|done].
Qed.

(** C10: for every input string, [formatPhoneNumber] returns a string of
    digits that starts with the configured country code, and formatting a
    formatted number changes nothing. The country code is one like the
    configured "20": digits only, not beginning with a zero. *)
Theorem formatPhoneNumber_prefixed_idempotent (s : string) :
  plain_country_code cc = true ->
  all_digits (formatPhoneNumber cfg s) = true /\
  startsWith (formatPhoneNumber cfg s) cc = true /\
  formatPhoneNumber cfg (formatPhoneNumber cfg s) = formatPhoneNumber cfg s.
Proof.
  intros Hcc.
  destruct (plain_country_code_first Hcc) as [Hd _].
  split; [by apply formatPhoneNumber_digits|].
  split; [apply formatPhoneNumber_startsWith|].
  apply formatPhoneNumber_fixed;
    auto using formatPhoneNumber_digits, formatPhoneNumber_startsWith.
Qed.

End FormatPhoneNumber.

Lemma formatPhoneNumber_prefixed_idempotent_witness :
  Validators.plain_country_code
    (Config.countryCode (Config.validation Config.config)) = true /\
  Js.all_digits (Validators.formatPhoneNumber Config.config "010-1234 5678") = true /\
  Js.startsWith (Validators.formatPhoneNumber Config.config "010-1234 5678") "20" = true /\
  Validators.formatPhoneNumber Config.config
    (Validators.formatPhoneNumber Config.config "010-1234 5678")
  = Validators.formatPhoneNumber Config.config "010-1234 5678".
Proof.
  split; [reflexivity|].
  apply (formatPhoneNumber_prefixed_idempotent Config.config "010-1234 5678").
  reflexivity.
Defined.

Section TrackerFacts.

Import Types Tracker.

Context (toISOString : Date -> string).

Lemma recordResult_counters result delay tr fs :
  counters (recordResult toISOString result delay tr fs).1 =
  let '(p, s, f, k) := counters tr in
  if success result then (p + 1, s + 1, f, k) else (p + 1, s, f + 1, k).
Proof. unfold counters; simpl. by destruct (success result). Qed.

Lemma recordSkipped_counters tr :
  counters (recordSkipped tr) =
  let '(p, s, f, k) := counters tr in (p + 1, s, f, k + 1).
Proof. reflexivity. Qed.

Lemma call_other_counters m w :
  records_outcome m = false -> counters (call toISOString m w).1 = counters w.1.
Proof. destruct w as [tr fs]. by destruct m. Qed.

Lemma call_balanced m w :
  counters_balanced (state w.1) ->
  counters_balanced (state (call toISOString m w).1).
Proof.
  destruct w as [tr fs]. unfold counters_balanced.
  destruct m; simpl; try done; try lia.
  destruct (success result); simpl; lia.
Qed.

(** C1: in every state the tracker can reach from its construction,
    processedCustomers = successfulSends + failedSends + skippedCustomers.
    There, [recordResult] adds one to processedCustomers and one to exactly
    one of successfulSends and failedSends, [recordSkipped] adds one to
    processedCustomers and one to skippedCustomers, and every other method
    leaves the four counters as they are. *)
Theorem tracker_counters_balanced (w : Tracker.t * Fs.t) :
  reachable toISOString w ->
  counters_balanced (state w.1) /\
  (forall result delay p s f k,
     counters w.1 = (p, s, f, k) ->
     counters (call toISOString (RecordResult result delay) w).1 =
       if success result then (p + 1, s + 1, f, k) else (p + 1, s, f + 1, k)) /\
  (forall p s f k,
     counters w.1 = (p, s, f, k) ->
     counters (call toISOString RecordSkipped w).1 = (p + 1, s, f, k + 1)) /\
  (forall m, records_outcome m = false ->
     counters (call toISOString m w).1 = counters w.1) /\
  (forall m, counters_balanced (state (call toISOString m w).1)).
Proof.
  intros Hw.
  assert (counters_balanced (state w.1)) as Hbal.
  { induction Hw as [now fs|m w _ IH]; [reflexivity|by apply call_balanced]. }
  split; [done|]. destruct w as [tr fs].
  split; [|split; [|split]].
  - intros result delay p s f k E. cbn [fst] in E.
    change (call toISOString (RecordResult result delay) (tr, fs))
      with (recordResult toISOString result delay tr fs).
    by rewrite recordResult_counters, E.
  - intros p s f k E. cbn [fst] in E.
    change (call toISOString RecordSkipped (tr, fs)).1 with (recordSkipped tr).
    by rewrite recordSkipped_counters, E.
  - intros m Hm. by apply call_other_counters.
  - intros m. by apply call_balanced.
Qed.

End TrackerFacts.

Lemma tracker_counters_balanced_witness :
  Tracker.counters_balanced
    (Tracker.state
       (Tracker.call Sample.printDate Tracker.RecordSkipped
          (Tracker.create 0, Sample.disk)).1).
Proof.
  apply (tracker_counters_balanced Sample.printDate
           (Tracker.call Sample.printDate Tracker.RecordSkipped
              (Tracker.create 0, Sample.disk))).
  apply Tracker.reachable_call, Tracker.reachable_create.
Defined.

Section EngineFacts.

Import Types Engine.

Context (cfg : Config.t)
        (toISOString : Date -> string)
        (client : nat -> ProcessedCustomer -> nat -> Reply)
        (random : nat -> Js.Draw).

Let lo := Config.min (Config.delayBetweenMessages (Config.timing cfg)).
Let hi := Config.max (Config.delayBetweenMessages (Config.timing cfg)).
Let B := Config.batchSize (Config.timing cfg).

Lemma floor_scaled_range r n :
  Js.unit_interval r -> 0 < n -> 0 <= Js.floor_scaled r n <= n - 1.
Proof.
  unfold Js.unit_interval, Js.floor_scaled. intros [H0 H1] Hn. split.
  - apply Z.div_pos; nia.
  - enough ((Js.num r * n) / Js.den r < n) by lia.
    apply Z.div_lt_upper_bound; nia.
Qed.

Lemma getRandomDelay_warmup r :
  Config.getRandomDelay cfg true r = Config.initialWarmupDelay (Config.timing cfg).
Proof. reflexivity. Qed.

Lemma getRandomDelay_range r :
  Js.unit_interval r -> lo <= hi ->
  lo <= Config.getRandomDelay cfg false r <= hi.
Proof.
  intros Hr Hle. unfold Config.getRandomDelay. fold lo hi.
  pose proof (floor_scaled_range r (hi - lo + 1) Hr). lia.
Qed.

(** [getRandomTemplate] returns one of the templates, and nothing keeps it
    from returning the same one on the next call. *)
Lemma getRandomTemplate_member {T} (templates : list T) (fallback : T) r :
  Js.unit_interval r ->
  exists template,
    Config.getRandomTemplate templates fallback r = Some template /\
    (template ∈ templates \/ (templates = [] /\ template = fallback)).
Proof.
  intros Hr. unfold Config.getRandomTemplate.
  destruct templates as [|t ts].
  - pose proof (floor_scaled_range r 1 Hr ltac:(lia)) as Hrange.
    simpl. change (Z.of_nat 1) with 1.
    replace (Js.floor_scaled r 1) with 0 by lia.
    exists fallback. split; [reflexivity|]. by right.
  - set (n := length (t :: ts)).
    assert (0 < Z.of_nat n) as Hn by (subst n; rewrite length_cons; lia).
    replace (0 <? Z.of_nat n) with true by lia.
    pose proof (floor_scaled_range r (Z.of_nat n) Hr Hn) as Hrange.
    destruct (lookup_lt_is_Some_2 (t :: ts)
                (Z.to_nat (Js.floor_scaled r (Z.of_nat n))))
      as [template Ht]; [fold n; lia|].
    exists template. split; [done|]. left. by eapply list_elem_of_lookup_2.
Qed.

Lemma shouldTakeBatchBreak_mod (i : nat) :
  0 < B ->
  Config.shouldTakeBatchBreak cfg (Z.of_nat i + 1) = true <->
  (Z.of_nat i + 1) mod B = 0.
Proof.
  intros HB. unfold Config.shouldTakeBatchBreak, Js.rem_is_zero, Js.rem. fold B.
  destruct (B =? 0) eqn:E; [lia|].
  rewrite Z.rem_mod_nonneg by lia.
  rewrite andb_true_iff, Z.ltb_lt, Z.eqb_eq. intuition lia.
Qed.

(** One pass of the loop, spelled out field by field. *)
Lemma iteration_unfold (i : nat) (c : ProcessedCustomer) (st : RunState) :
  let isWarmup := Z.of_nat i <? 5 in
  let sent := sendMessageWithRetry cfg (client i c) c isWarmup (now st) in
  let delayMs := Config.getRandomDelay cfg isWarmup (random i) in
  let recorded :=
    Tracker.recordResult toISOString sent.1.1 delayMs (tracker st) (fs st) in
  let break := Config.shouldTakeBatchBreak cfg (Z.of_nat i + 1) in
  let pause :=
    if break then Config.delayBetweenBatches (Config.timing cfg) else delayMs in
  iteration cfg toISOString client random i c st =
  {| tracker := if break then Tracker.incrementBatch recorded.1 else recorded.1;
     fs := recorded.2;
     now := sent.2 + Z.max 0 pause;
     trace := trace st ++ sent.1.2 ++ [Sleep pause] |}.
Proof.
  unfold iteration.
  destruct (sendMessageWithRetry _ _ _ _ _) as [[result calls] returned].
  cbn [fst snd].
  destruct (Tracker.recordResult _ _ _ _ _) as [tr fs'].
  cbn [fst snd]. by destruct (Config.shouldTakeBatchBreak _ _).
Qed.

(** C6: the delay computed for recipient [i] (the one the tracker records)
    is exactly the warmup delay when [i < 5], whatever the random bounds;
    otherwise it lies between the configured minimum and maximum, for a
    value of [Math.random()] in the unit interval and bounds in order. *)
Theorem warmup_then_bounded_delay (i : nat) (c : ProcessedCustomer) (st : RunState) :
  exists delayMs,
    delayMs = Config.getRandomDelay cfg (Z.of_nat i <? 5) (random i) /\
    Tracker.delays (tracker (iteration cfg toISOString client random i c st)) =
      Tracker.delays (tracker st) ++ [delayMs] /\
    ((i < 5)%nat -> delayMs = Config.initialWarmupDelay (Config.timing cfg)) /\
    ((5 <= i)%nat -> Js.unit_interval (random i) -> lo <= hi ->
     lo <= delayMs <= hi).
Proof.
  eexists. split; [reflexivity|]. split; [|split].
  - rewrite iteration_unfold. cbn [tracker].
    by destruct (Config.shouldTakeBatchBreak _ _).
  - intros Hi. by replace (Z.of_nat i <? 5) with true by lia.
  - intros Hi Hr Hle. replace (Z.of_nat i <? 5) with false by lia.
    by apply getRandomDelay_range.
Qed.

(** C5: with a positive batch size [B], the sleep that ends the pass for
    recipient [i] is the batch break, and the batch counter goes up by one,
    exactly when [(i + 1) mod B = 0]; this holds during warmup as well.
    Otherwise the sleep is the delay computed for the recipient and the batch
    counter stays. *)
Theorem batch_break_overrides_delay (i : nat) (c : ProcessedCustomer) (st : RunState) :
  0 < B ->
  let st' := iteration cfg toISOString client random i c st in
  let delayMs := Config.getRandomDelay cfg (Z.of_nat i <? 5) (random i) in
  let batch s := currentBatch (Tracker.state (tracker s)) in
  exists pause,
    trace st' =
      trace st
      ++ (sendMessageWithRetry cfg (client i c) c (Z.of_nat i <? 5) (now st)).1.2
      ++ [Sleep pause] /\
    ((pause = Config.delayBetweenBatches (Config.timing cfg) /\
      batch st' = batch st + 1) <-> (Z.of_nat i + 1) mod B = 0) /\
    ((Z.of_nat i + 1) mod B <> 0 -> pause = delayMs /\ batch st' = batch st).
Proof.
  intros HB st' delayMs batch. subst st' batch.
  rewrite iteration_unfold. cbn [trace tracker]. eexists. split; [reflexivity|].
  pose proof (shouldTakeBatchBreak_mod i HB) as Hmod.
  destruct (Config.shouldTakeBatchBreak cfg (Z.of_nat i + 1)); simpl.
  - split; [|intros Hne; exfalso; apply Hne; by apply Hmod].
    split; [intros _; by apply Hmod|done].
  - split; [|done].
    split; [intros [_ Hb]; lia|]. intros H0. apply Hmod in H0. done.
Qed.

End EngineFacts.

Section RetryFacts.

Import Types Engine.

Context (cfg : Config.t) (client : nat -> Reply) (c : ProcessedCustomer).

Let M := Config.maxRetries (Config.errorHandling cfg).
Let rd := Config.retryDelay (Config.timing cfg).

Lemma attempts_made_pauses evs :
  attempts_made evs = length (pauses_after_attempts evs).
Proof.
  unfold attempts_made. induction evs as [|[n|n|ms] evs IH]; [done|..];
    cbn [pauses_after_attempts length].
  - rewrite filter_cons_True by done. cbn [length]. by rewrite IH.
  - by rewrite filter_cons_False by (by intros []).
  - by rewrite filter_cons_False by (by intros []).
Qed.

(** With a client that rejects every call, the loop runs all its passes. *)
Lemma retryLoop_transient remaining attempt lastError now :
  (forall a, transient (client a) = true) ->
  Z.of_nat attempt + Z.of_nat remaining = M + 1 ->
  let out := retryLoop cfg client c remaining attempt lastError now in
  success out.1.1 = false /\ customer out.1.1 = c /\ retryCount out.1.1 = M /\
  sleeps_before_check out.1.2 = [] /\
  pauses_after_attempts out.1.2 =
    match remaining with O => [] | S k => repeat [rd] k ++ [[]] end /\
  out.2 = now + Z.of_nat (pred remaining) * Z.max 0 rd.
Proof.
  intros Hcl. revert attempt lastError now.
  induction remaining as [|k IH]; intros attempt lastError now Hsum.
  { simpl. repeat split; lia. }
  cbn [retryLoop]. fold M rd.
  specialize (Hcl attempt) as Hr.
  destruct (client attempt) as [message| |message|]; try done.
  all: destruct k as [|k'].
  all: try (replace (Z.of_nat attempt <? M) with false by lia;
            specialize (IH (S attempt) message now ltac:(lia));
            destruct (retryLoop cfg client c 0 (S attempt) message now)
              as [[result later] finish] eqn:E;
            cbn [fst snd] in *; simpl in E; inversion E; subst;
            simpl; repeat split; lia).
  all: replace (Z.of_nat attempt <? M) with true by lia;
       cbn [delay];
       specialize (IH (S attempt) message (now + Z.max 0 rd) ltac:(lia));
       destruct (retryLoop cfg client c (S k') (S attempt) message (now + Z.max 0 rd))
         as [[result later] finish];
       cbn [fst snd pred] in *;
       destruct IH as (Hs & Hc & Hn & Hb & Hp & Hf);
       cbn [app pauses_after_attempts sleeps_before_check];
       rewrite Hb, Hp, Hf; repeat split; try done; lia.
Qed.

Lemma sendMessageWithRetry_transient isWarmup now :
  0 <= M -> (forall a, transient (client a) = true) ->
  let out := sendMessageWithRetry cfg client c isWarmup now in
  success out.1.1 = false /\ customer out.1.1 = c /\ retryCount out.1.1 = M /\
  pauses_after_attempts out.1.2 = repeat [rd] (Z.to_nat M) ++ [[]] /\
  out.2 = now + M * Z.max 0 rd.
Proof.
  intros HM Hcl. unfold sendMessageWithRetry. fold M.
  pose proof (retryLoop_transient (Z.to_nat (M + 1)) 0 EmptyString now Hcl
                ltac:(lia)) as H.
  replace (Z.to_nat (M + 1)) with (S (Z.to_nat M)) in * by lia.
  cbn [pred] in H. destruct H as (? & ? & ? & _ & ? & ?).
  repeat split; try done. lia.
Qed.

(** When the first reply says the number is not registered, the function
    returns at once with a failure. *)
Lemma sendMessageWithRetry_unregistered isWarmup now :
  0 <= M -> client 0%nat = NotRegistered ->
  sendMessageWithRetry cfg client c isWarmup now =
  ({| customer := c; success := false; timestamp := now;
      error := Some "Phone number not registered on WhatsApp";
      retryCount := 0 |},
   [CheckNumberStatus (formatWhatsAppNumber (formattedPhone c))], now).
Proof.
  intros HM H0. unfold sendMessageWithRetry. fold M.
  replace (Z.to_nat (M + 1)) with (S (Z.to_nat M)) by lia.
  cbn [retryLoop]. by rewrite H0.
Qed.

End RetryFacts.

Section RunFacts.

Import Types Engine.

Context (cfg : Config.t)
        (toISOString : Date -> string)
        (client : nat -> ProcessedCustomer -> nat -> Reply)
        (random : nat -> Js.Draw)
        (isShuttingDown : nat -> bool).

Let M := Config.maxRetries (Config.errorHandling cfg).
Let rd := Config.retryDelay (Config.timing cfg).

Lemma getFailedCustomers_recordResult result delayMs tr disk :
  Tracker.getFailedCustomers
    (Tracker.recordResult toISOString result delayMs tr disk).1 =
  Tracker.getFailedCustomers tr
  ++ (if success result then [] else [customer result]).
Proof.
  unfold Tracker.getFailedCustomers. cbn [Tracker.recordResult fst Tracker.messageResults].
  rewrite filter_app, fmap_app. f_equal.
  destruct (success result) eqn:E.
  - rewrite filter_cons_False by congruence. done.
  - rewrite filter_cons_True by done. done.
Qed.

Lemma iteration_counters (i : nat) (c : ProcessedCustomer) (st : RunState) :
  Tracker.counters (tracker (iteration cfg toISOString client random i c st)) =
  let '(p, s, f, k) := Tracker.counters (tracker st) in
  if success (sendMessageWithRetry cfg (client i c) c (Z.of_nat i <? 5) (now st)).1.1
  then (p + 1, s + 1, f, k) else (p + 1, s, f + 1, k).
Proof.
  rewrite iteration_unfold. cbn [tracker].
  rewrite <- (recordResult_counters toISOString _
                (Config.getRandomDelay cfg (Z.of_nat i <? 5) (random i))
                (tracker st) (fs st)).
  by destruct (Config.shouldTakeBatchBreak _ _).
Qed.

Lemma iteration_failed_customers (i : nat) (c : ProcessedCustomer) (st : RunState) :
  let result :=
    (sendMessageWithRetry cfg (client i c) c (Z.of_nat i <? 5) (now st)).1.1 in
  Tracker.getFailedCustomers (tracker (iteration cfg toISOString client random i c st)) =
  Tracker.getFailedCustomers (tracker st)
  ++ (if success result then [] else [customer result]).
Proof.
  intros result. rewrite iteration_unfold. cbn [tracker].
  destruct (Config.shouldTakeBatchBreak _ _);
    apply getFailedCustomers_recordResult.
Qed.

(** C4: when the client rejects every call made for a recipient, the engine
    makes [maxRetries + 1] attempts, sleeps exactly [retryDelay] after each
    of them but the last, records a failed send and lists the recipient
    among the failed customers. *)
Theorem retry_then_fail (i : nat) (c : ProcessedCustomer) (st : RunState) :
  0 <= M ->
  (forall a, transient (client i c a) = true) ->
  let sent := sendMessageWithRetry cfg (client i c) c (Z.of_nat i <? 5) (now st) in
  let st' := iteration cfg toISOString client random i c st in
  (exists pause, trace st' = trace st ++ sent.1.2 ++ [Sleep pause]) /\
  attempts_made sent.1.2 = Z.to_nat (M + 1) /\
  pauses_after_attempts sent.1.2 = repeat [rd] (Z.to_nat M) ++ [[]] /\
  success sent.1.1 = false /\
  retryCount sent.1.1 = M /\
  (forall p s f k, Tracker.counters (tracker st) = (p, s, f, k) ->
     Tracker.counters (tracker st') = (p + 1, s, f + 1, k)) /\
  c ∈ Tracker.getFailedCustomers (tracker st').
Proof.
  intros HM Hcl sent st'.
  destruct (sendMessageWithRetry_transient cfg (client i c) c
              (Z.of_nat i <? 5) (now st) HM Hcl) as (Hs & Hc & Hn & Hp & _).
  fold sent in Hs, Hc, Hn, Hp. fold M rd in Hn, Hp.
  split; [|split; [|split; [|split; [|split; [|split]]]]]; try done.
  - subst st'. rewrite iteration_unfold. cbn [trace]. by eexists.
  - rewrite attempts_made_pauses, Hp, length_app, repeat_length. simpl. lia.
  - intros p s f k E. subst st'. rewrite iteration_counters, E.
    fold sent. by rewrite Hs.
  - subst st'. rewrite iteration_failed_customers. fold sent. rewrite Hs, Hc.
    apply elem_of_app. right. by apply list_elem_of_singleton.
Qed.

(** A number reported as not registered: one attempt, no send, no retry,
    and a failed send on the tracker. *)
Lemma iteration_unregistered (i : nat) (c : ProcessedCustomer) (st : RunState) :
  0 <= M -> client i c 0%nat = NotRegistered ->
  let st' := iteration cfg toISOString client random i c st in
  (exists pause,
     trace st' =
     trace st ++ [CheckNumberStatus (formatWhatsAppNumber (formattedPhone c));
                  Sleep pause]) /\
  (forall p s f k, Tracker.counters (tracker st) = (p, s, f, k) ->
     Tracker.counters (tracker st') = (p + 1, s, f + 1, k)) /\
  Tracker.getFailedCustomers (tracker st') =
    Tracker.getFailedCustomers (tracker st) ++ [c].
Proof.
  intros HM H0 st'. subst st'.
  pose proof (sendMessageWithRetry_unregistered cfg (client i c) c
                (Z.of_nat i <? 5) (now st) HM H0) as Hsent.
  split; [|split].
  - rewrite iteration_unfold, Hsent. cbn [fst snd trace app]. by eexists.
  - intros p s f k E. by rewrite iteration_counters, E, Hsent.
  - by rewrite iteration_failed_customers, Hsent.
Qed.

(** Whatever the client replies, the result is about the customer passed in. *)
Lemma retryLoop_customer cl c remaining attempt lastError t :
  customer (retryLoop cfg cl c remaining attempt lastError t).1.1 = c.
Proof.
  revert attempt lastError t.
  induction remaining as [|k IH]; intros attempt lastError t; [done|].
  cbn [retryLoop]. destruct (cl attempt) as [message| |message|]; try done.
  all: destruct (if Z.of_nat attempt <? _ then _ else _) as [pause t'].
  all: specialize (IH (S attempt) message t').
  all: by destruct (retryLoop cfg cl c k (S attempt) message t') as [[? ?] ?].
Qed.

Lemma retryLoop_attempts cl c remaining attempt lastError t :
  (1 <= attempts_made (retryLoop cfg cl c (S remaining) attempt lastError t).1.2)%nat.
Proof.
  cbn [retryLoop]. unfold attempts_made.
  destruct (cl attempt) as [message| |message|].
  2, 4: cbn [fst snd]; rewrite filter_cons_True by done; simpl; lia.
  all: destruct (if Z.of_nat attempt <? _ then _ else _) as [pause t'].
  all: destruct (retryLoop cfg cl c remaining (S attempt) message t') as [[? ?] ?].
  all: cbn [fst snd]; rewrite filter_cons_True by done; simpl; lia.
Qed.

Lemma attempts_made_app evs1 evs2 :
  attempts_made (evs1 ++ evs2) = (attempts_made evs1 + attempts_made evs2)%nat.
Proof. unfold attempts_made. by rewrite filter_app, length_app. Qed.

(** The whole loop, when no shutdown is requested: every recipient is
    attempted and recorded by [recordResult]. *)
Lemma sendLoop_records_all (customers : list ProcessedCustomer) :
  0 <= M -> (forall i, isShuttingDown i = false) ->
  forall (i : nat) (st : RunState),
  let st' := sendLoop cfg toISOString client random isShuttingDown i customers st in
  skippedCustomers (Tracker.state (tracker st')) =
    skippedCustomers (Tracker.state (tracker st)) /\
  processedCustomers (Tracker.state (tracker st')) =
    processedCustomers (Tracker.state (tracker st)) + Z.of_nat (length customers) /\
  successfulSends (Tracker.state (tracker st')) + failedSends (Tracker.state (tracker st')) =
    successfulSends (Tracker.state (tracker st)) + failedSends (Tracker.state (tracker st))
    + Z.of_nat (length customers) /\
  customer <$> Tracker.messageResults (tracker st') =
    (customer <$> Tracker.messageResults (tracker st)) ++ customers /\
  (attempts_made (trace st) + length customers <= attempts_made (trace st'))%nat.
Proof.
  intros HM Hrun.
  induction customers as [|c rest IH]; intros i st.
  { simpl. rewrite app_nil_r. repeat split; lia. }
  cbn [sendLoop]. rewrite Hrun.
  specialize (IH (S i) (iteration cfg toISOString client random i c st)).
  cbn zeta in IH. destruct IH as (Hk & Hp & Hsf & Hres & Hatt).
  pose proof (iteration_counters i c st) as Hcnt.
  assert (customer <$> Tracker.messageResults
            (tracker (iteration cfg toISOString client random i c st)) =
          (customer <$> Tracker.messageResults (tracker st)) ++ [c]) as Hmr.
  { rewrite iteration_unfold. cbn [tracker].
    assert (forall tr, Tracker.messageResults (Tracker.incrementBatch tr) =
                       Tracker.messageResults tr) as Hib by done.
    destruct (Config.shouldTakeBatchBreak _ _); rewrite ?Hib;
      cbn [Tracker.recordResult fst Tracker.messageResults];
      rewrite fmap_app; simpl; unfold sendMessageWithRetry;
      by rewrite retryLoop_customer. }
  assert (attempts_made (trace st) + 1 <=
          attempts_made (trace (iteration cfg toISOString client random i c st)))%nat
    as Hone.
  { rewrite iteration_unfold. cbn [trace]. rewrite !attempts_made_app.
    unfold sendMessageWithRetry. fold M.
    replace (Z.to_nat (M + 1)) with (S (Z.to_nat M)) by lia.
    pose proof (retryLoop_attempts (client i c) c (Z.to_nat M) 0 EmptyString (now st)).
    lia. }
  unfold Tracker.counters in Hcnt.
  destruct (success _) in Hcnt; injection Hcnt as H1 H2 H3 H4;
    cbn zeta; rewrite Hk, Hp, Hsf, Hres, Hmr, <- app_assoc; cbn [length];
    repeat split; try done; lia.
Qed.

End RunFacts.

Section CsvFacts.

Import CsvParser.

Lemma rowLoop_distinct_codes headers rows :
  forall seenCodes duplicates customers,
  NoDup (codeOf <$> customers) ->
  (forall code, code ∈ seenCodes <-> code ∈ codeOf <$> customers) ->
  NoDup (codeOf <$> (rowLoop headers rows seenCodes duplicates customers).1).
Proof.
  induction rows as [|values rest IH]; intros seen dups customers Hnd Hseen; [done|].
  cbn [rowLoop]. destruct (length values <? length headers)%nat; [by apply IH|].
  case_bool_decide as Hin; [by apply IH|].
  apply IH.
  - rewrite fmap_app. apply NoDup_app. split; [done|]. split.
    + intros code Hc [->|[]%elem_of_nil]%elem_of_cons. by apply Hin, Hseen.
    + apply NoDup_singleton.
  - intros code. rewrite fmap_app, elem_of_app, elem_of_union, elem_of_singleton.
    rewrite Hseen. simpl. rewrite list_elem_of_singleton. tauto.
Qed.

Lemma parseRows_distinct_codes headers rows :
  NoDup (codeOf <$> parseRows headers rows).
Proof.
  apply rowLoop_distinct_codes; [constructor|].
  intros code. simpl. rewrite elem_of_nil. set_solver.
Qed.

End CsvFacts.

Section Campaign.

Import Types Engine.

(** C2, at a recipient whose number [checkNumberStatus] reports as not
    registered: the engine makes one attempt without sending or retrying,
    and then counts the recipient as a failed send, not as a skipped
    customer, and lists it among the failed customers. *)
Theorem unregistered_number_counted_as_failed :
  let st := Sample.start 1 in
  let st' :=
    iteration Config.config Sample.printDate Sample.unregistered Sample.lowest
      0 (Sample.recipient 0) st in
  trace st' = [CheckNumberStatus "201000000000@c.us"; Sleep 15000] /\
  Tracker.counters (tracker st) = (0, 0, 0, 0) /\
  Tracker.counters (tracker st') = (1, 0, 1, 0) /\
  Tracker.getFailedCustomers (tracker st') = [Sample.recipient 0].
Proof. vm_compute. done. Qed.

(** C3, with the shipped limit of 100 messages per hour and 101 recipients:
    the loop sends all 101 messages, the last of them less than half an hour
    after the first, even with the longest delays it can draw. *)
Theorem hourly_limit_not_enforced :
  let st' :=
    sendMessagesToCustomers Config.config Sample.printDate Sample.delivering
      Sample.highest Sample.running (Sample.recipient <$> seq 0 101)
      (Sample.start 101) in
  Config.enabled (Config.rateLimiting Config.config) = true /\
  Config.maxMessagesPerHour (Config.rateLimiting Config.config) = 100 /\
  sends_made (trace st') = 101%nat /\
  successfulSends (Tracker.state (tracker st')) = 101 /\
  now st' = 1767000 /\
  now st' < 60 * 60 * 1000.
Proof. vm_compute. done. Qed.

(** The loop never reads the [rateLimiting] block of the configuration. *)
Lemma rateLimiting_ignored cfg limits toISOString client random isShuttingDown
    customers st :
  sendMessagesToCustomers (Config.with_rateLimiting cfg limits) toISOString
    client random isShuttingDown customers st =
  sendMessagesToCustomers cfg toISOString client random isShuttingDown customers st.
Proof. reflexivity. Qed.


End Campaign.

Section RotatorFacts.

Import GoPort.

Context {T : Type} (messageTemplates : list T).

Lemma schedule_lookup N a M k :
  (k < M)%nat -> schedule N a M !! k = Some ((a + k) mod N)%nat.
Proof.
  intros Hk. unfold schedule. by rewrite list_lookup_fmap, lookup_seq_lt.
Qed.

Lemma schedule_app N a M1 M2 :
  schedule N a (M1 + M2) = schedule N a M1 ++ schedule N (a + M1) M2.
Proof.
  unfold schedule. rewrite seq_app, fmap_app. f_equal.
  replace (seq (0 + M1) M2) with (Nat.add M1 <$> seq 0 M2)
    by (rewrite fmap_add_seq; f_equal; lia).
  rewrite <- list_fmap_compose.
  apply list_fmap_ext. intros _ k _. simpl. f_equal. lia.
Qed.

Lemma served_app N a M1 M2 j :
  served N a (M1 + M2) j = (served N a M1 j + served N (a + M1) M2 j)%nat.
Proof. unfold served. by rewrite schedule_app, filter_app, length_app. Qed.

Lemma mod_shift_inj N a k1 k2 :
  (k1 < N)%nat -> (k2 < N)%nat ->
  ((a + k1) mod N = (a + k2) mod N)%nat -> k1 = k2.
Proof.
  intros H1 H2 E.
  pose proof (Nat.div_mod_eq (a + k1) N) as E1.
  pose proof (Nat.div_mod_eq (a + k2) N) as E2.
  rewrite E in E1.
  generalize dependent ((a + k1) / N)%nat. intros q1 E1.
  generalize dependent ((a + k2) / N)%nat. intros q2 E2.
  generalize dependent ((a + k2) mod N)%nat. intros m _ E1 E2.
  destruct (lt_eq_lt_dec q1 q2) as [[Hlt|Heq]|Hgt]; [nia|subst; lia|nia].
Qed.

Lemma schedule_NoDup N a M : (M <= N)%nat -> NoDup (schedule N a M).
Proof.
  intros HM. unfold schedule. apply NoDup_fmap_2_strong; [|apply NoDup_seq].
  intros k1 k2 [_ H1]%elem_of_seq [_ H2]%elem_of_seq E.
  apply (mod_shift_inj N a); [lia|lia|done].
Qed.

Lemma filter_eq_absent (l : list nat) j :
  j ∉ l -> filter (fun p => p = j) l = [].
Proof.
  induction l as [|x l IH]; [done|].
  intros [Hx Hl]%not_elem_of_cons.
  rewrite filter_cons_False by congruence. by apply IH.
Qed.

Lemma filter_eq_NoDup (l : list nat) j :
  NoDup l -> (length (filter (fun p => p = j) l) <= 1)%nat.
Proof.
  induction 1 as [|x l Hx Hl IH]; [simpl; lia|].
  destruct (decide (x = j)) as [->|Hne].
  - rewrite filter_cons_True, filter_eq_absent by done. simpl. lia.
  - by rewrite filter_cons_False.
Qed.

Lemma served_short N a M j : (M <= N)%nat -> (served N a M j <= 1)%nat.
Proof. intros HM. by apply filter_eq_NoDup, schedule_NoDup. Qed.

Lemma served_period N a j : (j < N)%nat -> served N a N j = 1%nat.
Proof.
  intros Hj. pose proof (served_short N a N j ltac:(lia)) as Hle.
  enough (j ∈ filter (fun p => p = j) (schedule N a N)) as Hin.
  { unfold served in *. destruct (filter _ _); [by apply elem_of_nil in Hin|].
    simpl in *. lia. }
  apply list_elem_of_filter. split; [done|].
  apply list_elem_of_lookup.
  exists ((j + (N - a mod N)) mod N)%nat.
  rewrite schedule_lookup by (apply Nat.mod_upper_bound; lia).
  f_equal. rewrite Nat.Div0.add_mod_idemp_r.
  pose proof (Nat.div_mod_eq a N) as Ea.
  pose proof (Nat.mod_upper_bound a N ltac:(lia)) as Hlt.
  symmetry. apply (Nat.mod_unique _ _ (a / N + 1)); [done|]. nia.
Qed.

Lemma served_periods N a q r j :
  (j < N)%nat ->
  served N a (q * N + r) j = (q + served N (a + q * N) r j)%nat.
Proof.
  intros Hj. revert a. induction q as [|q IH]; intros a.
  { simpl. by rewrite Nat.add_0_r. }
  replace (S q * N + r)%nat with (N + (q * N + r))%nat by lia.
  rewrite served_app, served_period, IH by done.
  replace (a + N + q * N)%nat with (a + S q * N)%nat by lia. done.
Qed.

(** Each position is served the quotient of the number of calls by the
    number of templates, or once more when the division leaves a rest. *)
Lemma served_floor_or_ceil N a M j :
  (j < N)%nat ->
  served N a M j = (M / N)%nat \/
  ((M mod N)%nat <> 0%nat /\ served N a M j = (M / N + 1)%nat).
Proof.
  intros Hj.
  pose proof (Nat.div_mod_eq M N) as EM.
  pose proof (Nat.mod_upper_bound M N ltac:(lia)) as Hr.
  assert (served N a M j =
          (M / N + served N (a + M / N * N) (M mod N) j)%nat) as ->.
  { rewrite <- served_periods by done. f_equal. lia. }
  pose proof (served_short N (a + M / N * N) (M mod N) j ltac:(lia)) as Hle.
  destruct (decide (M mod N = 0)%nat) as [E|E].
  - left. rewrite E. unfold served, schedule. simpl. lia.
  - lia.
Qed.

Lemma effective_selected (ts : list T) a :
  ts <> [] ->
  effective messageTemplates {| selectedTemplates := ts; templatePermutationIdx := a |} = ts.
Proof. unfold effective. simpl. by destruct ts. Qed.

(** The calls made from a state whose index lies inside the slice. *)
Lemma calls_rotation (M : nat) :
  forall (st : Rotation),
  let ts := effective messageTemplates st in
  let N := length ts in
  let a := templatePermutationIdx st in
  (a < N)%nat ->
  exists outputs st',
    calls messageTemplates M st = Some (outputs, st') /\
    length outputs = M /\
    (forall k, (k < M)%nat -> outputs !! k = ts !! ((a + k) mod N)%nat) /\
    effective messageTemplates st' = ts /\
    templatePermutationIdx st' = ((a + M) mod N)%nat.
Proof.
  induction M as [|M IH]; intros st ts N a Ha.
  { exists [], st. split; [done|]. split; [done|]. split; [intros; lia|].
    split; [done|]. by rewrite Nat.add_0_r, Nat.mod_small. }
  cbn [calls]. unfold getNextTemplateInPermutation. fold ts a N.
  destruct (lookup_lt_is_Some_2 ts a Ha) as [t Ht]. rewrite Ht.
  assert (ts <> []) as Hne by (intros E; subst N; rewrite E in Ha; simpl in Ha; lia).
  specialize (IH {| selectedTemplates := ts;
                    templatePermutationIdx := ((a + 1) mod N)%nat |}).
  cbn zeta in IH. rewrite effective_selected in IH by done. cbn [templatePermutationIdx] in IH.
  fold N in IH.
  destruct IH as (outputs & st' & Hcalls & Hlen & Hout & Heff & Hidx).
  { apply Nat.mod_upper_bound. lia. }
  rewrite Hcalls. exists (t :: outputs), st'.
  split; [done|]. split; [simpl; lia|]. split; [|split; [done|]].
  - intros [|k] Hk.
    + by rewrite Nat.add_0_r, Nat.mod_small.
    + simpl. rewrite Hout by lia. f_equal.
      rewrite Nat.Div0.add_mod_idemp_l. f_equal. lia.
  - rewrite Hidx, Nat.Div0.add_mod_idemp_l. f_equal. lia.
Qed.

Lemma rotation_lookup (ts : list T) a k :
  (a < length ts)%nat ->
  (drop a ts ++ take a ts) !! k =
  if decide (k < length ts)%nat then ts !! ((a + k) mod length ts)%nat else None.
Proof.
  intros Ha. case_decide as Hk.
  - destruct (decide (k < length ts - a)%nat) as [Hlt|Hge].
    + rewrite lookup_app_l by (rewrite length_drop; lia).
      rewrite lookup_drop, Nat.mod_small by lia. done.
    + rewrite lookup_app_r by (rewrite length_drop; lia).
      rewrite length_drop, lookup_take_lt by lia. f_equal.
      apply (Nat.mod_unique _ _ 1); lia.
  - apply lookup_ge_None_2. rewrite length_app, length_drop, length_take. lia.
Qed.

(** C8: under rotation, with [N] templates in use and the index inside the
    list, call number [k] serves position [(index + k) mod N], so the
    templates come in list order, start again after the last one and
    repeat with period [N]; any [N] calls in a row return every template
    exactly once, in list order from the current index round to it (the
    list itself when the index is 0); and among [M] calls each position is
    served [M / N] times, or once more when [N] does not divide [M]. *)
Theorem round_robin_rotation (st : Rotation) (M : nat) :
  let ts := effective messageTemplates st in
  let N := length ts in
  let a := templatePermutationIdx st in
  (a < N)%nat ->
  (exists outputs st',
     calls messageTemplates M st = Some (outputs, st') /\
     length outputs = M /\
     (forall k, (k < M)%nat -> outputs !! k = ts !! ((a + k) mod N)%nat) /\
     (forall k, (k + N < M)%nat -> outputs !! (k + N)%nat = outputs !! k) /\
     effective messageTemplates st' = ts /\
     (templatePermutationIdx st' < N)%nat) /\
  (exists st',
     calls messageTemplates N st = Some (drop a ts ++ take a ts, st') /\
     effective messageTemplates st' = ts /\
     templatePermutationIdx st' = a) /\
  drop a ts ++ take a ts ≡ₚ ts /\
  (a = 0%nat -> drop a ts ++ take a ts = ts) /\
  (forall j, (j < N)%nat ->
     served N a M j = (M / N)%nat \/
     ((M mod N)%nat <> 0%nat /\ served N a M j = (M / N + 1)%nat)).
Proof.
  intros ts N a Ha.
  split; [|split; [|split; [|split]]].
  - destruct (calls_rotation M st Ha)
      as (outputs & st' & Hcalls & Hlen & Hout & Heff & Hidx).
    fold ts N a in Hout, Heff, Hidx.
    exists outputs, st'. repeat split; try done.
    + intros k Hk. rewrite !Hout by lia. f_equal.
      replace (a + (k + N))%nat with (a + k + 1 * N)%nat by lia.
      by rewrite Nat.Div0.mod_add.
    + rewrite Hidx. apply Nat.mod_upper_bound. lia.
  - destruct (calls_rotation N st Ha)
      as (outputs & st' & Hcalls & Hlen & Hout & Heff & Hidx).
    fold ts N a in Hout, Heff, Hidx.
    exists st'. split; [|split; [done|]].
    + rewrite Hcalls. do 2 f_equal. apply list_eq. intros k.
      rewrite rotation_lookup by done. fold N. case_decide as Hk.
      * by apply Hout.
      * apply lookup_ge_None_2. lia.
    + rewrite Hidx. replace (a + N)%nat with (a + 1 * N)%nat by lia.
      rewrite Nat.Div0.mod_add. by apply Nat.mod_small.
  - rewrite Permutation_app_comm. by rewrite take_drop.
  - intros ->. by rewrite drop_0, app_nil_r.
  - intros j Hj. by apply served_floor_or_ceil.
Qed.

End RotatorFacts.

Lemma round_robin_rotation_witness :
  (1 < 3)%nat /\
  exists st',
    GoPort.calls ["A"; "B"; "C"] 3
      {| GoPort.selectedTemplates := []; GoPort.templatePermutationIdx := 1 |}
    = Some (["B"; "C"; "A"], st') /\
    GoPort.templatePermutationIdx st' = 1%nat.
Proof.
  split; [lia|].
  destruct (round_robin_rotation ["A"; "B"; "C"]
              {| GoPort.selectedTemplates := [];
                 GoPort.templatePermutationIdx := 1 |} 7 ltac:(simpl; lia))
    as (_ & (st' & Hcalls & Heff & Hidx) & _).
  exists st'. split; [exact Hcalls|exact Hidx].
Defined.

Section SaveFacts.

Import Types Tracker.

Context (toISOString : Date -> string).

Lemma writeFileSync_states path data fs :
  Fs.dirname path ∈ Fs.dirs fs -> path ∉ Fs.dirs fs ->
  Fs.states (Fs.writeFileSync path data) fs =
  [ {| Fs.dirs := Fs.dirs fs; Fs.files := <[path := EmptyString]> (Fs.files fs) |};
    {| Fs.dirs := Fs.dirs fs; Fs.files := <[path := data]> (Fs.files fs) |} ].
Proof.
  intros Hdir Hfile. unfold Fs.writeFileSync. cbn [Fs.states Fs.exec].
  rewrite (bool_decide_eq_true_2 _ Hdir), (bool_decide_eq_false_2 _ Hfile).
  cbn [andb negb Fs.files Fs.dirs]. rewrite lookup_insert_eq.
  cbn [Fs.files Fs.dirs String.append]. by rewrite insert_insert_eq.
Qed.

(** The states a save goes through: possibly the creation of the directory,
    then the truncated file, then the written file. *)
Lemma saveProgress_states tr fs :
  writable tr fs ->
  exists dirs' before,
    Fs.states (saveProgress_ops toISOString tr fs) fs =
    before
    ++ [ {| Fs.dirs := dirs';
            Fs.files := <[progressFile tr := EmptyString]> (Fs.files fs) |} ]
    ++ [ {| Fs.dirs := dirs';
            Fs.files := <[progressFile tr := stringify toISOString (state tr)]>
                          (Fs.files fs) |} ] /\
    Forall (fun fs' => Fs.files fs' = Fs.files fs) before.
Proof.
  intros (Hfile & Hne & Hdir). unfold saveProgress_ops.
  destruct (Fs.existsSync _ fs) eqn:E.
  - assert (Fs.dirname (progressFile tr) ∈ Fs.dirs fs) as Hin.
    { destruct Hdir as [|Hnone]; [done|].
      unfold Fs.existsSync in E. apply orb_true_iff in E as [E|E].
      - by apply bool_decide_eq_true_1 in E.
      - apply bool_decide_eq_true_1 in E. rewrite Hnone in E. by destruct E. }
    exists (Fs.dirs fs), []. split; [|constructor].
    cbn [app]. by apply writeFileSync_states.
  - unfold Fs.existsSync in E. apply orb_false_iff in E as [E1 E2].
    apply bool_decide_eq_false_1 in E1, E2.
    assert (Fs.files fs !! Fs.dirname (progressFile tr) = None) as Hnone.
    { destruct (Fs.files fs !! _) eqn:El; [|done]. exfalso. apply E2. eauto. }
    set (fs1 := {| Fs.dirs := {[Fs.dirname (progressFile tr)]} ∪ Fs.dirs fs;
                   Fs.files := Fs.files fs |}).
    exists (Fs.dirs fs1), [fs1]. split; [|by repeat constructor].
    assert (Fs.dirname (progressFile tr) ∈ Fs.dirs fs1) as Hin1
      by (apply elem_of_union_l, elem_of_singleton; reflexivity).
    assert (progressFile tr ∉ Fs.dirs fs1) as Hfile1.
    { intros [Heq%elem_of_singleton|Hold]%elem_of_union; [by symmetry in Heq|done]. }
    cbn [app Fs.states Fs.exec]. rewrite Hnone. fold fs1.
    change (Fs.states [Fs.Truncate ?p; Fs.Append ?p ?d] fs1)
      with (Fs.states (Fs.writeFileSync p d) fs1).
    by rewrite writeFileSync_states.
Qed.

(** C9, amended: when the progress file can be written, a save leaves in it
    exactly the full snapshot of the current state, whatever it held before,
    and touches no other file. It writes the file in place, without a
    temporary file or a rename: during the save the file holds what it held
    before, nothing, or the new snapshot, and there is a moment at which it
    holds nothing. *)
Theorem saveProgress_overwrites_in_place (tr : Tracker.t) (fs : Fs.t) :
  writable tr fs ->
  let file := progressFile tr in
  let snapshot := stringify toISOString (state tr) in
  Fs.readFileSync file (saveProgress toISOString tr fs) = Some snapshot /\
  (forall path, path <> file ->
     Fs.readFileSync path (saveProgress toISOString tr fs) = Fs.readFileSync path fs) /\
  (forall fs', fs' ∈ Fs.states (saveProgress_ops toISOString tr fs) fs ->
     Fs.readFileSync file fs' = Fs.readFileSync file fs \/
     Fs.readFileSync file fs' = Some EmptyString \/
     Fs.readFileSync file fs' = Some snapshot) /\
  (exists fs', fs' ∈ Fs.states (saveProgress_ops toISOString tr fs) fs /\
     Fs.readFileSync file fs' = Some EmptyString) /\
  Forall (fun op => renames_onto file op = false) (saveProgress_ops toISOString tr fs).
Proof.
  intros Hw file snapshot.
  destruct (saveProgress_states tr fs Hw) as (dirs' & before & Hst & Hbefore).
  fold file snapshot in Hst.
  unfold saveProgress, Fs.run, Fs.readFileSync. rewrite Hst.
  split; [|split; [|split; [|split]]].
  - rewrite app_assoc, last_last. cbn [Fs.files]. apply lookup_insert_eq.
  - intros path Hp. rewrite app_assoc, last_last. cbn [Fs.files].
    by apply lookup_insert_ne.
  - intros fs' [Hin|Hin]%elem_of_app.
    + left. rewrite Forall_forall in Hbefore. by rewrite (Hbefore fs' Hin).
    + right. apply elem_of_cons in Hin as [->|Hin]; [left; apply lookup_insert_eq|].
      apply list_elem_of_singleton in Hin as ->. right. apply lookup_insert_eq.
  - eexists. split; [apply elem_of_app; right; apply list_elem_of_here|].
    apply lookup_insert_eq.
  - unfold saveProgress_ops. destruct (Fs.existsSync _ fs); by repeat constructor.
Qed.

End SaveFacts.

Lemma sample_writable :
  Tracker.writable (Engine.tracker Sample.afterOne) (Engine.fs Sample.afterOne).
Proof.
  split; [|split]; [vm_compute; set_solver|vm_compute; congruence|].
  left. vm_compute. set_solver.
Qed.

(** C9 fails: while the snapshot of the first processed recipient is saved
    over the one written at the start, a reader can find the progress file
    empty, which is neither the previous snapshot nor the new one. *)
Lemma save_exposes_truncated_file :
  ~ Tracker.save_is_atomic Sample.printDate
      (Engine.tracker Sample.afterOne) (Engine.fs Sample.afterOne).
Proof.
  intros Hatomic.
  destruct (saveProgress_states Sample.printDate _ _ sample_writable)
    as (dirs' & before & Hst & _).
  edestruct Hatomic as [E|E].
  - rewrite Hst. apply elem_of_app. right. apply list_elem_of_here.
  - unfold Fs.readFileSync in E. cbn [Fs.files] in E.
    rewrite lookup_insert_eq in E. vm_compute in E. discriminate E.
  - unfold Fs.readFileSync in E. cbn [Fs.files] in E.
    rewrite lookup_insert_eq in E. vm_compute in E. discriminate E.
Qed.

Lemma saveProgress_overwrites_in_place_witness :
  Tracker.writable (Engine.tracker Sample.afterOne) (Engine.fs Sample.afterOne) /\
  Fs.readFileSync "./data/progress.json"
    (Tracker.saveProgress Sample.printDate
       (Engine.tracker Sample.afterOne) (Engine.fs Sample.afterOne))
  = Some (Tracker.stringify Sample.printDate
            (Tracker.state (Engine.tracker Sample.afterOne))).
Proof.
  split; [exact sample_writable|].
  apply (saveProgress_overwrites_in_place Sample.printDate
           (Engine.tracker Sample.afterOne) (Engine.fs Sample.afterOne)
           sample_writable).
Defined.

Section Witnesses.

Import Types Engine.

Lemma warmup_then_bounded_delay_witness :
  exists delayMs,
    Tracker.delays
      (tracker (iteration Config.config Sample.printDate Sample.delivering
                  Sample.highest 7 (Sample.recipient 7) (Sample.start 23))) =
      Tracker.delays (tracker (Sample.start 23)) ++ [delayMs] /\
    5000 <= delayMs <= 12000.
Proof.
  destruct (warmup_then_bounded_delay Config.config Sample.printDate
              Sample.delivering Sample.highest 7 (Sample.recipient 7)
              (Sample.start 23)) as (delayMs & _ & Hdelays & _ & Hrange).
  exists delayMs. split; [exact Hdelays|].
  apply Hrange; [lia|unfold Js.unit_interval; simpl; lia|simpl; lia].
Defined.

Lemma batch_break_overrides_delay_witness :
  0 < Config.batchSize (Config.timing Config.config) /\
  let st := Sample.start 23 in
  let st' :=
    iteration Config.config Sample.printDate Sample.delivering Sample.highest
      19 (Sample.recipient 19) st in
  let batch s := currentBatch (Tracker.state (tracker s)) in
  exists pause,
    trace st' =
      trace st
      ++ (sendMessageWithRetry Config.config
            (Sample.delivering 19 (Sample.recipient 19)) (Sample.recipient 19)
            (Z.of_nat 19 <? 5) (now st)).1.2
      ++ [Sleep pause] /\
    ((pause = 120000 /\ batch st' = batch st + 1) <-> (Z.of_nat 19 + 1) mod 20 = 0) /\
    ((Z.of_nat 19 + 1) mod 20 <> 0 ->
     pause = Config.getRandomDelay Config.config (Z.of_nat 19 <? 5) (Sample.highest 19) /\
     batch st' = batch st).
Proof.
  assert (0 < Config.batchSize (Config.timing Config.config)) as HB by reflexivity.
  split; [exact HB|].
  exact (batch_break_overrides_delay Config.config Sample.printDate
           Sample.delivering Sample.highest 19 (Sample.recipient 19)
           (Sample.start 23) HB).
Defined.

Lemma retry_then_fail_witness :
  0 <= Config.maxRetries (Config.errorHandling Config.config) /\
  (forall a, transient (Sample.offline 0 (Sample.recipient 0) a) = true) /\
  let sent :=
    sendMessageWithRetry Config.config (Sample.offline 0 (Sample.recipient 0))
      (Sample.recipient 0) (Z.of_nat 0 <? 5) (now (Sample.start 1)) in
  let st' :=
    iteration Config.config Sample.printDate Sample.offline Sample.lowest
      0 (Sample.recipient 0) (Sample.start 1) in
  attempts_made sent.1.2 = 4%nat /\
  pauses_after_attempts sent.1.2 = [[30000]; [30000]; [30000]; []] /\
  success sent.1.1 = false /\
  Sample.recipient 0 ∈ Tracker.getFailedCustomers (tracker st').
Proof.
  assert (0 <= Config.maxRetries (Config.errorHandling Config.config)) as HM
    by (simpl; lia).
  assert (forall a, transient (Sample.offline 0 (Sample.recipient 0) a) = true)
    as Hcl by reflexivity.
  split; [exact HM|]. split; [exact Hcl|].
  destruct (retry_then_fail Config.config Sample.printDate Sample.offline
              Sample.lowest 0 (Sample.recipient 0) (Sample.start 1) HM Hcl)
    as (_ & Hatt & Hpauses & Hfail & _ & _ & Hin).
  split; [exact Hatt|]. split; [exact Hpauses|]. split; [exact Hfail|exact Hin].
Defined.

End Witnesses.

(** * Properties of the intake, the files and whole runs *)

Section RetryShape.

Import Types Engine.

Context (cfg : Config.t) (client : nat -> Reply) (c : ProcessedCustomer).

Let M := Config.maxRetries (Config.errorHandling cfg).
Let rd := Config.retryDelay (Config.timing cfg).

Lemma sleeps_cons_check n evs : sleeps (CheckNumberStatus n :: evs) = sleeps evs.
Proof. reflexivity. Qed.

Lemma sleeps_cons_send n evs : sleeps (SendText n :: evs) = sleeps evs.
Proof. reflexivity. Qed.

Lemma sleeps_cons_sleep ms evs : sleeps (Sleep ms :: evs) = ms :: sleeps evs.
Proof. reflexivity. Qed.

Lemma attempts_made_cons_check n evs :
  attempts_made (CheckNumberStatus n :: evs) = S (attempts_made evs).
Proof. unfold attempts_made. by rewrite filter_cons_True. Qed.

Lemma attempts_made_cons_other e evs :
  is_check e = false -> attempts_made (e :: evs) = attempts_made evs.
Proof.
  intros He. unfold attempts_made. rewrite filter_cons_False; [done|].
  rewrite He. by intros [].
Qed.

Lemma retryLoop_shape remaining attempt lastError t :
  Z.of_nat attempt + Z.of_nat remaining = M + 1 ->
  let out := retryLoop cfg client c remaining attempt lastError t in
  exists n : nat,
    sleeps out.1.2 = repeat rd n /\
    out.2 = t + Z.of_nat n * Z.max 0 rd /\
    timestamp out.1.1 = out.2 /\
    match remaining with
    | O => n = 0%nat /\ out.1.2 = [] /\ retryCount out.1.1 = M
    | S _ =>
        retryCount out.1.1 = Z.of_nat attempt + Z.of_nat n /\
        attempts_made out.1.2 = S n /\
        retryCount out.1.1 <= M
    end.
Proof.
  revert attempt lastError t.
  induction remaining as [|k IH]; intros attempt lastError t Hsum.
  { exists 0%nat. cbn [retryLoop fst snd retryCount timestamp]. fold M.
    repeat split; try done; lia. }
  cbn [retryLoop]. fold M rd.
  destruct (client attempt) as [message| |message|].
  2, 4: exists 0%nat; cbn [fst snd retryCount timestamp];
        rewrite attempts_made_cons_check;
        rewrite ?(attempts_made_cons_other (SendText _)) by done;
        repeat split; try done; lia.
  all: destruct k as [|k'].
  all: try (replace (Z.of_nat attempt <? M) with false by lia;
            destruct (IH (S attempt) message t ltac:(lia))
              as (n & Hsl & Hfin & Hts & -> & Hevs & Hrc);
            destruct (retryLoop cfg client c 0 (S attempt) message t)
              as [[result later] finish];
            cbn [fst snd] in *; subst later;
            exists 0%nat; cbn [app];
            rewrite attempts_made_cons_check;
            rewrite ?(attempts_made_cons_other (SendText _)) by done;
            repeat split; try done; lia).
  all: replace (Z.of_nat attempt <? M) with true by lia;
       cbn [delay];
       destruct (IH (S attempt) message (t + Z.max 0 rd) ltac:(lia))
         as (n & Hsl & Hfin & Hts & Hrc & Hatt & Hle);
       destruct (retryLoop cfg client c (S k') (S attempt) message (t + Z.max 0 rd))
         as [[result later] finish];
       cbn [fst snd] in *;
       exists (S n); cbn [app];
       rewrite ?sleeps_cons_check, ?sleeps_cons_send, sleeps_cons_sleep, Hsl;
       rewrite attempts_made_cons_check;
       rewrite ?(attempts_made_cons_other (SendText _)) by done;
       rewrite (attempts_made_cons_other (Sleep _)) by done;
       repeat split; try done; lia.
Qed.

End RetryShape.

Section RetryBound.

Import Types Engine.

Context (cfg : Config.t) (client : nat -> Reply) (c : ProcessedCustomer).

Let M := Config.maxRetries (Config.errorHandling cfg).
Let rd := Config.retryDelay (Config.timing cfg).

(** X1: whatever the client does, one call of [sendMessageWithRetry] makes
    [retryCount + 1] attempts with [retryCount] at most [maxRetries], sleeps
    [retryDelay] once per retry and nothing else, and stamps the result with
    the time at which it returns. *)
Theorem sendMessageWithRetry_bounded (isWarmup : bool) (t : Z) :
  0 <= M ->
  let out := sendMessageWithRetry cfg client c isWarmup t in
  0 <= retryCount out.1.1 <= M /\
  attempts_made out.1.2 = S (Z.to_nat (retryCount out.1.1)) /\
  sleeps out.1.2 = repeat rd (Z.to_nat (retryCount out.1.1)) /\
  out.2 = t + retryCount out.1.1 * Z.max 0 rd /\
  timestamp out.1.1 = out.2 /\
  customer out.1.1 = c.
Proof.
  intros HM out. subst out. unfold sendMessageWithRetry. fold M.
  pose proof (retryLoop_customer cfg client c (Z.to_nat (M + 1)) 0 EmptyString t)
    as Hc.
  destruct (retryLoop_shape cfg client c (Z.to_nat (M + 1)) 0 EmptyString t
              ltac:(fold M; lia)) as (n & Hsl & Hfin & Hts & Hrest).
  replace (Z.to_nat (M + 1)) with (S (Z.to_nat M)) in * by lia.
  fold M rd in Hsl, Hfin, Hrest.
  destruct Hrest as (Hrc & Hatt & Hle).
  rewrite Hrc, Hatt, Hsl, Hfin, Hts, Hfin.
  replace (Z.to_nat (Z.of_nat 0 + Z.of_nat n)) with n by lia.
  repeat split; try done; lia.
Qed.

End RetryBound.

Section LoopFacts.

Import Types Engine Trace.

Context (cfg : Config.t)
        (toISOString : Date -> string)
        (client : nat -> ProcessedCustomer -> nat -> Reply)
        (random : nat -> Js.Draw).

Let M := Config.maxRetries (Config.errorHandling cfg).
Let B := Config.batchSize (Config.timing cfg).

Lemma sendMessageWithRetry_delivered cl c isWarmup t :
  0 <= M -> cl 0%nat = Delivered ->
  sendMessageWithRetry cfg cl c isWarmup t =
  ({| customer := c; success := true; timestamp := t; error := None;
      retryCount := 0 |},
   [CheckNumberStatus (formatWhatsAppNumber (formattedPhone c));
    SendText (formatWhatsAppNumber (formattedPhone c))], t).
Proof.
  intros HM H0. unfold sendMessageWithRetry. fold M.
  replace (Z.to_nat (M + 1)) with (S (Z.to_nat M)) by lia.
  cbn [retryLoop]. by rewrite H0.
Qed.

Lemma sends_made_app evs1 evs2 :
  sends_made (evs1 ++ evs2) = (sends_made evs1 + sends_made evs2)%nat.
Proof. unfold sends_made. by rewrite filter_app, length_app. Qed.

(** X2: when the client delivers every message at the first attempt, a run
    over [N] recipients that is not shut down sends exactly [N] messages
    and counts [N] more processed and [N] more successful; nothing is
    counted as failed or skipped and no customer is added to the failed
    list. *)
Theorem all_delivered (isShuttingDown : nat -> bool)
    (customers : list ProcessedCustomer) (st : RunState) :
  0 <= M ->
  (forall i, isShuttingDown i = false) ->
  (forall i c, client i c 0%nat = Delivered) ->
  let st' :=
    sendMessagesToCustomers cfg toISOString client random isShuttingDown
      customers st in
  let N := Z.of_nat (length customers) in
  (forall p s f k, Tracker.counters (tracker st) = (p, s, f, k) ->
     Tracker.counters (tracker st') = (p + N, s + N, f, k)) /\
  sends_made (trace st') = (sends_made (trace st) + length customers)%nat /\
  attempts_made (trace st') = (attempts_made (trace st) + length customers)%nat /\
  Tracker.getFailedCustomers (tracker st') = Tracker.getFailedCustomers (tracker st).
Proof.
  intros HM Hrun Hdel. unfold sendMessagesToCustomers. generalize 0%nat as i.
  revert st. induction customers as [|c rest IH]; intros st i.
  { cbn [sendLoop length Z.of_nat]. split; [|by rewrite !Nat.add_0_r].
    intros p s f k E. by rewrite E, !Z.add_0_r. }
  cbn [sendLoop]. rewrite Hrun.
  specialize (IH (iteration cfg toISOString client random i c st) (S i)).
  cbn zeta in IH. destruct IH as (Hcnt & Hsends & Hatt & Hfailed).
  pose proof (sendMessageWithRetry_delivered (client i c) c (Z.of_nat i <? 5)
                (now st) HM (Hdel i c)) as Hsent.
  pose proof (iteration_counters cfg toISOString client random i c st) as Hit.
  pose proof (iteration_failed_customers cfg toISOString client random i c st) as Hfc.
  pose proof (iteration_unfold cfg toISOString client random i c st) as Hun.
  cbn zeta in Hit, Hfc, Hun. rewrite Hsent in Hit, Hfc, Hun. cbn [fst snd success] in *.
  split; [|split; [|split]].
  - intros p s f k E. rewrite E in Hit.
    rewrite (Hcnt _ _ _ _ Hit).
    replace (Z.of_nat (length (c :: rest))) with (1 + Z.of_nat (length rest))
      by (cbn [length]; lia).
    by rewrite !Z.add_assoc.
  - rewrite Hsends, Hun. cbn [trace]. rewrite !sends_made_app.
    unfold sends_made at 2 3. cbn [length].
    rewrite filter_cons_False by (by intros []).
    rewrite filter_cons_True by done.
    rewrite filter_cons_False by (by intros []). simpl. lia.
  - rewrite Hatt, Hun. cbn [trace]. rewrite !attempts_made_app.
    unfold attempts_made at 2 3. cbn [length].
    rewrite filter_cons_True by done.
    rewrite filter_cons_False by (by intros []).
    rewrite filter_cons_False by (by intros []). simpl. lia.
  - rewrite Hfailed, Hfc. by rewrite app_nil_r.
Qed.

End LoopFacts.

Section LoopShape.

Import Types Engine Trace.

Context (cfg : Config.t)
        (toISOString : Date -> string)
        (client : nat -> ProcessedCustomer -> nat -> Reply)
        (random : nat -> Js.Draw).

Let M := Config.maxRetries (Config.errorHandling cfg).
Let B := Config.batchSize (Config.timing cfg).

Lemma break_counts (i : Z) :
  0 < B -> 0 <= i ->
  (if Config.shouldTakeBatchBreak cfg (i + 1) then 1 else 0) = (i + 1) / B - i / B.
Proof.
  intros HB Hi. unfold Config.shouldTakeBatchBreak, Js.rem_is_zero, Js.rem. fold B.
  replace (0 <? i + 1) with true by lia. replace (B =? 0) with false by lia.
  rewrite Z.rem_mod_nonneg by lia. cbn [andb].
  destruct ((i + 1) mod B =? 0) eqn:E; Z.to_euclidean_division_equations; nia.
Qed.

Lemma iteration_currentBatch (i : nat) c st :
  currentBatch (Tracker.state (tracker (iteration cfg toISOString client random i c st))) =
  currentBatch (Tracker.state (tracker st))
  + (if Config.shouldTakeBatchBreak cfg (Z.of_nat i + 1) then 1 else 0).
Proof.
  rewrite iteration_unfold. cbn [tracker].
  destruct (Config.shouldTakeBatchBreak _ _); simpl; lia.
Qed.

(** X3: with a positive batch size [B], a run over [N] recipients that is
    not shut down takes [N / B] batch breaks (rounded down): that is by how
    much the batch counter grows. *)
Theorem batches_taken (isShuttingDown : nat -> bool)
    (customers : list ProcessedCustomer) (st : RunState) :
  0 < B ->
  (forall i, isShuttingDown i = false) ->
  currentBatch (Tracker.state (tracker
    (sendMessagesToCustomers cfg toISOString client random isShuttingDown
       customers st))) =
  currentBatch (Tracker.state (tracker st)) + Z.of_nat (length customers) / B.
Proof.
  intros HB Hrun. unfold sendMessagesToCustomers.
  enough (forall i st,
    currentBatch (Tracker.state (tracker
      (sendLoop cfg toISOString client random isShuttingDown i customers st))) =
    currentBatch (Tracker.state (tracker st))
    + (Z.of_nat i + Z.of_nat (length customers)) / B - Z.of_nat i / B) as H.
  { rewrite H. change (Z.of_nat 0) with 0. rewrite Z.add_0_l, Z.div_0_l by lia. lia. }
  induction customers as [|c rest IH]; intros i st'.
  { cbn [sendLoop length].
    replace (Z.of_nat i + Z.of_nat 0) with (Z.of_nat i) by lia. lia. }
  cbn [sendLoop]. rewrite Hrun, IH, iteration_currentBatch.
  rewrite (break_counts (Z.of_nat i) HB) by lia.
  replace (Z.of_nat (S i) + Z.of_nat (length rest))
    with (Z.of_nat i + Z.of_nat (length (c :: rest))) by (cbn [length]; lia).
  replace (Z.of_nat (S i)) with (Z.of_nat i + 1) by lia. lia.
Qed.

(** X4: when the shutdown flag is first seen up at index [k], the loop has
    handled exactly the recipients before [k]: the tracker, the calls made
    and the clock are those a complete run over the first [k] recipients
    ends with. The disk is left aside: the handler that raises the flag
    saves the progress itself. *)
Theorem shutdown_stops_queue (isShuttingDown : nat -> bool) (k : nat)
    (customers : list ProcessedCustomer) (st : RunState) :
  isShuttingDown k = true ->
  (forall j, (j < k)%nat -> isShuttingDown j = false) ->
  let stopped :=
    sendMessagesToCustomers cfg toISOString client random isShuttingDown
      customers st in
  let complete :=
    sendMessagesToCustomers cfg toISOString client random (fun _ => false)
      (take k customers) st in
  tracker stopped = tracker complete /\
  trace stopped = trace complete /\
  now stopped = now complete.
Proof.
  intros Hk Hbefore stopped complete. subst stopped complete.
  unfold sendMessagesToCustomers.
  enough (forall k' i st',
            isShuttingDown (i + k')%nat = true ->
            (forall j, (j < k')%nat -> isShuttingDown (i + j)%nat = false) ->
            sendLoop cfg toISOString client random isShuttingDown i customers st' =
            sendLoop cfg toISOString client random (fun _ => false) i
              (take k' customers) st') as H.
  { by rewrite (H k 0%nat st). }
  induction customers as [|c rest IH]; intros k' i st' Hup Hdown.
  { by rewrite take_nil. }
  destruct k' as [|k'].
  - cbn [take sendLoop]. by rewrite Nat.add_0_r in Hup; rewrite Hup.
  - cbn [take sendLoop]. rewrite <- (Nat.add_0_r i) at 1.
    rewrite (Hdown 0%nat) by lia. apply IH.
    + by replace (S i + k')%nat with (i + S k')%nat by lia.
    + intros j Hj. replace (S i + j)%nat with (i + S j)%nat by lia.
      apply Hdown. lia.
Qed.

Lemma sends_follow_checks_app previous evs1 evs2 :
  sends_follow_checks previous (evs1 ++ evs2) =
  sends_follow_checks previous evs1
  && sends_follow_checks (from_option Some previous (last evs1)) evs2.
Proof.
  revert previous. induction evs1 as [|e evs1 IH]; intros previous; [done|].
  cbn [app sends_follow_checks]. rewrite IH, andb_assoc.
  replace (from_option Some previous (last (e :: evs1)))
    with (from_option Some (Some e) (last evs1)); [done|].
  rewrite last_cons. by destruct (last evs1).
Qed.

Lemma contacted_cons_check n evs :
  contacted (CheckNumberStatus n :: evs) = n :: contacted evs.
Proof. reflexivity. Qed.

Lemma contacted_cons_send n evs :
  contacted (SendText n :: evs) = n :: contacted evs.
Proof. reflexivity. Qed.

Lemma contacted_cons_sleep ms evs : contacted (Sleep ms :: evs) = contacted evs.
Proof. reflexivity. Qed.

Lemma retryLoop_disciplined cl c remaining attempt lastError t previous :
  let evs := (retryLoop cfg cl c remaining attempt lastError t).1.2 in
  sends_follow_checks previous evs = true /\
  Forall (fun n => n = formatWhatsAppNumber (formattedPhone c)) (contacted evs).
Proof.
  revert attempt lastError t previous.
  induction remaining as [|k IH]; intros attempt lastError t previous.
  { by split; [|constructor]. }
  cbn [retryLoop]. destruct (cl attempt) as [message| |message|].
  - destruct (Z.of_nat attempt <? _); cbn [delay].
    + pose proof (IH (S attempt) message
                    (t + Z.max 0 (Config.retryDelay (Config.timing cfg)))) as IH'.
      destruct (retryLoop _ _ _ _ _ _ _) as [[result later] finish].
      cbn [fst snd app] in *.
      rewrite contacted_cons_check, contacted_cons_sleep.
      cbn [sends_follow_checks andb].
      destruct (IH' (Some (Sleep (Config.retryDelay (Config.timing cfg)))))
        as [-> Hc]. by split; [|constructor].
    + pose proof (IH (S attempt) message t) as IH'.
      destruct (retryLoop _ _ _ _ _ _ _) as [[result later] finish].
      cbn [fst snd app] in *. rewrite contacted_cons_check.
      cbn [sends_follow_checks andb].
      destruct (IH' (Some (CheckNumberStatus
                             (formatWhatsAppNumber (formattedPhone c)))))
        as [-> Hc]. by split; [|constructor].
  - split; [done|by repeat constructor].
  - destruct (Z.of_nat attempt <? _); cbn [delay].
    + pose proof (IH (S attempt) message
                    (t + Z.max 0 (Config.retryDelay (Config.timing cfg)))) as IH'.
      destruct (retryLoop _ _ _ _ _ _ _) as [[result later] finish].
      cbn [fst snd app] in *.
      rewrite contacted_cons_check, contacted_cons_send, contacted_cons_sleep.
      cbn [sends_follow_checks andb]. rewrite bool_decide_eq_true_2 by done.
      cbn [andb].
      destruct (IH' (Some (Sleep (Config.retryDelay (Config.timing cfg)))))
        as [-> Hc]. by split; [|repeat constructor].
    + pose proof (IH (S attempt) message t) as IH'.
      destruct (retryLoop _ _ _ _ _ _ _) as [[result later] finish].
      cbn [fst snd app] in *.
      rewrite contacted_cons_check, contacted_cons_send.
      cbn [sends_follow_checks andb]. rewrite bool_decide_eq_true_2 by done.
      cbn [andb].
      destruct (IH' (Some (SendText (formatWhatsAppNumber (formattedPhone c)))))
        as [-> Hc]. by split; [|repeat constructor].
  - cbn [fst snd sends_follow_checks]. rewrite bool_decide_eq_true_2 by done.
    split; [done|by repeat constructor].
Qed.

Lemma iteration_trace (i : nat) c st :
  exists pause,
    trace (iteration cfg toISOString client random i c st) =
    trace st
    ++ (sendMessageWithRetry cfg (client i c) c (Z.of_nat i <? 5) (now st)).1.2
    ++ [Sleep pause].
Proof. rewrite iteration_unfold. cbn [trace]. by eexists. Qed.

(** What a run appends to the trace. *)
Lemma sendMessagesToCustomers_disciplined (isShuttingDown : nat -> bool)
    (customers : list ProcessedCustomer) (st : RunState) :
  let st' :=
    sendMessagesToCustomers cfg toISOString client random isShuttingDown
      customers st in
  exists evs,
    trace st' = trace st ++ evs /\
    sends_follow_checks None evs = true /\
    Forall (fun n => n ∈ (fun c => formatWhatsAppNumber (formattedPhone c)) <$> customers)
           (contacted evs) /\
    ((forall i, isShuttingDown i = false) -> customers <> [] ->
     exists ms, last evs = Some (Sleep ms)).
Proof.
  unfold sendMessagesToCustomers. generalize 0%nat as i. revert st.
  induction customers as [|c rest IH]; intros st i.
  { exists []. cbn [sendLoop]. rewrite app_nil_r. repeat split; try done. }
  cbn [sendLoop]. destruct (isShuttingDown i) eqn:Hsd.
  { exists []. rewrite app_nil_r. repeat split; try done.
    intros Hrun. by rewrite Hrun in Hsd. }
  destruct (IH (iteration cfg toISOString client random i c st) (S i))
    as (evs & Htrace & Hsfc & Hnum & Hlast).
  destruct (iteration_trace i c st) as [pause Hit]. rewrite Hit in Htrace.
  set (calls := (sendMessageWithRetry cfg (client i c) c (Z.of_nat i <? 5) (now st)).1.2)
    in *.
  destruct (retryLoop_disciplined (client i c) c (Z.to_nat (M + 1)) 0 EmptyString
              (now st) None) as [Hcalls Hcn].
  fold M in Hcalls, Hcn. change (retryLoop _ _ _ _ _ _ _).1.2 with calls in Hcalls, Hcn.
  exists ((calls ++ [Sleep pause]) ++ evs).
  split; [by rewrite Htrace, <- !app_assoc|]. split; [|split].
  - rewrite !sends_follow_checks_app, Hcalls. cbn [andb sends_follow_checks].
    rewrite last_snoc. cbn [from_option].
    destruct evs as [|e evs']; [done|].
    cbn [sends_follow_checks] in Hsfc |- *.
    destruct e; try done.
  - unfold contacted in *. rewrite !omap_app. cbn [omap]. rewrite app_nil_r.
    apply Forall_app. split.
    + eapply Forall_impl; [exact Hcn|]. intros n ->. cbn [fmap list_fmap].
      apply list_elem_of_here.
    + eapply Forall_impl; [exact Hnum|]. intros n Hn. by apply list_elem_of_further.
  - intros Hrun _. destruct rest as [|c' rest'].
    + cbn [sendLoop] in Htrace. rewrite Hit in Htrace.
      assert (evs = []) as ->.
      { apply (f_equal length) in Htrace. rewrite !length_app in Htrace.
        destruct evs; [done|]. simpl in Htrace. lia. }
      rewrite app_nil_r, last_snoc. eauto.
    + destruct (Hlast Hrun ltac:(done)) as [ms Hms]. exists ms.
      rewrite last_app, Hms. done.
Qed.

End LoopShape.

Section TrackerLists.

Import Types Tracker.

Context (toISOString : Date -> string).

(** X5: in every state the tracker can reach, the results list has one entry
    per successful or failed send and the delays list as many, the failed
    customers are exactly [failedSends] many, the index of the last
    processed customer lies below [processedCustomers], and no counter is
    negative. *)
Theorem tracker_lists_match_counters (w : Tracker.t * Fs.t) :
  reachable toISOString w ->
  Z.of_nat (length (messageResults w.1)) =
    successfulSends (state w.1) + failedSends (state w.1) /\
  length (delays w.1) = length (messageResults w.1) /\
  Z.of_nat (length (getFailedCustomers w.1)) = failedSends (state w.1) /\
  -1 <= lastProcessedIndex (state w.1) < processedCustomers (state w.1) /\
  0 <= successfulSends (state w.1) /\
  0 <= skippedCustomers (state w.1) /\
  0 <= currentBatch (state w.1).
Proof.
  induction 1 as [now fs|m [tr fs] _ IH].
  { cbn. repeat split; lia. }
  cbn [fst] in IH. destruct IH as (Hres & Hdel & Hfail & Hidx & Hs & Hk & Hb).
  destruct m; cbn [call fst initialize recordSkipped incrementBatch with_state
                   state messageResults delays]; try (repeat split; done || lia).
  - unfold getFailedCustomers in *. cbn. repeat split; try done; lia.
  - unfold getFailedCustomers in *.
    cbn [recordResult fst state messageResults delays
         successfulSends failedSends lastProcessedIndex processedCustomers
         skippedCustomers currentBatch].
    rewrite filter_app, fmap_app, !length_app. cbn [length].
    destruct (success result) eqn:E.
    + rewrite filter_cons_False by congruence. cbn. repeat split; lia.
    + rewrite filter_cons_True by done. cbn. repeat split; lia.
  - unfold getFailedCustomers in *. cbn. repeat split; try done; lia.
  - unfold getFailedCustomers in *. cbn. repeat split; try done; lia.
Qed.

Lemma saveProgress_result tr fs :
  writable tr fs ->
  Fs.files (saveProgress toISOString tr fs) =
    <[progressFile tr := stringify toISOString (state tr)]> (Fs.files fs) /\
  (Fs.dirs (saveProgress toISOString tr fs) = Fs.dirs fs \/
   Fs.dirs (saveProgress toISOString tr fs) =
     {[Fs.dirname (progressFile tr)]} ∪ Fs.dirs fs) /\
  Fs.dirname (progressFile tr) ∈ Fs.dirs (saveProgress toISOString tr fs).
Proof.
  intros (Hfile & Hne & Hdir). unfold saveProgress, saveProgress_ops, Fs.run.
  destruct (Fs.existsSync _ fs) eqn:E.
  - assert (Fs.dirname (progressFile tr) ∈ Fs.dirs fs) as Hin.
    { destruct Hdir as [|Hnone]; [done|].
      unfold Fs.existsSync in E. apply orb_true_iff in E as [E|E].
      - by apply bool_decide_eq_true_1 in E.
      - apply bool_decide_eq_true_1 in E. rewrite Hnone in E. by destruct E. }
    cbn [app]. rewrite writeFileSync_states by done. cbn. auto.
  - unfold Fs.existsSync in E. apply orb_false_iff in E as [E1 E2].
    apply bool_decide_eq_false_1 in E1, E2.
    assert (Fs.files fs !! Fs.dirname (progressFile tr) = None) as Hnone.
    { destruct (Fs.files fs !! _) eqn:El; [|done]. exfalso. apply E2. eauto. }
    set (fs1 := {| Fs.dirs := {[Fs.dirname (progressFile tr)]} ∪ Fs.dirs fs;
                   Fs.files := Fs.files fs |}).
    assert (Fs.dirname (progressFile tr) ∈ Fs.dirs fs1) as Hin1
      by (apply elem_of_union_l, elem_of_singleton; reflexivity).
    assert (progressFile tr ∉ Fs.dirs fs1) as Hfile1.
    { intros [Heq%elem_of_singleton|Hold]%elem_of_union; [by symmetry in Heq|done]. }
    cbn [app Fs.states Fs.exec]. rewrite Hnone. fold fs1.
    change (Fs.states [Fs.Truncate ?p; Fs.Append ?p ?d] fs1)
      with (Fs.states (Fs.writeFileSync p d) fs1).
    rewrite writeFileSync_states by done. cbn. auto.
Qed.

Lemma saveProgress_writable tr tr' fs :
  writable tr fs -> progressFile tr' = progressFile tr ->
  writable tr' (saveProgress toISOString tr fs).
Proof.
  intros Hw Hpath. destruct (saveProgress_result tr fs Hw) as (_ & Hdirs & Hin).
  destruct Hw as (Hfile & Hne & _). unfold writable. rewrite Hpath.
  split; [|split; [done|by left]].
  destruct Hdirs as [->| ->]; [done|].
  intros [Heq%elem_of_singleton|Hold]%elem_of_union; [by symmetry in Heq|done].
Qed.

(** X6: reading the checkpoint back. After a save to a writable progress
    file [loadProgress] finds the full snapshot of the current state; after
    [clearProgress] it finds nothing, whatever the disk held. *)
Theorem checkpoint_save_load_clear (tr : Tracker.t) (fs : Fs.t) :
  (writable tr fs ->
   loadProgress tr (saveProgress toISOString tr fs)
     = Some (stringify toISOString (state tr))) /\
  loadProgress tr (clearProgress tr fs) = None.
Proof.
  split.
  - intros Hw. destruct (saveProgress_result tr fs Hw) as (Hfiles & _ & _).
    unfold loadProgress, Fs.existsSync, Fs.readFileSync. rewrite Hfiles.
    rewrite lookup_insert_eq.
    rewrite (bool_decide_eq_true_2 (is_Some _)) by eauto.
    by rewrite orb_true_r.
  - unfold loadProgress, clearProgress.
    destruct (Fs.existsSync (progressFile tr) fs) eqn:E; [|by rewrite E].
    unfold Fs.run. cbn [Fs.states Fs.exec].
    destruct (Fs.files fs !! progressFile tr) eqn:El.
    + cbn [List.last]. unfold Fs.existsSync, Fs.readFileSync. cbn [Fs.files Fs.dirs].
      rewrite lookup_delete_eq. by destruct (_ || _).
    + cbn [List.last]. rewrite E. by unfold Fs.readFileSync.
Qed.

End TrackerLists.

Section Cadence.

Import Types Tracker Engine Checkpoint.

Context (cfg : Config.t)
        (toISOString : Date -> string)
        (client : nat -> ProcessedCustomer -> nat -> Reply)
        (random : nat -> Js.Draw)
        (isShuttingDown : nat -> bool).

Lemma recordResult_upToDate result delayMs tr fs :
  upToDate toISOString tr fs ->
  upToDate toISOString
    (recordResult toISOString result delayMs tr fs).1
    (recordResult toISOString result delayMs tr fs).2.
Proof.
  intros (Hw & Hp & s & Hread & Hs).
  unfold recordResult. cbn [fst snd].
  set (tr' := {| state := _ |}).
  assert (progressFile tr' = progressFile tr) as Hpath by done.
  assert (processedCustomers (state tr') = processedCustomers (state tr) + 1)
    as Hproc by done.
  unfold Js.rem_is_zero, Js.rem. cbn [Z.eqb].
  rewrite Z.rem_mod_nonneg by lia.
  destruct ((processedCustomers (state tr) + 1) mod 10 =? 0) eqn:E.
  - assert (writable tr' fs) as Hw'.
    { destruct Hw as (? & ? & ?). by unfold writable; rewrite Hpath. }
    split; [by apply saveProgress_writable|]. split; [lia|].
    exists (state tr'). split.
    + destruct (saveProgress_result toISOString tr' fs Hw') as (Hfiles & _).
      unfold Fs.readFileSync. rewrite Hfiles. apply lookup_insert_eq.
    + rewrite Hproc. Z.to_euclidean_division_equations. lia.
  - split; [destruct Hw as (? & ? & ?); by unfold writable; rewrite Hpath|].
    split; [lia|]. exists s. rewrite Hpath. split; [done|].
    rewrite Hs, Hproc. Z.to_euclidean_division_equations. lia.
Qed.

Lemma iteration_upToDate (i : nat) c st :
  upToDate toISOString (tracker st) (fs st) ->
  upToDate toISOString
    (tracker (iteration cfg toISOString client random i c st))
    (fs (iteration cfg toISOString client random i c st)).
Proof.
  intros H. rewrite iteration_unfold. cbn [tracker fs].
  pose proof (recordResult_upToDate
                (sendMessageWithRetry cfg (client i c) c (Z.of_nat i <? 5) (now st)).1.1
                (Config.getRandomDelay cfg (Z.of_nat i <? 5) (random i))
                _ _ H) as H'.
  by destruct (Config.shouldTakeBatchBreak _ _).
Qed.

Lemma sendLoop_processed (customers : list ProcessedCustomer) :
  (forall i, isShuttingDown i = false) ->
  forall (i : nat) (st : RunState),
  processedCustomers
    (state (tracker (sendLoop cfg toISOString client random isShuttingDown i
                       customers st)))
  = processedCustomers (state (tracker st)) + Z.of_nat (length customers).
Proof.
  intros Hrun. induction customers as [|c rest IH]; intros i st.
  { cbn. lia. }
  cbn [sendLoop]. rewrite Hrun, IH.
  pose proof (iteration_counters cfg toISOString client random i c st) as Hc.
  unfold counters in Hc.
  destruct (success _) in Hc; injection Hc as -> _ _ _;
    rewrite length_cons; lia.
Qed.

(** X7: the loop saves the checkpoint only when the processed count reaches
    a multiple of ten, and not when it ends. If the progress file is up to
    date when a run starts and the run is not shut down, then when the run
    ends the file holds the snapshot taken at the last multiple of ten: up
    to nine processed recipients are on record in memory only. *)
Theorem checkpoint_every_ten (customers : list ProcessedCustomer) (st : RunState) :
  (forall i, isShuttingDown i = false) ->
  upToDate toISOString (tracker st) (fs st) ->
  let st' :=
    sendMessagesToCustomers cfg toISOString client random isShuttingDown
      customers st in
  upToDate toISOString (tracker st') (fs st') /\
  exists s : ProgressState,
    Fs.readFileSync (progressFile (tracker st')) (fs st')
      = Some (stringify toISOString s) /\
    processedCustomers (state (tracker st')) =
      processedCustomers (state (tracker st)) + Z.of_nat (length customers) /\
    processedCustomers s =
      10 * ((processedCustomers (state (tracker st)) + Z.of_nat (length customers)) / 10).
Proof.
  intros Hrun Hst st'.
  assert (upToDate toISOString (tracker st') (fs st')) as Hup.
  { subst st'. unfold sendMessagesToCustomers. generalize 0%nat as i.
    revert st Hst. induction customers as [|c rest IH]; intros st Hst i; [done|].
    cbn [sendLoop]. rewrite Hrun. by apply IH, iteration_upToDate. }
  split; [done|].
  pose proof (sendLoop_processed customers Hrun 0%nat st) as Hproc.
  fold (sendMessagesToCustomers cfg toISOString client random isShuttingDown
          customers st) in Hproc. fold st' in Hproc.
  destruct Hup as (_ & _ & s & Hread & Hs). exists s.
  split; [done|]. split; [done|]. by rewrite Hs, Hproc.
Qed.

End Cadence.

Section CustomerCheckFacts.

Import CustomerChecks.

Context (trim : string -> string) (toUpperCase : string -> string).
Context (cfg : Config.t).

Let cc := Config.countryCode (Config.validation cfg).
Let L := Config.phoneNumberLength (Config.validation cfg).

Lemma validatePhoneNumber_cases (phone : string) :
  let r := validatePhoneNumber trim cfg phone in
  (isValid r = true ->
   exists formatted,
     formattedValue r = Some formatted /\ error r = None /\
     formatted = Validators.formatPhoneNumber cfg phone /\
     Z.of_nat (String.length formatted) = L /\
     Js.startsWith formatted cc = true /\
     (Js.all_digits cc = true -> Js.all_digits formatted = true) /\
     Validators.cleanPhoneNumber phone <> EmptyString) /\
  (isValid r = false -> formattedValue r = None /\ is_Some (error r)).
Proof.
  intros r. subst r. unfold validatePhoneNumber. fold cc L.
  assert (Validators.formatPhoneNumber cfg (Validators.cleanPhoneNumber phone) =
          Validators.formatPhoneNumber cfg phone) as Hclean.
  { unfold Validators.formatPhoneNumber, Validators.cleanPhoneNumber.
    by rewrite (strip_non_digits_fixed _ (strip_non_digits_all_digits phone)). }
  rewrite Hclean.
  assert (forall message,
    (isValid (rejected message) = true ->
     exists formatted,
       formattedValue (rejected message) = Some formatted /\
       error (rejected message) = None /\
       formatted = Validators.formatPhoneNumber cfg phone /\
       Z.of_nat (String.length formatted) = L /\
       Js.startsWith formatted cc = true /\
       (Js.all_digits cc = true -> Js.all_digits formatted = true) /\
       Validators.cleanPhoneNumber phone <> EmptyString) /\
    (isValid (rejected message) = false ->
     formattedValue (rejected message) = None /\
     is_Some (error (rejected message)))) as Hrej.
  { intros message. cbn. split; [done|]. intros _. split; [done|by eexists]. }
  destruct (blank trim phone); [apply Hrej|].
  destruct (bool_decide _); [apply Hrej|].
  destruct (String.length _ =? 0)%nat eqn:Elen; [apply Hrej|].
  destruct (Z.of_nat _ =? L) eqn:EL; cbn [negb]; [|apply Hrej].
  destruct (Js.startsWith _ cc) eqn:Ecc; cbn [negb]; [|apply Hrej].
  split; [intros _|done]. cbn [isValid formattedValue error].
  exists (Validators.formatPhoneNumber cfg phone).
  repeat split; try done.
  - by apply Z.eqb_eq.
  - intros Hcc. by apply formatPhoneNumber_digits.
  - intros E. by rewrite E in Elen.
Qed.

(** X8: what [validatePhoneNumber] accepts. An accepted number comes back
    formatted, without an error: the formatted value is
    [formatPhoneNumber] of the digits of the input, has exactly
    [phoneNumberLength] characters, starts with the country code and, when
    the country code is made of digits, is made of digits. A rejected
    number comes back with an error and no formatted value. *)
Theorem validatePhoneNumber_result (phone : string) :
  let r := validatePhoneNumber trim cfg phone in
  (isValid r = true ->
   exists formatted,
     formattedValue r = Some formatted /\ error r = None /\
     formatted = Validators.formatPhoneNumber cfg phone /\
     Z.of_nat (String.length formatted) = L /\
     Js.startsWith formatted cc = true /\
     (Js.all_digits cc = true -> Js.all_digits formatted = true) /\
     Validators.cleanPhoneNumber phone <> EmptyString) /\
  (isValid r = false -> formattedValue r = None /\ is_Some (error r)).
Proof. apply validatePhoneNumber_cases. Qed.

(** X9: [validatePhoneNumber] never reports a missing country code: a
    number that passes the length check is accepted, because
    [formatPhoneNumber] has put the country code in front. *)
Theorem validatePhoneNumber_country_code_check_passes (phone : string) :
  error (validatePhoneNumber trim cfg phone)
  <> Some ("Phone number must start with " +:+ cc).
Proof.
  unfold validatePhoneNumber. fold cc L.
  pose proof (formatPhoneNumber_startsWith cfg (Validators.cleanPhoneNumber phone))
    as Hcc. fold cc in Hcc. rewrite Hcc. cbn [negb].
  repeat case_match; cbn [error rejected]; try discriminate.
Qed.

(** A phone entry without a single digit is never accepted. *)
Lemma validatePhoneNumber_needs_digits (phone : string) :
  Validators.cleanPhoneNumber phone = EmptyString ->
  isValid (validatePhoneNumber trim cfg phone) = false.
Proof.
  intros E. unfold validatePhoneNumber. rewrite E.
  by repeat case_match.
Qed.

Lemma selectBestPhoneNumber_cases (customer : Types.Customer) :
  isValid (validateCustomerData trim customer) = true ->
  let selected := selectBestPhoneNumber trim cfg customer in
  blank trim (Types.CustomerName customer) = false /\
  blank trim (Types.Code customer) = false /\
  blank trim selected = false /\
  (selected = Types.Mobile customer \/ selected = Types.Phone customer) /\
  (Config.preferMobileOverPhone (Config.validation cfg) = true ->
   blank trim (Types.Mobile customer) = false ->
   selected = Types.Mobile customer).
Proof.
  unfold validateCustomerData, selectBestPhoneNumber.
  destruct (blank trim (Types.CustomerName customer)) eqn:En; [done|].
  destruct (blank trim (Types.Code customer)) eqn:Ec; [done|].
  destruct (blank trim (Types.Phone customer)) eqn:Ep;
    destruct (blank trim (Types.Mobile customer)) eqn:Em;
    cbn [negb andb isValid rejected]; try done;
    destruct (Config.preferMobileOverPhone _); cbn [negb];
    rewrite ?Ep, ?Em; cbn [negb]; intros _; repeat split; auto; done.
Qed.

(** X10: for a customer that [validateCustomerData] accepts, name and code
    are not blank and the number [selectBestPhoneNumber] picks is not blank
    either; it is the customer's mobile or phone entry, the mobile one
    whenever that is preferred and not blank. *)
Theorem selected_phone_not_blank (customer : Types.Customer) :
  isValid (validateCustomerData trim customer) = true ->
  let selected := selectBestPhoneNumber trim cfg customer in
  blank trim (Types.CustomerName customer) = false /\
  blank trim (Types.Code customer) = false /\
  blank trim selected = false /\
  (selected = Types.Mobile customer \/ selected = Types.Phone customer) /\
  (Config.preferMobileOverPhone (Config.validation cfg) = true ->
   blank trim (Types.Mobile customer) = false ->
   selected = Types.Mobile customer).
Proof. apply selectBestPhoneNumber_cases. Qed.

End CustomerCheckFacts.

Section HeaderFacts.

Import CustomerChecks.

Lemma validateCSVStructure_cases (headers : list string) :
  (isValid (validateCSVStructure headers) = true <->
   forall h, h ∈ requiredHeaders -> h ∈ headers) /\
  (isValid (validateCSVStructure headers) = false ->
   exists missing,
     missing <> [] /\
     (forall h, h ∈ missing <-> h ∈ requiredHeaders /\ h ∉ headers) /\
     error (validateCSVStructure headers)
       = Some ("Missing required columns: " +:+ JsText.join ", " missing)).
Proof.
  unfold validateCSVStructure.
  set (missing := filter (fun h => h ∉ headers) requiredHeaders).
  assert (forall h, h ∈ missing <-> h ∈ requiredHeaders /\ h ∉ headers) as Hm.
  { intros h. subst missing. rewrite list_elem_of_filter. tauto. }
  destruct missing as [|h0 rest] eqn:E.
  - cbn. split; [|done]. split; [|done]. intros _ h Hh.
    destruct (decide (h ∈ headers)) as [|Hn]; [done|].
    exfalso. eapply elem_of_nil, Hm. eauto.
  - cbn [length Nat.ltb Nat.leb isValid rejected error]. split.
    + split; [done|]. intros Hall. exfalso.
      destruct (Hm h0) as [[Hreq Hnot] _]; [apply list_elem_of_here|].
      by apply Hnot, Hall.
    + intros _. exists (h0 :: rest). split; [done|]. split; [exact Hm|done].
Qed.

(** X11: [validateCSVStructure] accepts a header exactly when it has the four
    columns Code, CustomerName, Phone and Mobile; a rejection names the
    columns that are missing. *)
Theorem validateCSVStructure_required (headers : list string) :
  (isValid (validateCSVStructure headers) = true <->
   forall h, h ∈ requiredHeaders -> h ∈ headers) /\
  (isValid (validateCSVStructure headers) = false ->
   exists missing,
     missing <> [] /\
     (forall h, h ∈ missing <-> h ∈ requiredHeaders /\ h ∉ headers) /\
     error (validateCSVStructure headers)
       = Some ("Missing required columns: " +:+ JsText.join ", " missing)).
Proof. apply validateCSVStructure_cases. Qed.

End HeaderFacts.


Section CsvLineFacts.

Import JsText CsvFile.

Context (trim : string -> string).

Lemma append_cons c (s t : string) : String c s +:+ t = String c (s +:+ t).
Proof. reflexivity. Qed.

Lemma append_nil_l (t : string) : EmptyString +:+ t = t.
Proof. reflexivity. Qed.

Lemma append_nil_r (s : string) : s +:+ EmptyString = s.
Proof. induction s as [|c s IH]; [done|]. by rewrite append_cons, IH. Qed.

Lemma append_assoc (s1 s2 s3 : string) : (s1 +:+ s2) +:+ s3 = s1 +:+ (s2 +:+ s3).
Proof. induction s1 as [|c s1 IH]; [done|]. by rewrite !append_cons, IH. Qed.

Lemma occurs_app c s1 s2 : occurs c (s1 +:+ s2) = occurs c s1 || occurs c s2.
Proof.
  induction s1 as [|d s1 IH]; [done|]. rewrite append_cons. cbn [occurs].
  by rewrite IH, orb_assoc.
Qed.

Lemma join_cons sep s rest :
  rest <> [] -> join sep (s :: rest) = s +:+ sep +:+ join sep rest.
Proof. by destruct rest. Qed.

(** A line without quotes is cut at its commas. *)
Lemma scan_unquoted line :
  occurs dquote line = false ->
  forall values currentValue,
  occurs "," currentValue = false ->
  exists raws,
    raws <> [] /\
    scan trim line values currentValue false = values ++ (trim <$> raws) /\
    join "," raws = currentValue +:+ line /\
    Forall (fun raw => occurs "," raw = false) raws.
Proof.
  induction line as [|c rest IH]; intros Hq values cur Hcur.
  { exists [cur]. rewrite append_nil_r. by repeat constructor. }
  cbn [occurs] in Hq. apply orb_false_iff in Hq as [Hc Hrest].
  cbn [scan]. rewrite (Ascii.eqb_sym c), Hc.
  destruct (Ascii.eqb c ",") eqn:Ecomma; cbn [andb negb].
  - apply Ascii.eqb_eq in Ecomma as ->.
    destruct (IH Hrest (values ++ [trim cur]) EmptyString eq_refl)
      as (raws & Hne & Hscan & Hjoin & Hall).
    exists (cur :: raws). split; [done|]. split; [|split].
    + rewrite Hscan, <- app_assoc. done.
    + rewrite join_cons by done. by rewrite Hjoin, !append_cons, !append_nil_l.
    + by constructor.
  - destruct (IH Hrest values (cur +:+ String c EmptyString))
      as (raws & Hne & Hscan & Hjoin & Hall).
    { rewrite occurs_app, Hcur. cbn [occurs]. rewrite Ascii.eqb_sym, Ecomma. done. }
    exists raws. split; [done|]. split; [done|]. split; [|done].
    by rewrite Hjoin, append_assoc, append_cons, append_nil_l.
Qed.

Lemma scan_nonempty (n : nat) :
  forall line values cur q,
  (String.length line <= n)%nat -> scan trim line values cur q <> [].
Proof.
  induction n as [|n IH]; intros line values cur q Hn.
  { destruct line; [|simpl in Hn; lia]. cbn [scan]. by destruct values. }
  destruct line as [|c rest]; cbn [scan]; [by destruct values|].
  cbn [String.length] in Hn.
  destruct (Ascii.eqb c dquote).
  - destruct q; [destruct rest as [|d rest']|]; [apply IH; lia| |apply IH; lia].
    cbn [String.length] in Hn.
    destruct (Ascii.eqb d dquote); apply IH; cbn [String.length]; lia.
  - destruct (Ascii.eqb c "," && negb q); apply IH; lia.
Qed.

(** X12: [parseCSVLine] always returns at least one value, and a line without
    double quotes is cut at its commas: the values are the pieces between
    the commas, each trimmed, so that joining the untrimmed pieces with
    commas gives the line back. *)
Theorem parseCSVLine_splits_at_commas (line : string) :
  parseCSVLine trim line <> [] /\
  (occurs dquote line = false ->
   exists raws,
     parseCSVLine trim line = trim <$> raws /\
     join "," raws = line /\
     Forall (fun raw => occurs "," raw = false) raws).
Proof.
  split.
  - unfold parseCSVLine. by apply scan_nonempty with (n := String.length line).
  - intros Hq.
    destruct (scan_unquoted line Hq [] EmptyString eq_refl)
      as (raws & _ & Hscan & Hjoin & Hall).
    by exists raws.
Qed.

Lemma scan_plain s rest values cur :
  occurs dquote s = false -> occurs "," s = false ->
  scan trim (s +:+ rest) values cur false = scan trim rest values (cur +:+ s) false.
Proof.
  revert cur. induction s as [|c s IH]; intros cur Hq Hc.
  { by rewrite append_nil_r. }
  cbn [occurs] in Hq, Hc.
  apply orb_false_iff in Hq as [Hq1 Hq2]. apply orb_false_iff in Hc as [Hc1 Hc2].
  rewrite append_cons. cbn [scan].
  rewrite (Ascii.eqb_sym c dquote), Hq1, (Ascii.eqb_sym c ","), Hc1. cbn [andb].
  rewrite IH by done. by rewrite append_assoc, append_cons, append_nil_l.
Qed.

Lemma scan_quoted s c rest values cur :
  occurs dquote s = false -> Ascii.eqb c dquote = false ->
  scan trim (s +:+ String dquote (String c rest)) values cur true
  = scan trim (String c rest) values (cur +:+ s) false.
Proof.
  revert cur. induction s as [|d s IH]; intros cur Hq Hc.
  { rewrite append_nil_r, append_nil_l. cbn [scan].
    change (Ascii.eqb dquote dquote) with true. cbn iota. by rewrite Hc. }
  cbn [occurs] in Hq. apply orb_false_iff in Hq as [Hq1 Hq2].
  rewrite append_cons. cbn [scan]. rewrite (Ascii.eqb_sym d dquote), Hq1.
  cbn [andb negb]. rewrite andb_false_r.
  rewrite IH by done. by rewrite append_assoc, append_cons, append_nil_l.
Qed.

(** The line of a customer, read back. *)
Lemma scan_failedRow (c : Types.Customer) :
  occurs dquote (Types.Code c) = false -> occurs "," (Types.Code c) = false ->
  occurs dquote (Types.CustomerName c) = false ->
  occurs dquote (Types.Phone c) = false -> occurs "," (Types.Phone c) = false ->
  occurs dquote (Types.Mobile c) = false -> occurs "," (Types.Mobile c) = false ->
  parseCSVLine trim (failedRow c) =
  [trim (Types.Code c); trim (Types.CustomerName c);
   trim (Types.Phone c); trim (Types.Mobile c)].
Proof.
  intros Hcq Hcc Hnq Hpq Hpc Hmq Hmc.
  unfold parseCSVLine, failedRow.
  rewrite scan_plain by done. rewrite !append_cons, !append_nil_l.
  cbn [scan]. change (Ascii.eqb "," dquote) with false.
  change (Ascii.eqb "," ",") with true. cbn [andb negb app].
  cbn [scan]. change (Ascii.eqb dquote dquote) with true. cbn iota. cbn [negb].
  rewrite scan_quoted by done. rewrite !append_nil_l.
  cbn [scan]. change (Ascii.eqb "," dquote) with false.
  change (Ascii.eqb "," ",") with true. cbn [andb negb app].
  rewrite scan_plain by done. rewrite !append_nil_l.
  cbn [scan]. change (Ascii.eqb "," dquote) with false.
  change (Ascii.eqb "," ",") with true. cbn [andb negb app].
  rewrite <- (append_nil_r (Types.Mobile c)) at 1.
  rewrite scan_plain by done. by rewrite append_nil_l.
Qed.

(** X13: a line written by [saveFailedCustomers] reads back as the four
    fields of the customer, trimmed, as long as the fields contain no double
    quote and code, phone and mobile contain no comma (the name may). *)
Theorem failedRow_reads_back (c : Types.Customer) :
  occurs dquote (Types.Code c) = false -> occurs "," (Types.Code c) = false ->
  occurs dquote (Types.CustomerName c) = false ->
  occurs dquote (Types.Phone c) = false -> occurs "," (Types.Phone c) = false ->
  occurs dquote (Types.Mobile c) = false -> occurs "," (Types.Mobile c) = false ->
  parseCSVLine trim (failedRow c) =
  [trim (Types.Code c); trim (Types.CustomerName c);
   trim (Types.Phone c); trim (Types.Mobile c)].
Proof. apply scan_failedRow. Qed.

End CsvLineFacts.


Section CsvRowFacts.

Import CsvParser.

Context (headers : list string).

(** The objects of the rows that have a value for every column. *)
Let objects (rows : list (list string)) : list (gmap string string) :=
  rowObject headers <$>
    filter (fun values => (length headers <= length values)%nat) rows.

Lemma objects_cons_short values rows :
  (length values <? length headers)%nat = true ->
  objects (values :: rows) = objects rows.
Proof.
  intros H%Nat.ltb_lt. unfold objects. rewrite filter_cons_False by lia. done.
Qed.

Lemma objects_cons_complete values rows :
  (length values <? length headers)%nat = false ->
  objects (values :: rows) = rowObject headers values :: objects rows.
Proof.
  intros H%Nat.ltb_ge. unfold objects. rewrite filter_cons_True by lia. done.
Qed.

Lemma rowLoop_first_wins rows :
  forall seenCodes duplicates customers,
  (forall code, code ∈ seenCodes <-> code ∈ codeOf <$> customers) ->
  exists kept,
    (rowLoop headers rows seenCodes duplicates customers).1 = customers ++ kept /\
    sublist kept (objects rows) /\
    (forall o, o ∈ objects rows ->
       codeOf o ∈ codeOf <$> (customers ++ kept)) /\
    (forall i o, objects rows !! i = Some o ->
       codeOf o ∉ seenCodes ->
       (forall j o', (j < i)%nat -> objects rows !! j = Some o' ->
                     codeOf o' <> codeOf o) ->
       o ∈ kept).
Proof.
  induction rows as [|values rest IH]; intros seen dups customers Hseen.
  { exists []. rewrite app_nil_r. repeat split; try done.
    - intros o Ho. by apply elem_of_nil in Ho. }
  cbn [rowLoop].
  destruct (length values <? length headers)%nat eqn:Elen.
  { rewrite objects_cons_short by done. by apply IH. }
  rewrite objects_cons_complete by done.
  set (customer := rowObject headers values).
  case_bool_decide as Hin.
  - destruct (IH seen ({[codeOf customer]} ∪ dups) customers Hseen)
      as (kept & Hout & Hsub & Hall & Hfirst).
    exists kept. split; [done|]. split; [by apply sublist_cons|]. split.
    + intros o [->|Ho]%elem_of_cons; [|by apply Hall].
      rewrite fmap_app. apply elem_of_app. left. by apply Hseen.
    + intros [|i] o Hi Hnew Hearlier.
      * cbn in Hi. by simplify_eq.
      * apply (Hfirst i o); [done|done|].
        intros j o' Hj Ho'. apply (Hearlier (S j) o'); [lia|done].
  - destruct (IH ({[codeOf customer]} ∪ seen) dups (customers ++ [customer]))
      as (kept & Hout & Hsub & Hall & Hfirst).
    { intros code. rewrite fmap_app, elem_of_app, elem_of_union, elem_of_singleton.
      rewrite Hseen. simpl. rewrite list_elem_of_singleton. tauto. }
    exists (customer :: kept). rewrite <- app_assoc in Hout, Hall.
    split; [done|]. split; [by apply sublist_skip|]. split.
    + intros o [->|Ho]%elem_of_cons; [|by apply Hall].
      rewrite fmap_app. apply elem_of_app. right. apply list_elem_of_here.
    + intros [|i] o Hi Hnew Hearlier.
      * cbn in Hi. simplify_eq. apply list_elem_of_here.
      * apply list_elem_of_further, (Hfirst i o); [done| |].
        -- intros [Heq%elem_of_singleton|Hold]%elem_of_union; [|done].
           apply (Hearlier 0%nat customer); [lia|done|done].
        -- intros j o' Hj Ho'. apply (Hearlier (S j) o'); [lia|done].
Qed.

(** X14: of the data rows that have a value for every column, [parseCSV]
    keeps the first one of each customer code, in file order: the customers
    it returns are a sublist of the objects of these rows, no code that
    occurs is lost, a row whose code occurs in no earlier row is kept, and
    no two customers share a code. Rows with fewer values than columns are
    left out. *)
Theorem parseRows_keeps_first (rows : list (list string)) :
  let customers := parseRows headers rows in
  sublist customers (objects rows) /\
  (forall o, o ∈ objects rows -> codeOf o ∈ codeOf <$> customers) /\
  (forall i o, objects rows !! i = Some o ->
     (forall j o', (j < i)%nat -> objects rows !! j = Some o' ->
                   codeOf o' <> codeOf o) ->
     o ∈ customers) /\
  NoDup (codeOf <$> customers).
Proof.
  intros customers. subst customers. unfold parseRows.
  destruct (rowLoop_first_wins rows ∅ ∅ []) as (kept & Hout & Hsub & Hall & Hfirst).
  { intros code. simpl. rewrite elem_of_nil. set_solver. }
  rewrite Hout. cbn [app] in *. split; [done|]. split; [done|]. split.
  - intros i o Hi Hearlier. apply (Hfirst i o); [done|set_solver|done].
  - rewrite <- Hout. apply parseRows_distinct_codes.
Qed.

End CsvRowFacts.

Section CsvObjectFacts.

Import CsvParser.

Lemma setField_lookup (k value : string) (obj : gmap string string) (h : string) :
  setField k value obj !! h
  = if bool_decide (k = h /\ h <> "__proto__") then Some value else obj !! h.
Proof.
  unfold setField. case_bool_decide as Hproto.
  - rewrite bool_decide_eq_false_2; [done|]. intros [-> ?]. done.
  - destruct (decide (k = h)) as [->|Hne].
    + by rewrite lookup_insert_eq, bool_decide_eq_true_2.
    + rewrite lookup_insert_ne by done.
      rewrite bool_decide_eq_false_2; [done|]. by intros [? _].
Qed.

Lemma foldl_setField_lookup (values : list string) (pairs : list (nat * string))
    (obj : gmap string string) (h : string) :
  is_Some (foldl (fun obj hv =>
                    setField hv.2 (default EmptyString (values !! hv.1)) obj)
                 obj pairs !! h)
  <-> is_Some (obj !! h) \/ (h ∈ pairs.*2 /\ h <> "__proto__").
Proof.
  revert obj. induction pairs as [|[i k] pairs IH]; intros obj.
  { simpl. rewrite elem_of_nil. tauto. }
  cbn [foldl fmap list_fmap snd]. rewrite IH, elem_of_cons.
  cbn [fst snd]. rewrite setField_lookup. case_bool_decide as Hk.
  - destruct Hk as [-> Hproto]. split; [auto|]. intros _. left. eauto.
  - split; [tauto|]. intros [?|[[->|?] ?]]; [tauto| |tauto].
    exfalso. by apply Hk.
Qed.

Lemma imap_pair_snd (headers : list string) :
  (imap pair headers).*2 = headers.
Proof.
  rewrite <- (list_fmap_id headers) at 2.
  assert (forall (f : nat -> nat), (imap (fun i h => (f i, h)) headers).*2 = id <$> headers) as H.
  { induction headers as [|h hs IH]; intros f; [done|].
    cbn [imap fmap list_fmap snd]. f_equal. apply (IH (f ∘ S)). }
  apply (H id).
Qed.

(** Every column of the header but [__proto__] is a field of the object of
    a row. *)
Lemma rowObject_field headers values h :
  is_Some (rowObject headers values !! h) <-> h ∈ headers /\ h <> "__proto__".
Proof.
  unfold rowObject. rewrite foldl_setField_lookup, imap_pair_snd, lookup_empty.
  split; [intros [[? ?]|?]; done|auto].
Qed.

Lemma foldl_setField_value (values : list string) (pairs : list (nat * string))
    (obj : gmap string string) (i : nat) (h : string) :
  (i, h) ∈ pairs -> NoDup pairs.*2 -> h <> "__proto__" ->
  foldl (fun obj hv => setField hv.2 (default EmptyString (values !! hv.1)) obj)
        obj pairs !! h = Some (default EmptyString (values !! i)).
Proof.
  intros Hin Hnd Hproto. revert obj Hin Hnd.
  induction pairs as [|[j k] pairs IH]; intros obj Hin Hnd.
  { by apply elem_of_nil in Hin. }
  cbn [fmap list_fmap snd] in Hnd. apply NoDup_cons in Hnd as [Hk Hnd].
  cbn [foldl fst snd]. apply elem_of_cons in Hin as [Heq|Hin].
  - assert (j = i /\ k = h) as [-> ->] by (by inversion Heq).
    assert (forall obj' : gmap string string,
              obj' !! h = Some (default EmptyString (values !! i)) ->
              foldl (fun obj hv =>
                       setField hv.2 (default EmptyString (values !! hv.1)) obj)
                    obj' pairs !! h = Some (default EmptyString (values !! i)))
      as Hkeep.
    { clear IH Hnd. induction pairs as [|[j' k'] pairs IH']; intros obj' Hobj; [done|].
      cbn [foldl fst snd]. apply IH'.
      - intros Hk'. apply Hk. cbn [fmap list_fmap snd]. by apply list_elem_of_further.
      - rewrite setField_lookup, bool_decide_eq_false_2; [done|].
        intros [-> _]. apply Hk. cbn [fmap list_fmap snd]. apply list_elem_of_here. }
    apply Hkeep. rewrite setField_lookup. by rewrite bool_decide_eq_true_2.
  - by apply IH.
Qed.

Lemma imap_pair_elem (headers : list string) i h :
  headers !! i = Some h -> (i, h) ∈ imap pair headers.
Proof.
  intros Hi. apply list_elem_of_lookup. exists i.
  by rewrite list_lookup_imap, Hi.
Qed.

(** With distinct column names, each field holds the value of its column,
    or the empty string where the row has no value left. *)
Lemma rowObject_value headers values i h :
  NoDup headers -> headers !! i = Some h -> h <> "__proto__" ->
  rowObject headers values !! h = Some (default EmptyString (values !! i)).
Proof.
  intros Hnd Hi Hproto. unfold rowObject. apply foldl_setField_value.
  - by apply imap_pair_elem.
  - by rewrite imap_pair_snd.
  - done.
Qed.

(** X15: the properties of the object [parseCSV] builds for a data row are
    exactly the column names of the header other than [__proto__]: an
    assignment to that name creates no property. When the column names are
    distinct, each property holds the value at the position of its column,
    and the empty string where the row has no value at that position. *)
Theorem rowObject_columns (headers values : list string) :
  (forall h, is_Some (rowObject headers values !! h)
             <-> h ∈ headers /\ h <> "__proto__") /\
  (NoDup headers ->
   forall i h, headers !! i = Some h -> h <> "__proto__" ->
     rowObject headers values !! h = Some (default EmptyString (values !! i))).
Proof.
  split.
  - intros h. apply rowObject_field.
  - intros Hnd i h Hi Hproto. by apply rowObject_value.
Qed.

End CsvObjectFacts.


Section CsvFileFacts.

Import JsText CsvFile CustomerChecks.

Context (trim : string -> string).

Lemma parseRows_rows headers rows c :
  c ∈ CsvParser.parseRows headers rows ->
  exists values,
    values ∈ rows /\ (length headers <= length values)%nat /\
    c = CsvParser.rowObject headers values.
Proof.
  intros Hc. unfold CsvParser.parseRows in Hc.
  destruct (rowLoop_first_wins headers rows ∅ ∅ [])
    as (kept & Hout & Hsub & _).
  { intros code. simpl. rewrite elem_of_nil. set_solver. }
  rewrite Hout in Hc. cbn [app] in Hc.
  pose proof (elem_of_sublist _ _ _ Hc Hsub) as Hin.
  apply list_elem_of_fmap in Hin as (values & -> & Hin).
  apply list_elem_of_filter in Hin as [Hlen Hin]. eauto.
Qed.

Lemma filter_first {A} (P : A -> Prop) `{!forall x, Decision (P x)}
    (l : list A) (x : A) (rest : list A) :
  filter P l = x :: rest ->
  exists before after,
    l = before ++ x :: after /\ Forall (fun y => ~ P y) before /\ P x /\
    filter P after = rest.
Proof.
  induction l as [|y l IH]; [done|]. rewrite filter_cons.
  destruct (decide (P y)) as [Hy|Hy].
  - intros [= -> <-]. exists [], l. by repeat split.
  - intros Hl. destruct (IH Hl) as (before & after & -> & Hbefore & Hx & Hafter).
    exists (y :: before), after. repeat split; try done. by constructor.
Qed.

(** X16: what [parseCSV] returns. A file that cannot be read makes it throw
    the error of the file system, and a file whose lines are all blank the
    error [CSV file is empty]. When it returns customers, the header is the
    first line of the file that is not blank and has the four required
    columns; the customers are what the row loop keeps of the lines after
    the header that are not blank, in order. Each of them is the object of
    such a line with a value for every column of the header, and has the
    fields Code, CustomerName, Phone and Mobile. *)
Theorem parseCSV_outcomes (filePath : string) (fs : Fs.t) :
  (Fs.readFileSync filePath fs = None ->
   parseCSV trim filePath fs = inl SystemError) /\
  (forall fileContent,
     Fs.readFileSync filePath fs = Some fileContent ->
     Forall (fun line => trim line = EmptyString)
            (splitLines EmptyString fileContent) ->
     parseCSV trim filePath fs = inl (Error "CSV file is empty")) /\
  (forall customers,
     parseCSV trim filePath fs = inr customers ->
     exists fileContent blanks headerLine after,
       Fs.readFileSync filePath fs = Some fileContent /\
       splitLines EmptyString fileContent = blanks ++ headerLine :: after /\
       Forall (fun line => trim line = EmptyString) blanks /\
       trim headerLine <> EmptyString /\
       (forall h, h ∈ requiredHeaders -> h ∈ parseCSVLine trim headerLine) /\
       customers =
         CsvParser.parseRows (parseCSVLine trim headerLine)
           (parseCSVLine trim
              <$> filter (fun line => trim line <> EmptyString) after) /\
       forall c, c ∈ customers ->
         (exists line,
            line ∈ after /\ trim line <> EmptyString /\
            (length (parseCSVLine trim headerLine)
             <= length (parseCSVLine trim line))%nat /\
            c = CsvParser.rowObject (parseCSVLine trim headerLine)
                  (parseCSVLine trim line)) /\
         (forall h, h ∈ requiredHeaders -> is_Some (c !! h))).
Proof.
  unfold parseCSV. split; [by intros ->|]. split.
  - intros fileContent -> Hblank.
    assert (filter (fun line => trim line <> EmptyString)
                   (splitLines EmptyString fileContent) = []) as ->; [|done].
    induction Hblank as [|line lines Hline _ IH]; [done|].
    by rewrite filter_cons_False by (by intros Hne).
  - intros customers Hparse.
    destruct (Fs.readFileSync filePath fs) as [fileContent|]; [|done].
    destruct (filter _ _) as [|headerLine rows] eqn:Elines; [done|].
    case_bool_decide; [done|].
    destruct (isValid (validateCSVStructure (parseCSVLine trim headerLine)))
      eqn:Evalid; [|done].
    cbn [negb] in Hparse. injection Hparse as <-.
    apply filter_first in Elines
      as (blanks & after & Hsplit & Hblanks & Hheader & Hafter).
    pose proof (proj1 (proj1 (validateCSVStructure_cases _)) Evalid) as Hreq.
    exists fileContent, blanks, headerLine, after.
    split; [done|]. split; [done|]. split.
    { eapply Forall_impl; [exact Hblanks|]. intros line Hline. cbn in Hline.
      destruct (decide (trim line = EmptyString)); [done|]. by destruct Hline. }
    split; [done|]. split; [done|]. split; [by rewrite Hafter|].
    intros c Hc. apply parseRows_rows in Hc as (values & Hin & Hlen & ->).
    apply list_elem_of_fmap in Hin as (line & -> & Hin).
    rewrite <- Hafter in Hin. apply list_elem_of_filter in Hin as [Hline Hin].
    split.
    + exists line. by repeat split.
    + intros h Hh. apply rowObject_field. split; [by apply Hreq|].
      unfold requiredHeaders in Hh. intros ->.
      repeat (apply elem_of_cons in Hh as [Hh|Hh]; [discriminate Hh|]).
      by apply elem_of_nil in Hh.
Qed.

Lemma count_step (stats : Stats) (customer : Types.Customer) :
  0 <= withPhone stats -> 0 <= withMobile stats ->
  0 <= withBoth stats -> 0 <= withNeither stats ->
  total (count trim stats customer) = total stats /\
  withPhone (count trim stats customer) + withMobile (count trim stats customer)
  + withBoth (count trim stats customer) + withNeither (count trim stats customer)
  = withPhone stats + withMobile stats + withBoth stats + withNeither stats + 1 /\
  0 <= withPhone (count trim stats customer) /\
  0 <= withMobile (count trim stats customer) /\
  0 <= withBoth (count trim stats customer) /\
  0 <= withNeither (count trim stats customer).
Proof.
  intros H1 H2 H3 H4. unfold count.
  destruct (negb (blank trim (Types.Phone customer)));
    destruct (negb (blank trim (Types.Mobile customer)));
    cbn [andb total withPhone withMobile withBoth withNeither];
    repeat split; lia.
Qed.

(** X17: [getCSVStats] sorts every customer into exactly one of the four
    groups: the four counts add up to [total], the number of customers. *)
Theorem getCSVStats_partition (customers : list Types.Customer) :
  let stats := getCSVStats trim customers in
  total stats = Z.of_nat (length customers) /\
  withPhone stats + withMobile stats + withBoth stats + withNeither stats
    = total stats /\
  0 <= withPhone stats /\ 0 <= withMobile stats /\
  0 <= withBoth stats /\ 0 <= withNeither stats.
Proof.
  intros stats. subst stats. unfold getCSVStats.
  enough (forall init,
    0 <= withPhone init -> 0 <= withMobile init ->
    0 <= withBoth init -> 0 <= withNeither init ->
    let stats := foldl (count trim) init customers in
    total stats = total init /\
    withPhone stats + withMobile stats + withBoth stats + withNeither stats =
      withPhone init + withMobile init + withBoth init + withNeither init
      + Z.of_nat (length customers) /\
    0 <= withPhone stats /\ 0 <= withMobile stats /\
    0 <= withBoth stats /\ 0 <= withNeither stats) as H.
  { destruct (H {| total := Z.of_nat (length customers); withPhone := 0;
                   withMobile := 0; withBoth := 0; withNeither := 0 |})
      as (Ht & Hsum & Hrest); cbn [withPhone withMobile withBoth withNeither];
      try lia.
    cbn [total withPhone withMobile withBoth withNeither] in *.
    split; [exact Ht|]. split; [lia|exact Hrest]. }
  induction customers as [|c rest IH]; intros init H1 H2 H3 H4.
  { cbn [foldl length]. repeat split; lia. }
  cbn [foldl length].
  destruct (count_step init c H1 H2 H3 H4) as (Et & Es & G1 & G2 & G3 & G4).
  destruct (IH (count trim init c) G1 G2 G3 G4) as (Ht & Hsum & Hrest).
  split; [by rewrite Ht|]. split; [rewrite Hsum, Es; lia|exact Hrest].
Qed.

End CsvFileFacts.

Section IntakeFacts.

Import CustomerChecks Intake.

Context (trim : string -> string) (toUpperCase : string -> string).
Context (sanitizeCustomerName : string -> string).
Context (cfg : Config.t).

Let cc := Config.countryCode (Config.validation cfg).
Let L := Config.phoneNumberLength (Config.validation cfg).

Lemma processCustomer_output customer pc :
  processCustomer trim toUpperCase sanitizeCustomerName cfg customer = Some pc ->
  Types.Code (Types.base pc) = Types.Code customer /\
  Types.CustomerName (Types.base pc) =
    sanitizeCustomerName (Types.CustomerName customer) /\
  Types.Phone (Types.base pc) = Types.Phone customer /\
  Types.Mobile (Types.base pc) = Types.Mobile customer /\
  (shouldSkipCustomer toUpperCase customer).1 = false /\
  Types.selectedPhone pc = selectBestPhoneNumber trim cfg customer /\
  blank trim (Types.selectedPhone pc) = false /\
  (Types.isValid pc = true ->
   Types.validationError pc = None /\
   Types.formattedPhone pc =
     Validators.formatPhoneNumber cfg (Types.selectedPhone pc) /\
   Z.of_nat (String.length (Types.formattedPhone pc)) = L /\
   Js.startsWith (Types.formattedPhone pc) cc = true /\
   (Js.all_digits cc = true -> Js.all_digits (Types.formattedPhone pc) = true)) /\
  (Types.isValid pc = false ->
   Config.skipInvalidNumbers (Config.validation cfg) = false /\
   Types.formattedPhone pc = EmptyString /\
   is_Some (Types.validationError pc)).
Proof.
  unfold processCustomer.
  destruct (shouldSkipCustomer toUpperCase customer).1 eqn:Eskip; [done|].
  destruct (isValid (validateCustomerData trim customer)) eqn:Edata; [|done].
  cbn [negb Types.isValid].
  pose proof (selectBestPhoneNumber_cases trim cfg customer Edata)
    as (_ & _ & Hsel & _).
  pose proof (validatePhoneNumber_cases trim cfg
                (selectBestPhoneNumber trim cfg customer)) as [Hok Hbad].
  cbn zeta in Hok, Hbad, Hsel. fold cc L in Hok.
  destruct (isValid (validatePhoneNumber trim cfg _)) eqn:Ephone; cbn [negb andb].
  - intros [= <-]. cbn. repeat split; try done.
    all: destruct (Hok eq_refl) as (f & Hf & He & -> & Hlen & Hcc & Hd & _);
         rewrite ?Hf, ?He; cbn [default]; auto.
  - destruct (Config.skipInvalidNumbers _) eqn:Eskipinv; [done|].
    intros [= <-]. cbn. repeat split; try done.
    all: destruct (Hbad eq_refl) as [Hf He]; rewrite ?Hf; auto.
Qed.

End IntakeFacts.

Section ConfigFacts.

Context (cfg : Config.t).

Let B := Config.batchSize (Config.timing cfg).

(** X18: [shouldTakeBatchBreak] says yes exactly at the positive message
    counts that the batch size divides; with a batch size of zero it never
    does. *)
Theorem shouldTakeBatchBreak_divides (messageCount : Z) :
  Config.shouldTakeBatchBreak cfg messageCount = true <->
  0 < messageCount /\ B <> 0 /\ (B | messageCount).
Proof.
  unfold Config.shouldTakeBatchBreak, Js.rem_is_zero, Js.rem. fold B.
  rewrite andb_true_iff, Z.ltb_lt.
  destruct (B =? 0) eqn:E.
  - apply Z.eqb_eq in E. split; [intros [_ ?]; done|intros (_ & ? & _); done].
  - apply Z.eqb_neq in E. rewrite Z.eqb_eq, (Z.rem_divide _ _ E). tauto.
Qed.

End ConfigFacts.

Section TemplateFacts.

(** X19: with a draw of the unit interval, [getRandomTemplate] returns one
    of the configured templates, and the default template when none is
    configured; the index never falls outside the list. *)
Theorem getRandomTemplate_in_list {T} (templates : list T) (fallback : T)
    (r : Js.Draw) :
  Js.unit_interval r ->
  exists template,
    Config.getRandomTemplate templates fallback r = Some template /\
    (template ∈ templates \/ (templates = [] /\ template = fallback)).
Proof. exact (getRandomTemplate_member Config.config templates fallback r). Qed.

End TemplateFacts.

Section IntakeList.

Import CustomerChecks Intake.

Context (trim : string -> string) (toUpperCase : string -> string).
Context (sanitizeCustomerName : string -> string).
Context (cfg : Config.t).

Let cc := Config.countryCode (Config.validation cfg).
Let L := Config.phoneNumberLength (Config.validation cfg).

Lemma processCustomers_sublist (customers : list Types.Customer) :
  sublist
    ((fun pc => Types.Code (Types.base pc))
       <$> processCustomers trim toUpperCase sanitizeCustomerName cfg customers)
    (Types.Code <$> customers).
Proof.
  unfold processCustomers.
  induction customers as [|customer rest IH]; [constructor|].
  cbn [omap list_omap fmap list_fmap].
  destruct (processCustomer _ _ _ _ customer) as [pc|] eqn:E.
  - apply processCustomer_output in E as (Hcode & _). cbn [fmap list_fmap].
    rewrite Hcode. by apply sublist_skip.
  - by apply sublist_cons.
Qed.

Lemma processCustomers_valid (customers : list Types.Customer) :
  Config.skipInvalidNumbers (Config.validation cfg) = true ->
  Forall (fun pc =>
            Types.isValid pc = true /\
            Z.of_nat (String.length (Types.formattedPhone pc)) = L /\
            Js.startsWith (Types.formattedPhone pc) cc = true /\
            (Js.all_digits cc = true ->
             Js.all_digits (Types.formattedPhone pc) = true))
         (processCustomers trim toUpperCase sanitizeCustomerName cfg customers).
Proof.
  intros Hskip. apply Forall_forall. intros pc Hpc.
  apply list_elem_of_omap in Hpc as (customer & _ & E).
  apply processCustomer_output in E
    as (_ & _ & _ & _ & _ & _ & _ & Hvalid & Hinvalid).
  fold cc L in Hvalid.
  destruct (Types.isValid pc) eqn:Ev.
  - destruct (Hvalid eq_refl) as (_ & _ & ? & ? & ?). done.
  - destruct (Hinvalid eq_refl) as [Hno _]. congruence.
Qed.

(** X20: what [processCustomers] hands to the sending loop. The customers it
    keeps come in the order of the input, none twice as often as there; each
    one is a customer of the input that [shouldSkipCustomer] does not
    skip, with the same code, phone and mobile entries and the selected
    number of [selectBestPhoneNumber], which is not blank. A customer kept
    with a valid number carries the formatted number, of the configured
    length and beginning with the country code; one kept with an invalid
    number (only when invalid numbers are not skipped) carries an empty
    formatted number and an error. *)
Theorem processCustomers_output (customers : list Types.Customer) :
  let out := processCustomers trim toUpperCase sanitizeCustomerName cfg customers in
  sublist ((fun pc => Types.Code (Types.base pc)) <$> out)
          (Types.Code <$> customers) /\
  Forall (fun pc =>
    exists customer, customer ∈ customers /\
      Types.Code (Types.base pc) = Types.Code customer /\
      Types.Phone (Types.base pc) = Types.Phone customer /\
      Types.Mobile (Types.base pc) = Types.Mobile customer /\
      (shouldSkipCustomer toUpperCase customer).1 = false /\
      Types.selectedPhone pc = selectBestPhoneNumber trim cfg customer /\
      blank trim (Types.selectedPhone pc) = false /\
      (Types.isValid pc = true ->
       Types.validationError pc = None /\
       Types.formattedPhone pc =
         Validators.formatPhoneNumber cfg (Types.selectedPhone pc) /\
       Z.of_nat (String.length (Types.formattedPhone pc)) = L /\
       Js.startsWith (Types.formattedPhone pc) cc = true) /\
      (Types.isValid pc = false ->
       Config.skipInvalidNumbers (Config.validation cfg) = false /\
       Types.formattedPhone pc = EmptyString /\
       is_Some (Types.validationError pc))) out.
Proof.
  intros out. split; [apply processCustomers_sublist|].
  apply Forall_forall. intros pc Hpc.
  apply list_elem_of_omap in Hpc as (customer & Hin & E).
  apply processCustomer_output in E
    as (? & _ & ? & ? & ? & ? & ? & Hvalid & Hinvalid).
  fold cc L in Hvalid.
  exists customer. do 7 (split; [done|]). split.
  - intros Hv. destruct (Hvalid Hv) as (? & ? & ? & ? & _). done.
  - exact Hinvalid.
Qed.

End IntakeList.

Section Pipeline.

Import Types Engine Trace Intake.

Context (trim : string -> string) (toUpperCase : string -> string).
Context (sanitizeCustomerName : string -> string).
Context (cfg : Config.t)
        (toISOString : Date -> string)
        (client : nat -> ProcessedCustomer -> nat -> Reply)
        (random : nat -> Js.Draw).

Let cc := Config.countryCode (Config.validation cfg).
Let L := Config.phoneNumberLength (Config.validation cfg).

(** X21: the engine never sends a message without having just checked the
    number, and contacts no number but those of the recipients in its queue;
    after the last recipient of a run that is not shut down it still
    sleeps. *)
Theorem run_discipline (isShuttingDown : nat -> bool)
    (customers : list ProcessedCustomer) (st : RunState) :
  let st' :=
    sendMessagesToCustomers cfg toISOString client random isShuttingDown
      customers st in
  exists evs,
    trace st' = trace st ++ evs /\
    sends_follow_checks None evs = true /\
    Forall (fun n => n ∈ (fun c => formatWhatsAppNumber (formattedPhone c)) <$> customers)
           (contacted evs) /\
    ((forall i, isShuttingDown i = false) -> customers <> [] ->
     exists ms, last evs = Some (Sleep ms)).
Proof. apply sendMessagesToCustomers_disciplined. Qed.

(** X22: intake and sending loop together. When invalid numbers are skipped,
    every address the engine checks or sends to during a campaign over the
    output of [processCustomers] is a number of the configured length that
    begins with the country code, followed by [@c.us]. *)
Theorem campaign_contacts_formatted_numbers (isShuttingDown : nat -> bool)
    (customers : list Customer) (st : RunState) :
  Config.skipInvalidNumbers (Config.validation cfg) = true ->
  let queue := processCustomers trim toUpperCase sanitizeCustomerName cfg customers in
  let st' :=
    sendMessagesToCustomers cfg toISOString client random isShuttingDown
      queue st in
  exists evs,
    trace st' = trace st ++ evs /\
    Forall (fun n =>
              exists phone,
                n = phone +:+ "@c.us" /\
                Z.of_nat (String.length phone) = L /\
                Js.startsWith phone cc = true /\
                (Js.all_digits cc = true -> Js.all_digits phone = true))
           (contacted evs).
Proof.
  intros Hskip queue st'.
  destruct (sendMessagesToCustomers_disciplined cfg toISOString client random
              isShuttingDown queue st) as (evs & Htrace & _ & Hnum & _).
  exists evs. split; [exact Htrace|].
  eapply Forall_impl; [exact Hnum|]. intros n Hn. cbn beta in Hn.
  apply list_elem_of_fmap in Hn as (pc & -> & Hpc).
  pose proof (processCustomers_valid trim toUpperCase sanitizeCustomerName cfg
                customers Hskip) as Hall.
  rewrite Forall_forall in Hall. destruct (Hall pc Hpc) as (_ & ? & ? & ?).
  exists (formattedPhone pc). by repeat split.
Qed.

End Pipeline.

Section MessageFacts.

Import MessageHandler.

Context (replaceAll : string -> string -> Text -> Text) (trim : Text -> Text).
Context (maxLength : Z) (messageTemplates : list Text) (defaultTemplate : Text).

Lemma substring0_length (s : Text) (n : Z) :
  Z.of_nat (length (substring0 s n)) = Z.max 0 (Z.min n (Z.of_nat (length s))).
Proof. unfold substring0. rewrite length_take. lia. Qed.

(** X23: [renderMessageTemplate] always returns a message when the draw lies
    in the unit interval, whether a template is passed or not. With a
    maximum length of three or more the message is never longer than the
    maximum, so [validateMessage] can only object that it is empty; with a
    smaller maximum a message that is too long is replaced by the three
    dots alone, which are still too long. *)
Theorem renderMessageTemplate_fits (customer : Types.ProcessedCustomer)
    (template : option Text) (r : Js.Draw) :
  Js.unit_interval r ->
  exists message,
    renderMessageTemplate replaceAll trim maxLength messageTemplates
      defaultTemplate customer template r = Some message /\
    (3 <= maxLength ->
     Z.of_nat (length message) <= maxLength /\
     ((validateMessage trim maxLength message).1 = true \/
      (validateMessage trim maxLength message).2 = Some "Message is empty")) /\
    (maxLength < 3 ->
     Z.of_nat (length message) <= maxLength \/ message = ellipsis).
Proof.
  intros Hr. unfold renderMessageTemplate.
  assert (exists messageTemplate,
            match template with
            | Some (unit :: units) => Some (unit :: units)
            | _ => Config.getRandomTemplate messageTemplates defaultTemplate r
            end = Some messageTemplate) as [messageTemplate ->].
  { destruct (getRandomTemplate_member Config.config messageTemplates
                defaultTemplate r Hr) as (t & Ht & _).
    destruct template as [[|unit units]|]; eauto. }
  set (message := trim _).
  assert (forall m, Z.of_nat (length m) <= maxLength ->
            (validateMessage trim maxLength m).1 = true \/
            (validateMessage trim maxLength m).2 = Some "Message is empty")
    as Hvalidate.
  { intros m Hm. unfold validateMessage.
    destruct (_ || _).
    - by right.
    - replace (maxLength <? Z.of_nat (length m)) with false by lia. by left. }
  destruct (maxLength <? Z.of_nat (length message)) eqn:E.
  - eexists. split; [reflexivity|]. apply Z.ltb_lt in E. split.
    + intros H3.
      assert (Z.of_nat (length (substring0 message (maxLength - 3) ++ ellipsis))
              <= maxLength) as Hlen.
      { rewrite length_app, Nat2Z.inj_add, substring0_length. simpl. lia. }
      split; [exact Hlen|by apply Hvalidate].
    + intros H3. right. unfold substring0.
      replace (Z.to_nat (maxLength - 3)) with 0%nat by lia. done.
  - eexists. split; [reflexivity|]. apply Z.ltb_ge in E. split.
    + intros _. split; [exact E|by apply Hvalidate].
    + intros _. by left.
Qed.

End MessageFacts.

Section GoFacts.

Import GoIntake.

Context (ToUpper : string -> string) (config : Config).

Let cc := CountryCode config.

Lemma prefix_nil (s : string) : String.prefix EmptyString s = true.
Proof. by destruct s. Qed.

Lemma prefix_cons (c d : ascii) (p s : string) :
  String.prefix (String c p) (String d s)
  = if ascii_dec c d then String.prefix p s else false.
Proof. reflexivity. Qed.

Lemma go_formatPhoneNumber_prefix (digits : string) :
  String.prefix cc (formatPhoneNumber config digits) = true.
Proof.
  unfold formatPhoneNumber. fold cc.
  destruct (String.prefix cc (trimZero digits)) eqn:E; cbn [negb]; [done|].
  apply prefix_app.
Qed.

(** X24: the two ports format a number differently in one case only. On the
    digits of an entry, [formatPhoneNumber] of the Go port returns what the
    TypeScript function returns, unless the digits begin with a zero
    followed by the country code: there the Go port drops the zero and
    keeps the rest, while the TypeScript function puts the country code in
    front of the rest a second time. *)
Theorem formatPhoneNumber_ports (cfg : Config.t) (phone : string) :
  Config.countryCode (Config.validation cfg) = CountryCode config ->
  let cleaned := cleanPhoneNumber phone in
  let ts := Validators.formatPhoneNumber cfg phone in
  let go := formatPhoneNumber config cleaned in
  if Js.startsWith cleaned ("0" +:+ cc)
  then go = Js.substring1 cleaned /\ ts = cc +:+ go
  else ts = go.
Proof.
  intros Hcc cleaned ts go. subst ts go.
  unfold Validators.formatPhoneNumber, formatPhoneNumber, trimZero,
    Validators.cleanPhoneNumber, Js.startsWith.
  rewrite Hcc. fold cc. fold (cleanPhoneNumber phone). fold cleaned.
  rewrite append_cons, append_nil_l.
  destruct cleaned as [|a s]; [by simpl|].
  rewrite !prefix_cons. cbn [Js.substring1].
  destruct (ascii_dec "0" a) as [<-|Hne]; [|done].
  rewrite prefix_nil. destruct (String.prefix cc s); done.
Qed.

Lemma validateAndFormatPhone_cases (phone : string) :
  let '(formatted, isValid, _) := validateAndFormatPhone config phone in
  if isValid
  then formatted = formatPhoneNumber config (cleanPhoneNumber phone) /\
       Z.of_nat (String.length formatted) = PhoneLength config /\
       String.prefix cc formatted = true /\
       cleanPhoneNumber phone <> EmptyString
  else formatted = EmptyString.
Proof.
  unfold validateAndFormatPhone. fold cc.
  destruct (bool_decide (phone = EmptyString)); [done|].
  destruct (bool_decide (phone ∈ invalidPatterns)); [done|].
  destruct (String.length (cleanPhoneNumber phone) =? 0)%nat eqn:Elen; [done|].
  destruct (Z.of_nat _ =? PhoneLength config) eqn:EL; cbn [negb]; [|done].
  destruct (String.prefix cc _) eqn:Ecc; cbn [negb]; [|done].
  repeat split; try done.
  - by apply Z.eqb_eq.
  - intros E. by rewrite E in Elen.
Qed.

Lemma processLoop_spec (customers : list Customer) :
  forall (progress : ProgressTracker) (seenPhones : gset string)
         (processed : list ProcessedCustomer),
  let out := processLoop ToUpper config customers progress seenPhones processed in
  exists new,
    out.2 = processed ++ new /\
    Skipped out.1 =
      Skipped progress + (Z.of_nat (length customers) - Z.of_nat (length new)) /\
    Duplicates progress <= Duplicates out.1 /\
    Duplicates out.1 - Duplicates progress
      <= Z.of_nat (length customers) - Z.of_nat (length new) /\
    (SkipDuplicates config = false -> Duplicates out.1 = Duplicates progress) /\
    (Total out.1, Processed out.1, Successful out.1, Failed out.1)
      = (Total progress, Processed progress, Successful progress, Failed progress) /\
    sublist (base <$> new) customers /\
    (SkipDuplicates config = true ->
     NoDup (FormattedPhone <$> new) /\
     forall p, p ∈ FormattedPhone <$> new -> p ∉ seenPhones) /\
    Forall (kept ToUpper config) new.
Proof.
  induction customers as [|customer rest IH]; intros progress seenPhones processed.
  { exists []. cbn. rewrite app_nil_r. repeat split; try done; try lia.
    - constructor.
    - intros p Hp. by apply elem_of_nil in Hp. }
  assert (forall processed',
    let out := processLoop ToUpper config rest (skip progress) seenPhones processed' in
    processed' = processed ->
    exists new,
      out.2 = processed ++ new /\
      Skipped out.1 =
        Skipped progress
        + (Z.of_nat (length (customer :: rest)) - Z.of_nat (length new)) /\
      Duplicates progress <= Duplicates out.1 /\
      Duplicates out.1 - Duplicates progress
        <= Z.of_nat (length (customer :: rest)) - Z.of_nat (length new) /\
      (SkipDuplicates config = false -> Duplicates out.1 = Duplicates progress) /\
      (Total out.1, Processed out.1, Successful out.1, Failed out.1)
        = (Total progress, Processed progress, Successful progress,
           Failed progress) /\
      sublist (base <$> new) (customer :: rest) /\
      (SkipDuplicates config = true ->
       NoDup (FormattedPhone <$> new) /\
       forall p, p ∈ FormattedPhone <$> new -> p ∉ seenPhones) /\
      Forall (kept ToUpper config) new) as Hskip.
  { intros processed' out ->. subst out.
    destruct (IH (skip progress) seenPhones processed)
      as (new & Hout & Hs & Hd1 & Hd2 & Hd3 & Hrest & Hsub & Hnd & Hkept).
    exists new. cbn [skip Skipped Duplicates Total Processed Successful Failed]
      in Hs, Hd1, Hd2, Hd3, Hrest.
    rewrite length_cons, Nat2Z.inj_succ.
    repeat split; try done; try lia.
    - by apply sublist_cons.
    - by apply Hnd.
    - by apply Hnd. }
  cbn [processLoop].
  destruct (bool_decide (HasWhatsApp customer = "no")) eqn:Ewa; [by apply Hskip|].
  destruct (shouldSkipCustomer ToUpper customer) eqn:Eskip; [by apply Hskip|].
  destruct (validateCustomerData customer) eqn:Edata; cbn [negb];
    [|by apply Hskip].
  destruct (validateAndFormatPhone config (selectBestPhone config customer))
    as [[formattedPhone isValid] validationError] eqn:Ephone.
  set (pc := {| base := customer; SelectedPhone := _ |}).
  assert (negb isValid && SkipInvalid config = false -> kept ToUpper config pc) as Hpc.
  { intros Hv. unfold kept. cbn. rewrite Ephone.
    apply bool_decide_eq_false in Ewa.
    repeat split; try done.
    intros Hs. rewrite Hs in Hv. by destruct isValid. }
  destruct (negb isValid && SkipInvalid config) eqn:Einv; [by apply Hskip|].
  specialize (Hpc eq_refl).
  destruct (SkipDuplicates config) eqn:Edup.
  - destruct (bool_decide (formattedPhone ∈ seenPhones)) eqn:Eseen.
    + destruct (IH (skipDuplicate progress) seenPhones processed)
        as (new & Hout & Hs & Hd1 & Hd2 & Hd3 & Hrest & Hsub & Hnd & Hkept).
      exists new.
      cbn [skipDuplicate Skipped Duplicates Total Processed Successful Failed]
        in Hs, Hd1, Hd2, Hd3, Hrest.
      rewrite length_cons, Nat2Z.inj_succ.
      repeat split; try done; try lia.
      * by apply sublist_cons.
      * by apply Hnd.
      * by apply Hnd.
    + apply bool_decide_eq_false in Eseen.
      destruct (IH progress ({[formattedPhone]} ∪ seenPhones) (processed ++ [pc]))
        as (new & Hout & Hs & Hd1 & Hd2 & Hd3 & Hrest & Hsub & Hnd & Hkept).
      destruct (Hnd eq_refl) as [Hnodup Hfresh].
      exists (pc :: new). rewrite Hout, <- app_assoc.
      rewrite !length_cons, !Nat2Z.inj_succ.
      repeat split; try done; try lia.
      * cbn [fmap list_fmap base pc]. by apply sublist_skip.
      * cbn [fmap list_fmap]. apply NoDup_cons. split; [|done].
        intros Hin. apply Hfresh in Hin. apply Hin.
        apply elem_of_union_l. by apply elem_of_singleton.
      * intros p Hp. cbn [fmap list_fmap] in Hp.
        apply elem_of_cons in Hp as [->|Hp]; [done|].
        apply Hfresh in Hp. intros Hseen. apply Hp.
        by apply elem_of_union_r.
      * by constructor.
  - destruct (IH progress seenPhones (processed ++ [pc]))
      as (new & Hout & Hs & Hd1 & Hd2 & Hd3 & Hrest & Hsub & Hnd & Hkept).
    exists (pc :: new). rewrite Hout, <- app_assoc.
    rewrite !length_cons, !Nat2Z.inj_succ.
    repeat split; try done; try lia.
    + cbn [fmap list_fmap base pc]. by apply sublist_skip.
    + by constructor.
Qed.

Lemma filter_constant_key {A} (key : A -> string) (P : A -> Prop)
    `{!forall x, Decision (P x)} (l : list A) (c : string) :
  NoDup (key <$> l) -> (forall x, x ∈ l -> P x -> key x = c) ->
  (length (filter P l) <= 1)%nat.
Proof.
  induction l as [|x l IH]; intros Hnd Hc; [simpl; lia|].
  cbn [fmap list_fmap] in Hnd. apply NoDup_cons in Hnd as [Hx Hnd].
  rewrite filter_cons. destruct (decide (P x)) as [HP|HP].
  - assert (filter P l = []) as ->; [|simpl; lia].
    destruct (filter P l) as [|y ys] eqn:E; [done|]. exfalso.
    assert (y ∈ filter P l) as Hy by (rewrite E; apply list_elem_of_here).
    apply list_elem_of_filter in Hy as [HPy Hy]. apply Hx.
    rewrite (Hc x (list_elem_of_here _ _) HP),
      <- (Hc y (list_elem_of_further _ _ _ Hy) HPy).
    by apply list_elem_of_fmap_2.
  - apply IH; [done|]. intros y Hy. apply Hc. by apply list_elem_of_further.
Qed.

(** X25: intake of the Go port. [processCustomers] keeps customers in the
    order of the input and adds to [Skipped] exactly the number of customers
    it drops, to [Duplicates] at most that number, and nothing to the other
    counters. With [SkipDuplicates] no two customers it keeps have the same
    formatted number; as an invalid number is formatted as the empty string,
    at most one customer with an invalid number is then kept. Every customer
    kept with a valid number carries a formatted number of [PhoneLength]
    characters that begins with the country code, and with [SkipInvalid]
    every customer kept has a valid number. *)
Theorem go_processCustomers_counts (customers : list Customer)
    (progress : ProgressTracker) :
  let out := processCustomers ToUpper config customers progress in
  let dropped := Z.of_nat (length customers) - Z.of_nat (length out.2) in
  sublist (base <$> out.2) customers /\
  Skipped out.1 = Skipped progress + dropped /\
  Duplicates progress <= Duplicates out.1 <= Duplicates progress + dropped /\
  (SkipDuplicates config = false -> Duplicates out.1 = Duplicates progress) /\
  (Total out.1, Processed out.1, Successful out.1, Failed out.1)
    = (Total progress, Processed progress, Successful progress, Failed progress) /\
  (SkipDuplicates config = true ->
   NoDup (FormattedPhone <$> out.2) /\
   (length (filter (fun pc => IsValid pc = false) out.2) <= 1)%nat) /\
  Forall (fun pc =>
    HasWhatsApp (base pc) <> "no" /\
    SelectedPhone pc = selectBestPhone config (base pc) /\
    (if IsValid pc
     then FormattedPhone pc
            = formatPhoneNumber config (cleanPhoneNumber (SelectedPhone pc)) /\
          Z.of_nat (String.length (FormattedPhone pc)) = PhoneLength config /\
          String.prefix cc (FormattedPhone pc) = true
     else SkipInvalid config = false /\ FormattedPhone pc = EmptyString)) out.2.
Proof.
  intros out dropped. subst out dropped. unfold processCustomers.
  destruct (processLoop_spec customers progress ∅ [])
    as (new & Hout & Hs & Hd1 & Hd2 & Hd3 & Hrest & Hsub & Hnd & Hkept).
  cbn zeta in Hout, Hs, Hd1, Hd2, Hd3, Hrest. rewrite app_nil_l in Hout.
  rewrite Hout.
  assert (Forall (fun pc =>
    HasWhatsApp (base pc) <> "no" /\
    SelectedPhone pc = selectBestPhone config (base pc) /\
    (if IsValid pc
     then FormattedPhone pc
            = formatPhoneNumber config (cleanPhoneNumber (SelectedPhone pc)) /\
          Z.of_nat (String.length (FormattedPhone pc)) = PhoneLength config /\
          String.prefix cc (FormattedPhone pc) = true
     else SkipInvalid config = false /\ FormattedPhone pc = EmptyString)) new)
    as Hall.
  { eapply Forall_impl; [exact Hkept|]. intros pc (Hsel & Hwa & _ & _ & Hv & Hsk).
    pose proof (validateAndFormatPhone_cases (SelectedPhone pc)) as Hcases.
    rewrite <- Hv in Hcases. split; [done|]. split; [done|].
    destruct (IsValid pc).
    - by destruct Hcases as (? & ? & ? & _).
    - split; [|done]. destruct (SkipInvalid config); [|done].
      by specialize (Hsk eq_refl). }
  repeat split; try done; try lia.
  - by apply Hnd.
  - apply (filter_constant_key FormattedPhone _ new EmptyString); [by apply Hnd|].
    intros pc Hpc Hinvalid. rewrite Forall_forall in Hall.
    destruct (Hall pc Hpc) as (_ & _ & Hcase). rewrite Hinvalid in Hcase.
    by destruct Hcase.
Qed.

End GoFacts.

Section FailedFile.

Import JsText CsvFile CustomerChecks CsvParser.

Context (trim : string -> string).

Lemma rowLoop_all_kept headers rows :
  forall seenCodes duplicates customers,
  Forall (fun values => (length headers <= length values)%nat) rows ->
  NoDup ((fun values => codeOf (rowObject headers values)) <$> rows) ->
  (forall values, values ∈ rows ->
     codeOf (rowObject headers values) ∉ seenCodes) ->
  (rowLoop headers rows seenCodes duplicates customers).1
  = customers ++ (rowObject headers <$> rows).
Proof.
  induction rows as [|values rest IH]; intros seenCodes duplicates customers
    Hlen Hnd Hnew.
  { cbn. by rewrite app_nil_r. }
  apply Forall_cons in Hlen as [Hlen Hrest].
  cbn [fmap list_fmap] in Hnd |- *. apply NoDup_cons in Hnd as [Hfirst Hnd].
  cbn [rowLoop].
  replace (length values <? length headers)%nat with false
    by (symmetry; apply Nat.ltb_ge; exact Hlen).
  rewrite bool_decide_eq_false_2
    by (apply Hnew, list_elem_of_here).
  rewrite IH; [by rewrite <- app_assoc|done|done|].
  intros values' Hin [Heq%elem_of_singleton|Hold]%elem_of_union.
  - apply Hfirst. rewrite <- Heq.
    by apply (list_elem_of_fmap_2
                (fun values => codeOf (rowObject headers values))).
  - by apply (Hnew values'); [apply list_elem_of_further|].
Qed.

Lemma splitLines_line (s line : string) :
  occurs linefeed s = false ->
  splitLines line s = [line +:+ s] /\
  forall rest,
    splitLines line (s +:+ String linefeed rest)
    = (line +:+ s) :: splitLines EmptyString rest.
Proof.
  revert line. induction s as [|c s IH]; intros line Hs.
  { rewrite append_nil_r. split; [done|]. intros rest. rewrite append_nil_l.
    cbn [splitLines]. by rewrite Ascii.eqb_refl. }
  cbn [occurs] in Hs. apply orb_false_iff in Hs as [Hc Hs].
  rewrite Ascii.eqb_sym in Hc.
  destruct (IH (line +:+ String c EmptyString) Hs) as [IH1 IH2].
  rewrite append_assoc, append_cons, append_nil_l in IH1, IH2.
  split.
  - cbn [splitLines]. by rewrite Hc.
  - intros rest. rewrite append_cons. cbn [splitLines]. by rewrite Hc.
Qed.

Lemma splitLines_join (first : string) (others : list string) :
  Forall (fun s => occurs linefeed s = false) (first :: others) ->
  splitLines EmptyString (join (String linefeed EmptyString) (first :: others))
  = first :: others.
Proof.
  revert first. induction others as [|second others IH]; intros first Hall.
  - apply Forall_cons in Hall as [Hfirst _]. cbn [join].
    destruct (splitLines_line first EmptyString Hfirst) as [-> _].
    by rewrite append_nil_l.
  - apply Forall_cons in Hall as [Hfirst Hothers].
    rewrite join_cons by done. rewrite append_cons, append_nil_l.
    destruct (splitLines_line first EmptyString Hfirst) as [_ ->].
    by rewrite append_nil_l, IH.
Qed.

Lemma scan_comma (rest : string) (values : list string) (cur : string) :
  scan trim (String "," rest) values cur false
  = scan trim rest (values ++ [trim cur]) EmptyString false.
Proof.
  cbn [scan]. change (Ascii.eqb "," dquote) with false.
  change (Ascii.eqb "," ",") with true. reflexivity.
Qed.

Lemma scan_four (a b c d : string) :
  occurs dquote a = false -> occurs "," a = false ->
  occurs dquote b = false -> occurs "," b = false ->
  occurs dquote c = false -> occurs "," c = false ->
  occurs dquote d = false -> occurs "," d = false ->
  parseCSVLine trim (a +:+ String "," (b +:+ String "," (c +:+ String "," d)))
  = [trim a; trim b; trim c; trim d].
Proof.
  intros. unfold parseCSVLine.
  rewrite scan_plain, scan_comma by done.
  rewrite scan_plain, scan_comma by done.
  rewrite scan_plain, scan_comma by done.
  rewrite <- (append_nil_r d) at 1. rewrite scan_plain by done.
  by rewrite !append_nil_l.
Qed.

Lemma plain_fields (c : Types.Customer) :
  plain c = true ->
  (occurs dquote (Types.Code c) = false /\ occurs "," (Types.Code c) = false /\
   occurs dquote (Types.CustomerName c) = false /\
   occurs dquote (Types.Phone c) = false /\ occurs "," (Types.Phone c) = false /\
   occurs dquote (Types.Mobile c) = false /\ occurs "," (Types.Mobile c) = false) /\
  occurs linefeed (failedRow c) = false.
Proof.
  unfold plain. cbn [forallb]. rewrite !andb_true_iff, !negb_true_iff.
  intros [((Hc1 & Hc2) & (Hn1 & Hn2) & (Hp1 & Hp2) & (Hm1 & Hm2) & _)
          (Hc3 & Hp3 & Hm3 & _)].
  split; [done|]. unfold failedRow.
  rewrite !occurs_app, Hc2, Hn2, Hp2, Hm2. reflexivity.
Qed.

(** X26: what [saveFailedCustomers] does to its target. It does not create
    the directory of the target: when that directory does not exist, or the
    target is itself a directory, the error is caught, the target reads as
    it did before and the directory is still missing. Otherwise the target
    afterwards holds the header line and one line per customer. *)
Theorem saveFailedCustomers_writes (customers : list Types.Customer)
    (filePath : string) (fs : Fs.t) :
  let fs' := saveFailedCustomers customers filePath fs in
  (Fs.dirname filePath ∉ Fs.dirs fs \/ filePath ∈ Fs.dirs fs ->
   Fs.readFileSync filePath fs' = Fs.readFileSync filePath fs /\
   (Fs.dirname filePath ∈ Fs.dirs fs' <-> Fs.dirname filePath ∈ Fs.dirs fs) /\
   (filePath ∈ Fs.dirs fs' <-> filePath ∈ Fs.dirs fs)) /\
  (Fs.dirname filePath ∈ Fs.dirs fs -> filePath ∉ Fs.dirs fs ->
   Fs.readFileSync filePath fs' = Some (failedContent customers)).
Proof.
  intros fs'. subst fs'. unfold saveFailedCustomers, Fs.run. split.
  - intros Hmissing. unfold Fs.writeFileSync. cbn [Fs.states Fs.exec].
    destruct Hmissing as [Hdir|Hfile].
    + by rewrite (bool_decide_eq_false_2 _ Hdir).
    + rewrite (bool_decide_eq_true_2 _ Hfile). cbn [negb]. by rewrite andb_false_r.
  - intros Hdir Hfile. rewrite writeFileSync_states by done.
    unfold Fs.readFileSync. cbn [List.last Fs.files]. apply lookup_insert_eq.
Qed.

(** X27: the file of failed customers can be fed back to [parseCSV]. For
    customers with distinct codes whose fields need no quoting, written to
    a target whose directory exists, [parseCSV] of the written file returns
    one customer per customer written, in order, with the four fields
    trimmed. ([trim] is assumed to leave the four column names alone and
    not to empty the lines written.) *)
Theorem failed_customers_file_reads_back (customers : list Types.Customer)
    (filePath : string) (fs : Fs.t) :
  (forall h, h ∈ requiredHeaders -> trim h = h) ->
  trim "Code,CustomerName,Phone,Mobile" <> EmptyString ->
  customers <> [] ->
  Forall (fun c => plain c = true /\ trim (failedRow c) <> EmptyString) customers ->
  NoDup ((fun c => trim (Types.Code c)) <$> customers) ->
  Fs.dirname filePath ∈ Fs.dirs fs -> filePath ∉ Fs.dirs fs ->
  parseCSV trim filePath (saveFailedCustomers customers filePath fs)
  = inr ((fun c =>
            rowObject requiredHeaders
              [trim (Types.Code c); trim (Types.CustomerName c);
               trim (Types.Phone c); trim (Types.Mobile c)]) <$> customers).
Proof.
  intros Htrim Hheader Hne Hplain Hcodes Hdir Hfile.
  unfold saveFailedCustomers, Fs.run. rewrite writeFileSync_states by done.
  unfold parseCSV, Fs.readFileSync. cbn [List.last Fs.files].
  rewrite lookup_insert_eq.
  assert (failedContent customers
          = join (String linefeed EmptyString)
              ("Code,CustomerName,Phone,Mobile" :: (failedRow <$> customers)))
    as ->.
  { unfold failedContent. rewrite join_cons; [done|]. by destruct customers. }
  rewrite splitLines_join.
  2:{ apply Forall_cons. split; [reflexivity|]. apply Forall_fmap.
      eapply Forall_impl; [exact Hplain|]. intros c [Hc _]. cbn.
      by apply plain_fields. }
  rewrite filter_cons_True by exact Hheader.
  assert (filter (fun line => trim line <> EmptyString) (failedRow <$> customers)
          = failedRow <$> customers) as ->.
  { clear -Hplain. induction Hplain as [|c rest [_ Hc] _ IH]; [done|].
    cbn [fmap list_fmap]. rewrite filter_cons_True by exact Hc. by rewrite IH. }
  rewrite bool_decide_eq_false_2 by discriminate.
  change "Code,CustomerName,Phone,Mobile"
    with ("Code" +:+ String "," ("CustomerName" +:+ String ","
            ("Phone" +:+ String "," "Mobile"))).
  rewrite scan_four by reflexivity.
  rewrite (Htrim "Code"), (Htrim "CustomerName"), (Htrim "Phone"),
    (Htrim "Mobile")
    by (unfold requiredHeaders;
        repeat first [apply list_elem_of_here|apply list_elem_of_further]).
  change ["Code"; "CustomerName"; "Phone"; "Mobile"] with requiredHeaders.
  assert (isValid (validateCSVStructure requiredHeaders) = true) as ->
    by reflexivity.
  cbn [negb]. f_equal. unfold parseRows.
  rewrite <- list_fmap_compose.
  assert (forall c, c ∈ customers ->
            parseCSVLine trim (failedRow c)
            = [trim (Types.Code c); trim (Types.CustomerName c);
               trim (Types.Phone c); trim (Types.Mobile c)]) as Hrow.
  { intros c Hc. rewrite Forall_forall in Hplain.
    destruct (Hplain c Hc) as [Hp _].
    destruct (plain_fields c Hp) as [(? & ? & ? & ? & ? & ? & ?) _].
    by apply scan_failedRow. }
  assert ((parseCSVLine trim ∘ failedRow) <$> customers
          = (fun c => [trim (Types.Code c); trim (Types.CustomerName c);
                       trim (Types.Phone c); trim (Types.Mobile c)])
              <$> customers) as ->.
  { apply list_fmap_ext. intros i c Hc. cbn [compose].
    by apply Hrow, (list_elem_of_lookup_2 _ i). }
  rewrite rowLoop_all_kept.
  - by rewrite app_nil_l, <- list_fmap_compose.
  - apply Forall_fmap, Forall_forall. intros c _. cbn. lia.
  - rewrite <- list_fmap_compose.
    erewrite list_fmap_ext; [exact Hcodes|]. intros i c _. cbn [compose].
    unfold codeOf.
    rewrite (rowObject_value requiredHeaders _ 0 "Code"); [done| |done|done].
    apply (bool_decide_unpack _). by vm_compute.
  - intros values _. apply not_elem_of_empty.
Qed.

End FailedFile.

Section AcceptedNumbers.

Import CustomerChecks.

Context (trim : string -> string) (cfg : Config.t).

Let cc := Config.countryCode (Config.validation cfg).
Let L := Config.phoneNumberLength (Config.validation cfg).

Lemma append_length (s1 s2 : string) :
  String.length (s1 +:+ s2) = (String.length s1 + String.length s2)%nat.
Proof.
  induction s1 as [|c s1 IH]; [done|]. rewrite append_cons. simpl. by rewrite IH.
Qed.

Lemma formatPhoneNumber_length (phone : string) :
  let digits := Validators.cleanPhoneNumber phone in
  Z.of_nat (String.length (Validators.formatPhoneNumber cfg phone))
  = if Js.startsWith digits "0"
    then Z.of_nat (String.length cc) + Z.of_nat (String.length digits) - 1
    else if Js.startsWith digits cc
    then Z.of_nat (String.length digits)
    else Z.of_nat (String.length cc) + Z.of_nat (String.length digits).
Proof.
  intros digits. unfold Validators.formatPhoneNumber. fold cc digits.
  destruct (Js.startsWith digits "0") eqn:E0.
  - unfold Js.startsWith in E0. apply prefix_first in E0 as [rest ->].
    cbn [Js.substring1]. rewrite append_length. simpl String.length. lia.
  - destruct (Js.startsWith digits cc); cbn [negb]; [done|].
    rewrite append_length. lia.
Qed.

(** X28: which entries [validatePhoneNumber] accepts. An entry is accepted
    exactly when it is not blank, is none of the four placeholder values,
    has at least one digit, and its digits make a number of the configured
    length: one digit more than the length less the country code when they
    begin with a zero, exactly the length when they begin with the country
    code, and the length less the country code otherwise. *)
Theorem validatePhoneNumber_accepts_iff (phone : string) :
  isValid (validatePhoneNumber trim cfg phone) = true <->
  blank trim phone = false /\
  (trim phone ∉ invalidPatterns) /\
  let digits := Validators.cleanPhoneNumber phone in
  digits <> EmptyString /\
  (if Js.startsWith digits "0"
   then Z.of_nat (String.length cc) + Z.of_nat (String.length digits) - 1
   else if Js.startsWith digits cc
   then Z.of_nat (String.length digits)
   else Z.of_nat (String.length cc) + Z.of_nat (String.length digits)) = L.
Proof.
  cbn zeta. rewrite <- formatPhoneNumber_length.
  unfold validatePhoneNumber. fold cc L.
  assert (Validators.formatPhoneNumber cfg (Validators.cleanPhoneNumber phone) =
          Validators.formatPhoneNumber cfg phone) as ->.
  { unfold Validators.formatPhoneNumber, Validators.cleanPhoneNumber.
    by rewrite (strip_non_digits_fixed _ (strip_non_digits_all_digits phone)). }
  pose proof (formatPhoneNumber_startsWith cfg phone) as Hcc. fold cc in Hcc.
  rewrite Hcc. cbn [negb].
  destruct (blank trim phone); [cbn; intuition discriminate|].
  case_bool_decide as Hpattern; [cbn; intuition discriminate|].
  destruct (Validators.cleanPhoneNumber phone) as [|c digits] eqn:Edigits.
  { cbn. intuition discriminate. }
  change (String.length (String c digits) =? 0)%nat with false. cbn iota.
  destruct (Z.of_nat _ =? L) eqn:EL; cbn [negb isValid rejected].
  - apply Z.eqb_eq in EL. intuition discriminate.
  - apply Z.eqb_neq in EL. intuition discriminate.
Qed.

End AcceptedNumbers.

Section EachRecipient.

Import Types Engine Trace.

Context (cfg : Config.t)
        (toISOString : Date -> string)
        (client : nat -> ProcessedCustomer -> nat -> Reply)
        (random : nat -> Js.Draw)
        (isShuttingDown : nat -> bool).

Let M := Config.maxRetries (Config.errorHandling cfg).





End EachRecipient.

Section GoDuplicates.

Import GoIntake.

Context (ToUpper : string -> string) (config : Config).




End GoDuplicates.

Section DuplicateNumbers.

Import Types Engine Trace.


End DuplicateNumbers.

(** * The properties on sample inputs *)

Lemma sendMessageWithRetry_bounded_witness :
  0 <= Config.maxRetries (Config.errorHandling Config.config) /\
  let out :=
    Engine.sendMessageWithRetry Config.config
      (Sample.offline 0 (Sample.recipient 0)) (Sample.recipient 0) true 0 in
  0 <= Types.retryCount out.1.1 <= 3 /\
  Engine.attempts_made out.1.2 = S (Z.to_nat (Types.retryCount out.1.1)) /\
  Engine.sleeps out.1.2 = repeat 30000 (Z.to_nat (Types.retryCount out.1.1)) /\
  out.2 = 0 + Types.retryCount out.1.1 * Z.max 0 30000 /\
  Types.timestamp out.1.1 = out.2 /\
  Types.customer out.1.1 = Sample.recipient 0.
Proof.
  assert (0 <= Config.maxRetries (Config.errorHandling Config.config)) as HM
    by (simpl; lia).
  exact (conj HM
           (sendMessageWithRetry_bounded Config.config
              (Sample.offline 0 (Sample.recipient 0)) (Sample.recipient 0)
              true 0 HM)).
Defined.

Lemma all_delivered_witness :
  0 <= Config.maxRetries (Config.errorHandling Config.config) /\
  (forall i, Sample.running i = false) /\
  (forall i c, Sample.delivering i c 0%nat = Engine.Delivered) /\
  let customers := [Sample.recipient 0; Sample.recipient 1; Sample.recipient 2] in
  let st' :=
    Engine.sendMessagesToCustomers Config.config Sample.printDate
      Sample.delivering Sample.lowest Sample.running customers (Sample.start 3) in
  Tracker.counters (Engine.tracker st') = (3, 3, 0, 0) /\
  Engine.sends_made (Engine.trace st') = 3%nat /\
  Tracker.getFailedCustomers (Engine.tracker st') = [].
Proof.
  assert (0 <= Config.maxRetries (Config.errorHandling Config.config)) as HM
    by (simpl; lia).
  assert (forall i, Sample.running i = false) as Hrun by reflexivity.
  assert (forall i c, Sample.delivering i c 0%nat = Engine.Delivered) as Hcl
    by reflexivity.
  split; [exact HM|]. split; [exact Hrun|]. split; [exact Hcl|].
  destruct (all_delivered Config.config Sample.printDate Sample.delivering
              Sample.lowest Sample.running
              [Sample.recipient 0; Sample.recipient 1; Sample.recipient 2]
              (Sample.start 3) HM Hrun Hcl) as (Hcount & Hsends & _ & Hfailed).
  split; [exact (Hcount 0 0 0 0 eq_refl)|]. split; [exact Hsends|exact Hfailed].
Defined.

Lemma batches_taken_witness :
  0 < Config.batchSize (Config.timing Config.config) /\
  (forall i, Sample.running i = false) /\
  Types.currentBatch
    (Tracker.state
       (Engine.tracker
          (Engine.sendMessagesToCustomers Config.config Sample.printDate
             Sample.delivering Sample.lowest Sample.running
             (Sample.recipient <$> seq 0 45) (Sample.start 45))))
  = Types.currentBatch (Tracker.state (Engine.tracker (Sample.start 45)))
    + Z.of_nat (length (Sample.recipient <$> seq 0 45)) / 20.
Proof.
  assert (0 < Config.batchSize (Config.timing Config.config)) as HB
    by (simpl; lia).
  assert (forall i, Sample.running i = false) as Hrun by reflexivity.
  exact (conj HB (conj Hrun
           (batches_taken Config.config Sample.printDate Sample.delivering
              Sample.lowest Sample.running (Sample.recipient <$> seq 0 45)
              (Sample.start 45) HB Hrun))).
Defined.

Lemma shutdown_stops_queue_witness :
  let isShuttingDown := fun i => (2 <=? i)%nat in
  let customers := Sample.recipient <$> seq 0 5 in
  let stopped :=
    Engine.sendMessagesToCustomers Config.config Sample.printDate
      Sample.delivering Sample.lowest isShuttingDown customers (Sample.start 5) in
  let complete :=
    Engine.sendMessagesToCustomers Config.config Sample.printDate
      Sample.delivering Sample.lowest (fun _ => false) (take 2 customers)
      (Sample.start 5) in
  isShuttingDown 2%nat = true /\
  (forall j, (j < 2)%nat -> isShuttingDown j = false) /\
  Engine.tracker stopped = Engine.tracker complete /\
  Engine.trace stopped = Engine.trace complete /\
  Engine.now stopped = Engine.now complete.
Proof.
  intros isShuttingDown customers stopped complete.
  assert (isShuttingDown 2%nat = true) as Hk by reflexivity.
  assert (forall j, (j < 2)%nat -> isShuttingDown j = false) as Hbefore.
  { intros j Hj. subst isShuttingDown. cbn beta. apply Nat.leb_gt. exact Hj. }
  exact (conj Hk (conj Hbefore
           (shutdown_stops_queue Config.config Sample.printDate
              Sample.delivering Sample.lowest isShuttingDown 2 customers
              (Sample.start 5) Hk Hbefore))).
Defined.

Lemma tracker_lists_match_counters_witness :
  let w :=
    Tracker.call Sample.printDate Tracker.RecordSkipped
      (Tracker.call Sample.printDate (Tracker.Initialize 2 0)
         (Tracker.create 0, Sample.disk)) in
  Tracker.reachable Sample.printDate w /\
  Z.of_nat (length (Tracker.messageResults w.1)) =
    Types.successfulSends (Tracker.state w.1)
    + Types.failedSends (Tracker.state w.1) /\
  length (Tracker.delays w.1) = length (Tracker.messageResults w.1) /\
  Z.of_nat (length (Tracker.getFailedCustomers w.1)) =
    Types.failedSends (Tracker.state w.1) /\
  -1 <= Types.lastProcessedIndex (Tracker.state w.1)
     < Types.processedCustomers (Tracker.state w.1) /\
  0 <= Types.successfulSends (Tracker.state w.1) /\
  0 <= Types.skippedCustomers (Tracker.state w.1) /\
  0 <= Types.currentBatch (Tracker.state w.1).
Proof.
  intros w.
  assert (Tracker.reachable Sample.printDate w) as Hw.
  { subst w. do 2 apply Tracker.reachable_call. apply Tracker.reachable_create. }
  exact (conj Hw (tracker_lists_match_counters Sample.printDate w Hw)).
Defined.
Lemma start_upToDate :
  Checkpoint.upToDate Sample.printDate
    (Engine.tracker (Sample.start 12)) (Engine.fs (Sample.start 12)).
Proof.
  split; [|split].
  - split; [|split]; [vm_compute; set_solver|vm_compute; congruence|].
    left. vm_compute. set_solver.
  - vm_compute. discriminate.
  - exists (Tracker.state (Engine.tracker (Sample.start 12))).
    split; vm_compute; reflexivity.
Qed.

Lemma checkpoint_every_ten_witness :
  let customers := Sample.recipient <$> seq 0 12 in
  let st' :=
    Engine.sendMessagesToCustomers Config.config Sample.printDate
      Sample.delivering Sample.lowest Sample.running customers
      (Sample.start 12) in
  (forall i, Sample.running i = false) /\
  Checkpoint.upToDate Sample.printDate
    (Engine.tracker (Sample.start 12)) (Engine.fs (Sample.start 12)) /\
  exists s,
    Fs.readFileSync (Tracker.progressFile (Engine.tracker st')) (Engine.fs st')
      = Some (Tracker.stringify Sample.printDate s) /\
    Types.processedCustomers (Tracker.state (Engine.tracker st')) = 12 /\
    Types.processedCustomers s = 10.
Proof.
  intros customers st'.
  assert (forall i, Sample.running i = false) as Hrun by reflexivity.
  split; [exact Hrun|]. split; [exact start_upToDate|].
  destruct (checkpoint_every_ten Config.config Sample.printDate
              Sample.delivering Sample.lowest Sample.running customers
              (Sample.start 12) Hrun start_upToDate) as [_ (s & Hfile & Hmem & Hs)].
  exists s. split; [exact Hfile|]. split; [exact Hmem|exact Hs].
Defined.

Lemma getRandomTemplate_in_list_witness :
  Js.unit_interval (Sample.highest 0) /\
  exists template,
    Config.getRandomTemplate ["Hello"; "Good morning"; "Dear customer"]
      "Hi" (Sample.highest 0) = Some template /\
    (template ∈ ["Hello"; "Good morning"; "Dear customer"] \/
     (["Hello"; "Good morning"; "Dear customer"] = [] /\ template = "Hi")).
Proof.
  assert (Js.unit_interval (Sample.highest 0)) as Hr
    by (unfold Js.unit_interval; simpl; lia).
  exact (conj Hr
           (getRandomTemplate_in_list ["Hello"; "Good morning"; "Dear customer"]
              "Hi" (Sample.highest 0) Hr)).
Defined.

Lemma selected_phone_not_blank_witness :
  CustomerChecks.isValid
    (CustomerChecks.validateCustomerData Examples.trim (Examples.customer 1))
  = true /\
  CustomerChecks.blank Examples.trim
    (CustomerChecks.selectBestPhoneNumber Examples.trim Config.config
       (Examples.customer 1)) = false /\
  CustomerChecks.selectBestPhoneNumber Examples.trim Config.config
    (Examples.customer 1) = Types.Mobile (Examples.customer 1).
Proof.
  assert (CustomerChecks.isValid
            (CustomerChecks.validateCustomerData Examples.trim
               (Examples.customer 1)) = true) as Hvalid by reflexivity.
  split; [exact Hvalid|].
  destruct (selected_phone_not_blank Examples.trim Config.config
              (Examples.customer 1) Hvalid) as (_ & _ & Hblank & _ & Hmobile).
  split; [exact Hblank|]. apply Hmobile; reflexivity.
Defined.

Lemma failedRow_reads_back_witness :
  let c := Examples.customer 1 in
  JsText.occurs JsText.dquote (Types.Code c) = false /\
  JsText.occurs "," (Types.Code c) = false /\
  JsText.occurs JsText.dquote (Types.CustomerName c) = false /\
  JsText.occurs JsText.dquote (Types.Phone c) = false /\
  JsText.occurs "," (Types.Phone c) = false /\
  JsText.occurs JsText.dquote (Types.Mobile c) = false /\
  JsText.occurs "," (Types.Mobile c) = false /\
  CsvFile.parseCSVLine Examples.trim (CsvFile.failedRow c) =
  [Examples.trim (Types.Code c); Examples.trim (Types.CustomerName c);
   Examples.trim (Types.Phone c); Examples.trim (Types.Mobile c)].
Proof.
  intros c.
  do 7 (split; [reflexivity|]).
  apply (failedRow_reads_back Examples.trim c); reflexivity.
Defined.

Lemma campaign_contacts_formatted_numbers_witness :
  Config.skipInvalidNumbers (Config.validation Config.config) = true /\
  let queue :=
    Intake.processCustomers Examples.trim Examples.toUpperCase Examples.trim
      Config.config [Examples.customer 1; Examples.special; Examples.customer 2] in
  let st' :=
    Engine.sendMessagesToCustomers Config.config Sample.printDate
      Sample.delivering Sample.lowest Sample.running queue (Sample.start 2) in
  exists evs,
    Engine.trace st' = Engine.trace (Sample.start 2) ++ evs /\
    Forall (fun n =>
              exists phone,
                n = phone +:+ "@c.us" /\
                Z.of_nat (String.length phone) = 12 /\
                Js.startsWith phone "20" = true /\
                (Js.all_digits "20" = true -> Js.all_digits phone = true))
           (Trace.contacted evs).
Proof.
  assert (Config.skipInvalidNumbers (Config.validation Config.config) = true)
    as Hskip by reflexivity.
  exact (conj Hskip
           (campaign_contacts_formatted_numbers Examples.trim
              Examples.toUpperCase Examples.trim Config.config Sample.printDate
              Sample.delivering Sample.lowest Sample.running
              [Examples.customer 1; Examples.special; Examples.customer 2]
              (Sample.start 2) Hskip)).
Defined.

Lemma renderMessageTemplate_fits_witness :
  Js.unit_interval (Sample.lowest 0) /\
  exists message,
    MessageHandler.renderMessageTemplate Examples.replaceNone Examples.trimNone
      4 [] Examples.greeting (Sample.recipient 0) None (Sample.lowest 0)
    = Some message /\
    Z.of_nat (length message) <= 4.
Proof.
  assert (Js.unit_interval (Sample.lowest 0)) as Hr
    by (unfold Js.unit_interval; simpl; lia).
  split; [exact Hr|].
  destruct (renderMessageTemplate_fits Examples.replaceNone Examples.trimNone
              4 [] Examples.greeting (Sample.recipient 0) None (Sample.lowest 0)
              Hr) as (message & Hrender & Hfits & _).
  exists message. split; [exact Hrender|]. apply Hfits. lia.
Defined.

Lemma formatPhoneNumber_ports_witness :
  Config.countryCode (Config.validation Config.config)
  = GoIntake.CountryCode Examples.goConfig /\
  GoIntake.formatPhoneNumber Examples.goConfig
    (GoIntake.cleanPhoneNumber "020 100 0000 001")
  = "201000000001" /\
  Validators.formatPhoneNumber Config.config "020 100 0000 001"
  = "20" +:+ "201000000001".
Proof.
  assert (Config.countryCode (Config.validation Config.config)
          = GoIntake.CountryCode Examples.goConfig) as Hcc by reflexivity.
  split; [exact Hcc|].
  pose proof (formatPhoneNumber_ports Examples.goConfig Config.config
                "020 100 0000 001" Hcc) as Hports.
  exact Hports.
Defined.

Lemma failed_customers_file_reads_back_witness :
  let customers := [Examples.customer 1; Examples.customer 2] in
  let filePath := "./data/failed-customers.csv" in
  let fs := Engine.fs (Sample.start 2) in
  (forall h, h ∈ CustomerChecks.requiredHeaders -> Examples.trim h = h) /\
  Examples.trim "Code,CustomerName,Phone,Mobile" <> EmptyString /\
  customers <> [] /\
  Forall (fun c => CsvFile.plain c = true /\
                   Examples.trim (CsvFile.failedRow c) <> EmptyString) customers /\
  NoDup ((fun c => Examples.trim (Types.Code c)) <$> customers) /\
  Fs.dirname filePath ∈ Fs.dirs fs /\ (filePath ∉ Fs.dirs fs) /\
  CsvFile.parseCSV Examples.trim filePath
    (CsvFile.saveFailedCustomers customers filePath fs)
  = inr ((fun c =>
            CsvParser.rowObject CustomerChecks.requiredHeaders
              [Examples.trim (Types.Code c); Examples.trim (Types.CustomerName c);
               Examples.trim (Types.Phone c); Examples.trim (Types.Mobile c)])
           <$> customers).
Proof.
  intros customers filePath fs.
  assert (forall h, h ∈ CustomerChecks.requiredHeaders -> Examples.trim h = h)
    as Htrim.
  { intros h Hh. unfold CustomerChecks.requiredHeaders in Hh.
    repeat (apply elem_of_cons in Hh as [->|Hh]; [reflexivity|]).
    by apply elem_of_nil in Hh. }
  assert (Examples.trim "Code,CustomerName,Phone,Mobile" <> EmptyString)
    as Hheader by (vm_compute; discriminate).
  assert (customers <> []) as Hne by discriminate.
  assert (Forall (fun c => CsvFile.plain c = true /\
                           Examples.trim (CsvFile.failedRow c) <> EmptyString)
                 customers) as Hplain.
  { repeat constructor; vm_compute; discriminate. }
  assert (NoDup ((fun c => Examples.trim (Types.Code c)) <$> customers))
    as Hcodes by (apply (bool_decide_unpack _); vm_compute; exact I).
  assert (Fs.dirname filePath ∈ Fs.dirs fs) as Hdir by (vm_compute; set_solver).
  assert (filePath ∉ Fs.dirs fs) as Hfile by (vm_compute; set_solver).
  do 7 (split; [assumption|]).
  exact (failed_customers_file_reads_back Examples.trim customers filePath fs
           Htrim Hheader Hne Hplain Hcodes Hdir Hfile).
Defined.

